(** * Temporal embedding extraction: a shallow embedding of
    [sonotheia-temporal/scripts/extract_embeddings.py]

    The script loads an audio file, transcribes it with word timing,
    runs a language model over the transcript, aligns the per-token
    layer outputs with the timed words, and writes a table and a plot.

    The pretrained models, the audio decoder, the numerical reductions
    and the plotting backend are libraries the script calls: they are
    interfaces here (type classes), and everything the script itself
    does with their results is written out. *)

From Stdlib Require Import String Ascii List Arith Bool Lia.
From Stdlib Require Import Decimal DecimalNat DecimalString.
From Stdlib Require Import ZArith QArith.
From Stdlib Require Import Floats.SpecFloat.
From stdpp Require Import base option list gmap strings sorting.

Close Scope Q_scope.

Set Warnings "-abstract-large-number".

Local Open Scope string_scope.
Local Open Scope list_scope.
Local Open Scope nat_scope.

(** ** Python exceptions *)

(** The exception classes the script raises, catches, or can receive
    from a library, with the standard class hierarchy. *)
Inductive exn_class : Type :=
| BaseException
| SystemExit
| KeyboardInterrupt
| Exception
| OSError
| FileNotFoundError
| FileExistsError
| NotADirectoryError
| IsADirectoryError
| RuntimeError
| NotImplementedError
| IndexError
| KeyError
| TypeError
| ValueError
| ZeroDivisionError.

Definition exn_class_eqb (c d : exn_class) : bool :=
  match c, d with
  | BaseException, BaseException | SystemExit, SystemExit
  | KeyboardInterrupt, KeyboardInterrupt | Exception, Exception
  | OSError, OSError | FileNotFoundError, FileNotFoundError
  | FileExistsError, FileExistsError
  | NotADirectoryError, NotADirectoryError
  | IsADirectoryError, IsADirectoryError | RuntimeError, RuntimeError
  | NotImplementedError, NotImplementedError | IndexError, IndexError
  | KeyError, KeyError | TypeError, TypeError | ValueError, ValueError
  | ZeroDivisionError, ZeroDivisionError => true
  | _, _ => false
  end.

(** The direct base class. *)
Definition base_class (c : exn_class) : option exn_class :=
  match c with
  | BaseException => None
  | SystemExit | KeyboardInterrupt | Exception => Some BaseException
  | OSError | RuntimeError | IndexError | KeyError | TypeError
  | ValueError | ZeroDivisionError => Some Exception
  | FileNotFoundError | FileExistsError | NotADirectoryError
  | IsADirectoryError => Some OSError
  | NotImplementedError => Some RuntimeError
  end.

Fixpoint issubclass_upto (depth : nat) (c d : exn_class) : bool :=
  exn_class_eqb c d ||
  match depth, base_class c with
  | S depth', Some b => issubclass_upto depth' b d
  | _, _ => false
  end.

(** The hierarchy above is three levels deep. *)
Definition issubclass : exn_class -> exn_class -> bool := issubclass_upto 3.

(** An exception instance: its class and [str(e)]. *)
Record exn : Type := PyErr { exn_type : exn_class; exn_str : string }.

(** [except cls:] matches the instances of [cls] and of its subclasses. *)
Definition isinstance (e : exn) (cls : exn_class) : bool :=
  issubclass (exn_type e) cls.

(** The outcome of a call: a value, or a raised exception. *)
Inductive result (A : Type) : Type :=
| Ok (a : A)
| Raise (e : exn).
Arguments Ok {A} a.
Arguments Raise {A} e.

#[export] Instance result_ret : MRet result := fun A a => Ok a.
#[export] Instance result_bind : MBind result := fun A B f m =>
  match m with
  | Ok a => f a
  | Raise e => Raise e
  end.

(** ** Strings

    A Python [str] is held as the bytes of its UTF-8 encoding: a
    character outside ASCII takes two to four bytes, none of which is
    an ASCII byte. *)

(** The line feed, written [\n] in the source's string literals. *)
Definition nl : string := String (ascii_of_nat 10) EmptyString.

(** [str(n)] and [f"{n}"] for a non-negative integer. *)
Definition str_of_nat (n : nat) : string :=
  NilEmpty.string_of_uint (Nat.to_uint n).

Fixpoint str_startswith (p s : string) : bool :=
  match p, s with
  | EmptyString, _ => true
  | String a p', String b s' => Ascii.eqb a b && str_startswith p' s'
  | String _ _, EmptyString => false
  end.

(** [s.replace(old, new)] for a non-empty [old]: left to right,
    non-overlapping.  [skip] counts the characters of a match that are
    still to be dropped. *)
Fixpoint str_replace_from (old new s : string) (skip : nat) : string :=
  match s with
  | EmptyString => EmptyString
  | String c s' =>
      match skip with
      | S k => str_replace_from old new s' k
      | O =>
          if str_startswith old s
          then new +:+ str_replace_from old new s' (String.length old - 1)
          else String c (str_replace_from old new s' 0)
      end
  end.

Definition str_replace (old new s : string) : string :=
  str_replace_from old new s 0.

(** [sep.join(parts)]. *)
Definition str_join (sep : string) (parts : list string) : string :=
  String.concat sep parts.

Fixpoint str_rev (s : string) : string :=
  match s with
  | EmptyString => EmptyString
  | String c s' => str_rev s' +:+ String c EmptyString
  end.

(** [s.endswith(suffix)]. *)
Definition str_endswith (suffix s : string) : bool :=
  str_startswith (str_rev suffix) (str_rev s).

(** [s[n:]], counted in bytes. *)
Fixpoint str_drop (n : nat) (s : string) : string :=
  match n, s with
  | S n', String _ s' => str_drop n' s'
  | _, _ => s
  end.

(** [needle in haystack] for strings, as a proposition. *)
Definition str_contains (haystack needle : string) : Prop :=
  exists pre post, haystack = pre +:+ needle +:+ post.

(** ** Sequences and dictionaries *)

(** [xs[i]] for a non-negative [i]: [IndexError] out of range. *)
Definition py_getitem {A : Type} (what : string) (xs : list A) (i : nat)
  : result A :=
  match xs !! i with
  | Some x => Ok x
  | None => Raise (PyErr IndexError (what +:+ " index out of range"))
  end.

(** A [dict] with string keys: insertion order is kept, and assigning
    to a key that is present replaces its value in place. *)
Definition dict (V : Type) : Type := list (string * V).

Fixpoint dict_get {V : Type} (k : string) (d : dict V) : option V :=
  match d with
  | [] => None
  | (k', v) :: d' => if String.eqb k k' then Some v else dict_get k d'
  end.

Fixpoint dict_set {V : Type} (k : string) (v : V) (d : dict V) : dict V :=
  match d with
  | [] => [(k, v)]
  | (k', v') :: d' =>
      if String.eqb k k' then (k, v) :: d' else (k', v') :: dict_set k v d'
  end.

Definition dict_keys {V : Type} (d : dict V) : list string := map fst d.

(** ** Arrays *)

(** A [numpy.ndarray] or [torch.Tensor]: a shape, and an element at
    every index within it.  [item] is only ever read inside the shape. *)
Record ndarray (F : Type) : Type := NdArray {
  shape : list nat;
  item : list nat -> F
}.
Arguments NdArray {F} shape item.
Arguments shape {F} _.
Arguments item {F} _ _.

(** All indices of a shape, in row-major order. *)
Fixpoint indices (sh : list nat) : list (list nat) :=
  match sh with
  | [] => [[]]
  | n :: sh' => flat_map (fun i => map (cons i) (indices sh')) (seq 0 n)
  end.

Section Arrays.
Context {F : Type}.

(** [a.shape[k]]: [IndexError] when the array has no axis [k]. *)
Definition shape_at (a : ndarray F) (k : nat) : result nat :=
  match shape a !! k with
  | Some n => Ok n
  | None => Raise (PyErr IndexError "tuple index out of range")
  end.

(** [a[i, j, :]], with its elements listed in row-major order (the
    order in which the reductions below consume them). *)
Definition getitem_2 (a : ndarray F) (i j : nat) : result (list F) :=
  match shape a with
  | n0 :: n1 :: n2 :: rest =>
      if negb (i <? n0) then
        Raise (PyErr IndexError "index out of bounds for axis 0")
      else if negb (j <? n1) then
        Raise (PyErr IndexError "index out of bounds for axis 1")
      else Ok (map (fun ix => item a (i :: j :: ix)) (indices (n2 :: rest)))
  | _ => Raise (PyErr IndexError "too many indices for array")
  end.

(** [torch.stack(ts)]: a new leading axis; the tensors must agree in
    shape and there must be at least one. *)
Definition torch_stack (ts : list (ndarray F)) : result (ndarray F) :=
  match ts with
  | [] => Raise (PyErr RuntimeError "stack expects a non-empty TensorList")
  | t0 :: _ =>
      if forallb (fun t => bool_decide (shape t = shape t0)) ts then
        Ok (NdArray (length ts :: shape t0)
              (fun ix =>
                 match ix with
                 | [] => item t0 []
                 | l :: ix' =>
                     match ts !! l with
                     | Some t => item t ix'
                     | None => item t0 ix'
                     end
                 end))
      else Raise (PyErr RuntimeError "stack expects each tensor to be equal size")
  end.

(** Insert [x] at position [k] of [l]. *)
Definition insert_at {A : Type} (k : nat) (x : A) (l : list A) : list A :=
  take k l ++ x :: drop k l.

(** [t.squeeze(dim)]: drops axis [dim] when its size is 1, and leaves
    the tensor as it is otherwise. *)
Definition torch_squeeze (dim : nat) (t : ndarray F) : result (ndarray F) :=
  match shape t !! dim with
  | None => Raise (PyErr IndexError "Dimension out of range")
  | Some 1 =>
      Ok (NdArray (take dim (shape t) ++ drop (S dim) (shape t))
            (fun ix => item t (insert_at dim 0 ix)))
  | Some _ => Ok t
  end.

(** [t.permute(1, 0, 2)] on a tensor of three axes. *)
Definition torch_permute_102 (t : ndarray F) : result (ndarray F) :=
  match shape t with
  | [n0; n1; n2] =>
      Ok (NdArray [n1; n0; n2]
            (fun ix =>
               match ix with
               | [i; j; k] => item t [j; i; k]
               | _ => item t ix
               end))
  | _ => Raise (PyErr RuntimeError
                  "permute: number of dims don't match in permute")
  end.
End Arrays.

(** The reductions of [numpy] the script applies to a vector. *)
Class Numpy (F : Type) : Type := {
  np_mean : list F -> F;
  np_std : list F -> F;
  np_linalg_norm : list F -> F
}.

(** ** Text helpers used by the script *)

(** The UTF-8 encoding of a code point. *)
Definition utf8 (cp : nat) : string :=
  let byte := fun n => String (ascii_of_nat n) EmptyString in
  if cp <? 128 then byte cp
  else if cp <? 2048 then
    byte (192 + cp / 64) +:+ byte (128 + cp mod 64)
  else if cp <? 65536 then
    byte (224 + cp / 4096) +:+ byte (128 + (cp / 64) mod 64) +:+
    byte (128 + cp mod 64)
  else
    byte (240 + cp / 262144) +:+ byte (128 + (cp / 4096) mod 64) +:+
    byte (128 + (cp / 64) mod 64) +:+ byte (128 + cp mod 64).

(** The code points [c] with [c.isspace()]: the ASCII controls 9 to 13
    and 28 to 31, the space, U+0085, U+00A0, U+1680, U+2000 to U+200A,
    U+2028, U+2029, U+202F, U+205F and U+3000. *)
Definition py_whitespace : list nat :=
  seq 9 5 ++ seq 28 4 ++ [32; 133; 160; 5760] ++ seq 8192 11 ++
  [8232; 8233; 8239; 8287; 12288].

Definition whitespace_chars : list string := map utf8 py_whitespace.

(** [s] without the first of [chars] it begins with, if it begins
    with any. *)
Definition strip_one (chars : list string) (s : string) : option string :=
  match List.find (fun c => str_startswith c s) chars with
  | Some c => Some (str_drop (String.length c) s)
  | None => None
  end.

(** Dropping leading [chars], at most [fuel] of them. *)
Fixpoint lstrip_chars (chars : list string) (fuel : nat) (s : string)
  : string :=
  match fuel with
  | 0 => s
  | S fuel' =>
      match strip_one chars s with
      | Some s' => lstrip_chars chars fuel' s'
      | None => s
      end
  end.

(** [s.lstrip(chars)] and [s.rstrip(chars)] for a list of characters;
    a string holds no more characters than bytes. *)
Definition str_lstrip_of (chars : list string) (s : string) : string :=
  lstrip_chars chars (String.length s) s.

Definition str_rstrip_of (chars : list string) (s : string) : string :=
  str_rev (str_lstrip_of (map str_rev chars) (str_rev s)).

(** [s.strip()]: white space is dropped from both ends. *)
Definition str_strip (s : string) : string :=
  str_rstrip_of whitespace_chars (str_lstrip_of whitespace_chars s).

Definition ascii_upper (c : ascii) : ascii :=
  let n := nat_of_ascii c in
  if (97 <=? n) && (n <=? 122) then ascii_of_nat (n - 32) else c.

Definition ascii_lower (c : ascii) : ascii :=
  let n := nat_of_ascii c in
  if (65 <=? n) && (n <=? 90) then ascii_of_nat (n + 32) else c.

Fixpoint str_map (f : ascii -> ascii) (s : string) : string :=
  match s with
  | EmptyString => EmptyString
  | String c s' => String (f c) (str_map f s')
  end.

(** [s.capitalize()] for ASCII text. *)
Definition str_capitalize (s : string) : string :=
  match s with
  | EmptyString => EmptyString
  | String c s' => String (ascii_upper c) (str_map ascii_lower s')
  end.

(** ** Data model *)

Section DataModel.
Context {F time : Type}.

(** A transcribed word with its start and end time. *)
Record Word : Type := MkWord {
  word : string;
  start : time;
  end_ : time
}.

(** An entry of [token_positions]. *)
Record TokenPosition : Type := MkPos {
  pos_word : string;
  pos_start : time;
  pos_end : time;
  token_idx : nat
}.

(** The value of a table cell. *)
Inductive cell : Type :=
| CellTime (t : time)
| CellStr (s : string)
| CellNum (x : F).

(** A [pandas.DataFrame] built from a list of dicts: the column
    names, and the records in order. *)
Record DataFrame : Type := MkDataFrame {
  columns : list string;
  records : list (dict cell)
}.

(** The keys of the records, each once, in order of first
    appearance. *)
Definition union_keys (rows : list (dict cell)) : list string :=
  fold_left
    (fun acc row =>
       fold_left
         (fun acc k => if bool_decide (k ∈ acc) then acc else acc ++ [k])
         (dict_keys row) acc)
    rows [].

(** [pd.DataFrame(rows)]. *)
Definition pd_DataFrame (rows : list (dict cell)) : DataFrame :=
  MkDataFrame (union_keys rows) rows.

(** What the plotting calls draw. *)
Record Figure : Type := MkFigure {
  heatmap_data : list (list (option cell));
  heatmap_label : string;
  heatmap_title : string;
  series : list (string * list (option cell) * list (option cell));
  series_ylabel : string;
  word_markers : list (option cell)
}.

(** The content of a file. *)
Inductive file_content : Type :=
| CsvFile (header : list string) (body : list (list (option cell)))
| NpyFile (a : ndarray F)
| ImageFile (fig : Figure)
| RawFile (data : string).

(** A file-system path: its components ([PurePath.parts]).  The
    empty path is the starting directory, which always exists. *)
Definition path : Type := list string.

(** External calls, in the order they are made. *)
Inductive call : Type :=
| CallExists (p : string)
| CallLibrosaLoad (p : string) (sr : nat)
| CallWhisperLoad (name : string)
| CallGpt2Load (name : string)
| CallTranscribe
| CallForward (ids : list nat)
| CallMkdir (p : path)
| CallToCsv (p : string)
| CallNpSave (p : string)
| CallSavefig (p : string).

(** The part of the outside world the script reads or changes. *)
Record world : Type := MkWorld {
  stdout : list string;
  stderr : list string;
  fs_dirs : gset path;
  fs_files : gmap path file_content;
  calls : list call
}.

(** ** Computations: state passing with exceptions *)

Definition M (A : Type) : Type := world -> result A * world.

#[export] Instance M_ret : MRet M := fun A a w => (Ok a, w).
#[export] Instance M_bind : MBind M := fun A B f m w =>
  match m w with
  | (Ok a, w') => f a w'
  | (Raise e, w') => (Raise e, w')
  end.

Definition raise {A : Type} (e : exn) : M A := fun w => (Raise e, w).

Definition lift {A : Type} (r : result A) : M A := fun w => (r, w).

(** [try: body except ...:], the handler chosen by [handler]; an
    exception no clause matches propagates. *)
Definition try_except {A : Type} (body : M A)
    (handler : exn -> option (M A)) : M A := fun w =>
  match body w with
  | (Ok a, w') => (Ok a, w')
  | (Raise e, w') =>
      match handler e with
      | Some h => h w'
      | None => (Raise e, w')
      end
  end.

Definition print (s : string) : M unit := fun w =>
  (Ok tt, MkWorld (stdout w ++ [s]) (stderr w) (fs_dirs w) (fs_files w)
            (calls w)).

(** What a library call writes to the standard output and to the
    error stream while it runs. *)
Definition emit_stdout (lines : list string) : M unit := fun w =>
  (Ok tt, MkWorld (stdout w ++ lines) (stderr w) (fs_dirs w) (fs_files w)
            (calls w)).

Definition emit_stderr (lines : list string) : M unit := fun w =>
  (Ok tt, MkWorld (stdout w) (stderr w ++ lines) (fs_dirs w) (fs_files w)
            (calls w)).

(** [print(s, file=sys.stderr)]. *)
Definition print_stderr (s : string) : M unit := fun w =>
  (Ok tt, MkWorld (stdout w) (stderr w ++ [s]) (fs_dirs w) (fs_files w)
            (calls w)).

Definition record_call (c : call) : M unit := fun w =>
  (Ok tt, MkWorld (stdout w) (stderr w) (fs_dirs w) (fs_files w)
            (calls w ++ [c])).

Definition get_world : M world := fun w => (Ok w, w).

(** ** The file system *)

Definition fs_exists (w : world) (p : path) : bool :=
  match p with
  | [] => true
  | _ => bool_decide (p ∈ fs_dirs w) || bool_decide (is_Some (fs_files w !! p))
  end.

Definition fs_is_dir (w : world) (p : path) : bool :=
  match p with
  | [] => true
  | _ => bool_decide (p ∈ fs_dirs w)
  end.

(** The non-empty prefixes of a path, shortest first. *)
Definition path_prefixes (p : path) : list path :=
  map (fun n => take n p) (seq 1 (length p)).

(** Whether a proper prefix of the path is a file. *)
Definition under_a_file (files : gmap path file_content) (p : path) : bool :=
  existsb (fun q => bool_decide (is_Some (files !! q)))
    (path_prefixes (removelast p)).

End DataModel.

Arguments Word : clear implicits.
Arguments TokenPosition : clear implicits.
Arguments cell : clear implicits.
Arguments DataFrame : clear implicits.
Arguments Figure : clear implicits.
Arguments file_content : clear implicits.
Arguments call : clear implicits.
Arguments world : clear implicits.
Arguments M : clear implicits.

(** ** The libraries the script calls *)

Section Models.
Context {F time : Type}.

(** An entry of a Whisper segment's ["words"] list. *)
Record WordInfo : Type := MkWordInfo {
  wi_word : string;
  wi_start : time;
  wi_end : time
}.

(** A Whisper segment; ["words"] may be absent. *)
Record Segment : Type := MkSegment {
  seg_words : option (list WordInfo)
}.

(** The result of [model.transcribe]. *)
Record Transcription : Type := MkTranscription {
  tr_text : string;
  tr_segments : list Segment
}.

(** A loaded Whisper model.  [whisper_transcribe audio wt verbose] is
    [model.transcribe(audio, word_timestamps=wt, verbose=verbose)];
    [whisper_stdout] and [whisper_stderr] are what that call writes
    while it runs: the detected language on the standard output
    (unless [verbose] is [None]), and warnings and the progress bar
    (shown when [verbose] is [False]) on the error stream. *)
Record WhisperModel : Type := MkWhisperModel {
  whisper_transcribe : ndarray F -> bool -> option bool -> result Transcription;
  whisper_stdout : ndarray F -> bool -> option bool -> list string;
  whisper_stderr : ndarray F -> bool -> option bool -> list string
}.

(** The tokenizer: [tokenizer(text)["input_ids"][0]],
    [tokenizer.encode(text, add_special_tokens=False)] and
    [tokenizer.decode(ids)]. *)
Record GPT2Tokenizer : Type := MkTokenizer {
  tok_input_ids : string -> list nat;
  tok_encode : string -> list nat;
  tok_decode : list nat -> string
}.

(** The language model: [config.n_layer], and the [hidden_states] of
    a forward pass over one sequence of token ids. *)
Record GPT2Model : Type := MkGPT2Model {
  config_n_layer : nat;
  gpt2_hidden_states : list nat -> result (list (ndarray F))
}.
End Models.

Arguments WordInfo : clear implicits.
Arguments Segment : clear implicits.
Arguments Transcription : clear implicits.
Arguments WhisperModel : clear implicits.
Arguments GPT2Model : clear implicits.

Class Libraries (F time : Type) : Type := {
  torch_cuda_is_available : bool;
  (** [whisper.load_model(name, device=device)] *)
  whisper_load_model : string -> string -> result (WhisperModel F time);
  (** [GPT2Tokenizer.from_pretrained(name)] *)
  GPT2Tokenizer_from_pretrained : string -> result GPT2Tokenizer;
  (** [GPT2Model.from_pretrained(name)], moved to the device and put in
      evaluation mode *)
  GPT2Model_from_pretrained : string -> string -> result (GPT2Model F);
  (** [librosa.load(path, sr=sr, mono=mono)]: the signal and its rate *)
  librosa_load :
    world F time -> string -> nat -> bool -> result (ndarray F * nat);
  (** [f"{n / sr:.2f}"] *)
  format_ratio_2f : nat -> nat -> string;
  (** [sns.heatmap(data, ...)] and the axis calls around it *)
  sns_heatmap : list (list (option (cell F time))) -> result unit;
  (** rendering the figure for [plt.savefig] *)
  plt_render : Figure F time -> result unit;
  (** the file formats the plotting backend can write, sorted
      ([canvas.get_supported_filetypes()]) *)
  savefig_formats : list string;
  (** whether [DataFrame.duplicated] takes two entries of a column for
      the same value ([None] is a missing entry) *)
  pd_same_value : option (cell F time) -> option (cell F time) -> bool;
  (** [repr(s)] of a string *)
  py_repr : string -> string;
  (** [traceback.format_exc()] *)
  traceback_format_exc : exn -> string;
  (** [Path(s)], [str(p)], [p.stem] and [Path(__file__)] *)
  path_of_str : string -> path;
  str_of_path : path -> string;
  path_stem : path -> string;
  script_file : path
}.

(** ** The extractor *)

Section Script.
Context {F time : Type} `{!Numpy F} `{!Libraries F time}.

Abbreviation M := (M F time).
Abbreviation world := (world F time).
Abbreviation cell := (cell F time).
Abbreviation DataFrame := (DataFrame F time).

Record AudioEmbeddingExtractor : Type := MkExtractor {
  device : string;
  whisper_model : WhisperModel F time;
  tokenizer : GPT2Tokenizer;
  gpt2_model : GPT2Model F;
  num_layers : nat
}.

(** The clause [except Exception as e: raise RuntimeError(msg(e))]. *)
Definition reraise_as_RuntimeError {A : Type} (msg : exn -> string)
  : exn -> option (M A) := fun e =>
  if isinstance e Exception
  then Some (raise (PyErr RuntimeError (msg e)))
  else None.

(** [AudioEmbeddingExtractor.__init__]. *)
Definition init (whisper_name gpt2_name : string) (dev : option string)
  : M AudioEmbeddingExtractor :=
  let device :=
    match dev with
    | None => if torch_cuda_is_available then "cuda" else "cpu"
    | Some d => d
    end in
  print ("Using device: " +:+ device);;
  print ("Loading Whisper model (" +:+ whisper_name +:+ ")...");;
  wm ← try_except
         (record_call (CallWhisperLoad whisper_name);;
          lift (whisper_load_model whisper_name device))
         (reraise_as_RuntimeError
            (fun e => "Failed to load Whisper model: " +:+ exn_str e));
  print ("Loading GPT-2 model (" +:+ gpt2_name +:+ ")...");;
  '(tok, gpt2) ← try_except
         (record_call (CallGpt2Load gpt2_name);;
          tok ← lift (GPT2Tokenizer_from_pretrained gpt2_name);
          gpt2 ← lift (GPT2Model_from_pretrained gpt2_name device);
          mret (tok, gpt2))
         (reraise_as_RuntimeError
            (fun e => "Failed to load GPT-2 model: " +:+ exn_str e));
  let num_layers := config_n_layer gpt2 in
  print ("GPT-2 model has " +:+ str_of_nat num_layers +:+ " layers");;
  mret (MkExtractor device wm tok gpt2 num_layers).

(** [len(a)] of an array. *)
Definition np_len (a : ndarray F) : result nat :=
  match shape a with
  | n :: _ => Ok n
  | [] => Raise (PyErr TypeError "len() of unsized object")
  end.

(** [os.path.exists(p)]: a file or a directory; the empty string names
    nothing. *)
Definition os_path_exists (w : world) (p : string) : bool :=
  match p with
  | EmptyString => false
  | _ => fs_exists w (path_of_str p)
  end.

(** [load_audio(audio_path, sr)]. *)
Definition load_audio (audio_path : string) (sr : nat) : M (ndarray F) :=
  record_call (CallExists audio_path);;
  w ← get_world;
  if negb (os_path_exists w audio_path) then
    raise (PyErr FileNotFoundError ("Audio file not found: " +:+ audio_path))
  else
    print (nl +:+ "Loading audio from: " +:+ audio_path);;
    try_except
      (record_call (CallLibrosaLoad audio_path sr);;
       w ← get_world;
       '(audio, _) ← lift (librosa_load w audio_path sr true);
       n ← lift (np_len audio);
       (if sr =? 0
        then raise (PyErr ZeroDivisionError "division by zero")
        else mret tt);;
       print ("Audio duration: " +:+ format_ratio_2f n sr +:+ " seconds");;
       print ("Sample rate: " +:+ str_of_nat sr +:+ " Hz");;
       mret audio)
      (reraise_as_RuntimeError
         (fun e => "Failed to load audio file: " +:+ exn_str e +:+ nl +:+
                   "Supported formats: WAV, MP3, FLAC, OGG, M4A")).

(** The words of all segments that carry word timing. *)
Definition collect_words (segments : list (Segment time)) : list (Word time) :=
  flat_map
    (fun seg =>
       match seg_words seg with
       | Some ws =>
           map (fun wi => MkWord (str_strip (wi_word wi)) (wi_start wi)
                            (wi_end wi)) ws
       | None => []
       end)
    segments.

(** [transcribe_with_timestamps(audio)]. *)
Definition transcribe_with_timestamps (self : AudioEmbeddingExtractor)
    (audio : ndarray F) : M (string * list (Word time)) :=
  print (nl +:+ "Transcribing audio with Whisper...");;
  try_except
    (record_call CallTranscribe;;
     emit_stdout (whisper_stdout (whisper_model self) audio true (Some false));;
     emit_stderr (whisper_stderr (whisper_model self) audio true (Some false));;
     res ← lift (whisper_transcribe (whisper_model self) audio true
                   (Some false));
     let words_with_timestamps := collect_words (tr_segments res) in
     print ("Transcription complete: " +:+
            str_of_nat (length words_with_timestamps) +:+ " words detected");;
     print ("Full text: " +:+ tr_text res);;
     mret (tr_text res, words_with_timestamps))
    (reraise_as_RuntimeError
       (fun e => "Transcription failed: " +:+ exn_str e)).

(** [str(embeddings.shape)]. *)
Definition str_of_shape (sh : list nat) : string :=
  match sh with
  | [n] => "(" +:+ str_of_nat n +:+ ",)"
  | _ => "(" +:+ str_join ", " (map str_of_nat sh) +:+ ")"
  end.

(** [extract_gpt2_embeddings(text)]. *)
Definition extract_gpt2_embeddings (self : AudioEmbeddingExtractor)
    (text : string) : M (ndarray F * list string) :=
  print (nl +:+ "Extracting GPT-2 embeddings...");;
  let input_ids := tok_input_ids (tokenizer self) text in
  let tokens :=
    map (fun token_id => tok_decode (tokenizer self) [token_id]) input_ids in
  print ("Processing " +:+ str_of_nat (length tokens) +:+ " tokens...");;
  record_call (CallForward input_ids);;
  hidden_states ← lift (gpt2_hidden_states (gpt2_model self) input_ids);
  layer_embeddings ← lift (torch_stack (drop 1 hidden_states));
  layer_embeddings ← lift (torch_squeeze 1 layer_embeddings);
  layer_embeddings ← lift (torch_permute_102 layer_embeddings);
  let embeddings := layer_embeddings in
  print ("Extracted embeddings shape: " +:+ str_of_shape (shape embeddings));;
  n0 ← lift (shape_at embeddings 0);
  print ("  - Tokens: " +:+ str_of_nat n0);;
  n1 ← lift (shape_at embeddings 1);
  print ("  - Layers: " +:+ str_of_nat n1);;
  n2 ← lift (shape_at embeddings 2);
  print ("  - Embedding dimension: " +:+ str_of_nat n2);;
  mret (embeddings, tokens).

(** The inner loop of the alignment: one step per token of the word's
    own tokenization; a step records the cursor and advances it only
    while the cursor is inside the token list. *)
Fixpoint assign_word_tokens (word_info : Word time) (word_tokens : list nat)
    (n_tokens : nat) (token_positions : list (TokenPosition time))
    (current_pos : nat) : list (TokenPosition time) * nat :=
  match word_tokens with
  | [] => (token_positions, current_pos)
  | _ :: word_tokens' =>
      if current_pos <? n_tokens then
        assign_word_tokens word_info word_tokens' n_tokens
          (token_positions ++
             [MkPos (word word_info) (start word_info) (end_ word_info)
                current_pos])
          (current_pos + 1)
      else
        assign_word_tokens word_info word_tokens' n_tokens
          token_positions current_pos
  end.

(** The outer loop: the words in order, each tokenized on its own. *)
Fixpoint assign_words (encode : string -> list nat)
    (words_with_timestamps : list (Word time)) (n_tokens : nat)
    (token_positions : list (TokenPosition time)) (current_pos : nat)
  : list (TokenPosition time) * nat :=
  match words_with_timestamps with
  | [] => (token_positions, current_pos)
  | word_info :: rest =>
      let word_tokens := encode (word word_info) in
      let '(token_positions', current_pos') :=
        assign_word_tokens word_info word_tokens n_tokens
          token_positions current_pos in
      assign_words encode rest n_tokens token_positions' current_pos'
  end.

(** [token_positions] as it stands after the loop over the words. *)
Definition compute_token_positions (encode : string -> list nat)
    (words_with_timestamps : list (Word time)) (tokens : list string)
  : list (TokenPosition time) :=
  fst (assign_words encode words_with_timestamps (length tokens) [] 0).

(** The column name [f"layer_{layer_idx}_{metric}"]. *)
Definition layer_col (layer_idx : nat) (metric : string) : string :=
  "layer_" +:+ str_of_nat layer_idx +:+ "_" +:+ metric.

(** The loop over [range(embeddings.shape[1])] that fills one row. *)
Fixpoint add_layer_stats (embeddings : ndarray F) (token_idx : nat)
    (layers : list nat) (row : dict cell) : result (dict cell) :=
  match layers with
  | [] => Ok row
  | layer_idx :: layers' =>
      layer_emb ← getitem_2 embeddings token_idx layer_idx;
      let row := dict_set (layer_col layer_idx "mean")
                   (CellNum (np_mean layer_emb)) row in
      let row := dict_set (layer_col layer_idx "std")
                   (CellNum (np_std layer_emb)) row in
      let row := dict_set (layer_col layer_idx "norm")
                   (CellNum (np_linalg_norm layer_emb)) row in
      add_layer_stats embeddings token_idx layers' row
  end.

(** The row built for one entry of [token_positions]. *)
Definition build_row (tokens : list string) (embeddings : ndarray F)
    (pos : TokenPosition time) : result (dict cell) :=
  tok ← py_getitem "list" tokens (token_idx pos);
  let row := [("timestamp", CellTime (pos_start pos));
              ("word", CellStr (pos_word pos));
              ("token", CellStr (str_replace nl "\n" tok))] in
  let token_idx := token_idx pos in
  n_layers ← shape_at embeddings 1;
  add_layer_stats embeddings token_idx (seq 0 n_layers) row.

(** The rows, in the order of [token_positions]; the first failing
    read ends the loop. *)
Definition build_rows (tokens : list string) (embeddings : ndarray F)
    (token_positions : list (TokenPosition time)) : result (list (dict cell)) :=
  mapM (build_row tokens embeddings) token_positions.

(** [align_embeddings_to_words(words_with_timestamps, tokens, embeddings)]. *)
Definition align_embeddings_to_words (self : AudioEmbeddingExtractor)
    (words_with_timestamps : list (Word time)) (tokens : list string)
    (embeddings : ndarray F)
  : M (DataFrame * ndarray F * list string) :=
  print (nl +:+ "Aligning embeddings to word timestamps...");;
  let words := map word words_with_timestamps in
  let full_text := str_join " " words in
  let token_positions :=
    compute_token_positions (tok_encode (tokenizer self))
      words_with_timestamps tokens in
  rows ← lift (build_rows tokens embeddings token_positions);
  let df := pd_DataFrame rows in
  print ("Created DataFrame with " +:+ str_of_nat (length (records df)) +:+
         " rows and " +:+ str_of_nat (length (columns df)) +:+ " columns");;
  mret (df, embeddings, tokens).

(** [df[col].values]: [KeyError] when there is no such column; a
    record without the key shows as a missing value. *)
Definition df_column (df : DataFrame) (col : string)
  : result (list (option cell)) :=
  if bool_decide (col ∈ columns df)
  then Ok (map (dict_get col) (records df))
  else Raise (PyErr KeyError (py_repr col)).

(** The records whose entry in column [col] none of the entries
    [seen] before takes for the same value. *)
Fixpoint drop_duplicates_from (col : string) (seen : list (option cell))
    (rows : list (dict cell)) : list (dict cell) :=
  match rows with
  | [] => []
  | r :: rows' =>
      let key := dict_get col r in
      if existsb (pd_same_value key) seen
      then drop_duplicates_from col seen rows'
      else r :: drop_duplicates_from col (key :: seen) rows'
  end.

(** [df.drop_duplicates(col)]: the first record of every distinct
    value of the column; [KeyError] when there is no such column. *)
Definition drop_duplicates (df : DataFrame) (col : string)
  : result (list (dict cell)) :=
  if bool_decide (col ∈ columns df)
  then Ok (drop_duplicates_from col [] (records df))
  else Raise (PyErr KeyError
                ("Index([" +:+ py_repr col +:+ "], dtype='object')")).

(** [str(e)] of an [OSError] with an error number, its text and the
    file name. *)
Definition errno_message (errno what name : string) : string :=
  "[Errno " +:+ errno +:+ "] " +:+ what +:+ ": " +:+ py_repr name.

(** [p.mkdir(parents=True, exist_ok=True)]: fails when the path or
    one of its parents is an existing file; otherwise the path and all
    its missing parents become directories. *)
Definition mkdir_parents (p : path) : M unit := fun w =>
  let w1 := MkWorld (stdout w) (stderr w) (fs_dirs w) (fs_files w)
              (calls w ++ [CallMkdir p]) in
  if existsb (fun q => bool_decide (is_Some (fs_files w !! q)))
       (path_prefixes p)
  then (Raise (if bool_decide (is_Some (fs_files w !! p))
               then PyErr FileExistsError
                      (errno_message "17" "File exists" (str_of_path p))
               else PyErr NotADirectoryError
                      (errno_message "20" "Not a directory" (str_of_path p))),
        w1)
  else (Ok tt, MkWorld (stdout w1) (stderr w1)
                 (fs_dirs w1 ∪ list_to_set (path_prefixes p))
                 (fs_files w1) (calls w1)).

(** The error of [open(name, "w")], if it has one: the name is empty
    or names a directory, a parent of it is a file, or the directory
    that is to hold it is missing. *)
Definition open_error (w : world) (name : string) : option exn :=
  let p := path_of_str name in
  let missing :=
    PyErr FileNotFoundError
      (errno_message "2" "No such file or directory" name) in
  let is_a_directory :=
    PyErr IsADirectoryError (errno_message "21" "Is a directory" name) in
  match p with
  | [] => Some (match name with
                | EmptyString => missing
                | _ => is_a_directory
                end)
  | _ =>
      if fs_is_dir w p then Some is_a_directory
      else if fs_is_dir w (removelast p) then None
      else if under_a_file (fs_files w) p
      then Some (PyErr NotADirectoryError
                   (errno_message "20" "Not a directory" name))
      else Some missing
  end.

(** Opening [name] for writing and writing [c]: the file is created,
    or replaced when it is there already. *)
Definition fs_write (name : string) (c : file_content F time) : M unit :=
  fun w =>
  match open_error w name with
  | Some e => (Raise e, w)
  | None =>
      (Ok tt, MkWorld (stdout w) (stderr w) (fs_dirs w)
                (<[path_of_str name := c]> (fs_files w)) (calls w))
  end.

(** The body of the table: one line per record, one field per column. *)
Definition df_values (df : DataFrame) : list (list (option cell)) :=
  map (fun r => map (fun col => dict_get col r) (columns df)) (records df).

(** [df.to_csv(output_path, index=False)]: one header line holding the
    column names, then the records.  No directory is created: pandas
    refuses a path whose parent is not a directory, with a plain
    [OSError], before it opens the file. *)
Definition to_csv (df : DataFrame) (output_path : string) : M unit :=
  record_call (CallToCsv output_path);;
  w ← get_world;
  let parent := removelast (path_of_str output_path) in
  if negb (fs_is_dir w parent) then
    raise (PyErr OSError
             ("Cannot save file into a non-existent directory: '" +:+
              str_of_path parent +:+ "'"))
  else
    fs_write output_path (CsvFile (columns df) (df_values df)).

(** [np.save(file, arr)]: the extension [.npy] is added when the name
    does not end with it. *)
Definition np_save (file : string) (arr : ndarray F) : M unit :=
  record_call (CallNpSave file);;
  let file := if str_endswith ".npy" file then file else file +:+ ".npy" in
  fs_write file (NpyFile arr).

(** [save_embeddings(df, output_path, embeddings)]. *)
Definition save_embeddings (df : DataFrame) (output_path : string)
    (embeddings : option (ndarray F)) : M unit :=
  print (nl +:+ "Saving embeddings to: " +:+ output_path);;
  to_csv df output_path;;
  print ("Saved CSV with shape: (" +:+ str_of_nat (length (records df)) +:+
         ", " +:+ str_of_nat (length (columns df)) +:+ ")");;
  match embeddings with
  | Some embeddings =>
      let npy_path := str_replace ".csv" "_full.npy" output_path in
      np_save npy_path embeddings;;
      print ("Saved full embeddings to: " +:+ npy_path)
  | None => mret tt
  end.

(** Whether the text before an extension's dot, read backwards up to
    the last slash, holds a character that is not a dot. *)
Fixpoint has_name_char (r : string) : bool :=
  match r with
  | EmptyString => false
  | String c r' =>
      if Ascii.eqb c "/" then false
      else if Ascii.eqb c "." then has_name_char r'
      else true
  end.

(** The extension of a name read backwards; [acc] holds the characters
    passed so far. *)
Fixpoint ext_scan (r : string) (acc : string) : string :=
  match r with
  | EmptyString => EmptyString
  | String c r' =>
      if Ascii.eqb c "/" then EmptyString
      else if Ascii.eqb c "." then
        (if has_name_char r' then String "." acc else EmptyString)
      else ext_scan r' (String c acc)
  end.

(** [os.path.splitext(name)[1]]: from the last dot of the last
    component, when a character other than a dot comes before it
    there. *)
Definition os_path_ext (name : string) : string :=
  ext_scan (str_rev name) EmptyString.

(** The file [savefig] writes for a name: with no extension the
    default format's ([png]) is put after the name, its trailing dots
    dropped; a format the backend cannot write is a [ValueError]. *)
Definition savefig_target (name : string) : result string :=
  let '(format, target) :=
    match str_drop 1 (os_path_ext name) with
    | EmptyString => ("png", str_rstrip_of ["."] name +:+ ".png")
    | ext => (str_map ascii_lower ext, name)
    end in
  if bool_decide (format ∈ savefig_formats) then Ok target
  else Raise (PyErr ValueError
                ("Format " +:+ py_repr format +:+
                 " is not supported (supported formats: " +:+
                 str_join ", " savefig_formats +:+ ")")).

(** [plt.savefig(output_path, ...)]. *)
Definition plt_savefig (fig : Figure F time) (output_path : string) : M unit :=
  record_call (CallSavefig output_path);;
  target ← lift (savefig_target output_path);
  lift (plt_render fig);;
  fs_write target (ImageFile fig).

(** [visualize_embeddings(df, embeddings, output_path, metric)]. *)
Definition visualize_embeddings (df : DataFrame) (embeddings : ndarray F)
    (output_path : string) (metric : string) : M unit :=
  print (nl +:+ "Generating visualization...");;
  num_layers ← lift (shape_at embeddings 1);
  let layer_cols := map (fun i => layer_col i metric) (seq 0 num_layers) in
  if negb (forallb (fun col => bool_decide (col ∈ columns df)) layer_cols) then
    print ("Warning: Not all layer columns found for metric '" +:+ metric +:+ "'");;
    mret tt
  else
    heatmap_data ← lift (mapM (df_column df) layer_cols);
    let label := "Embedding " +:+ str_capitalize metric in
    lift (sns_heatmap heatmap_data);;
    let title := "GPT-2 Embedding Evolution Across Layers and Time" +:+ nl +:+
                 "(" +:+ str_capitalize metric +:+ " values)" in
    time_points ← lift (df_column df "timestamp");
    lines ← lift (mapM
                    (fun layer_idx =>
                       values ← df_column df (layer_col layer_idx metric);
                       mret ("Layer " +:+ str_of_nat layer_idx, time_points, values))
                    (seq 0 num_layers));
    markers ← (if length (records df) <? 50 then
                 unique_words ← lift (drop_duplicates df "word");
                 mret (map (dict_get "timestamp") unique_words)
               else mret []);
    let fig := MkFigure heatmap_data label title lines label markers in
    plt_savefig fig output_path;;
    print ("Saved visualization to: " +:+ output_path).

Definition banner : string :=
  "============================================================".

(** The output directory: the one given, or [data/embeddings] next to
    the directory of the script. *)
Definition resolve_output_dir (output_dir : option string) : path :=
  match output_dir with
  | None => removelast (removelast script_file) ++ ["data"; "embeddings"]
  | Some d => path_of_str d
  end.

(** [process_audio_file(audio_path, output_dir)]. *)
Definition process_audio_file (self : AudioEmbeddingExtractor)
    (audio_path : string) (output_dir : option string)
  : M (DataFrame * string * string) :=
  let output_dir := resolve_output_dir output_dir in
  mkdir_parents output_dir;;
  let audio_name := path_stem (path_of_str audio_path) in
  let csv_path := output_dir ++ [audio_name +:+ "_embeddings.csv"] in
  let plot_path := output_dir ++ [audio_name +:+ "_visualization.png"] in
  audio ← load_audio audio_path 16000;
  transcription ← transcribe_with_timestamps self audio;
  '(embeddings, tokens) ← extract_gpt2_embeddings self (fst transcription);
  '(df, embeddings, tokens) ←
    align_embeddings_to_words self (snd transcription) tokens embeddings;
  save_embeddings df (str_of_path csv_path) (Some embeddings);;
  visualize_embeddings df embeddings (str_of_path plot_path) "norm";;
  print (nl +:+ banner);;
  print "PROCESSING COMPLETE!";;
  print banner;;
  print ("CSV output: " +:+ str_of_path csv_path);;
  print ("Visualization: " +:+ str_of_path plot_path);;
  print banner;;
  mret (df, str_of_path csv_path, str_of_path plot_path).

(** The parsed command line. *)
Record Args : Type := MkArgs {
  arg_audio_file : string;
  arg_output_dir : option string;
  arg_whisper_model : string;
  arg_gpt2_model : string;
  arg_device : option string
}.

(** The [try] block of [main]. *)
Definition main_body (args : Args) : M nat :=
  extractor ← init (arg_whisper_model args) (arg_gpt2_model args)
                 (arg_device args);
  process_audio_file extractor (arg_audio_file args) (arg_output_dir args);;
  mret 0.

(** The [except] clauses of [main], tried in order. *)
Definition main_handler (e : exn) : option (M nat) :=
  if isinstance e FileNotFoundError then
    Some (print_stderr (nl +:+ "Error: " +:+ exn_str e);; mret 1)
  else if isinstance e RuntimeError then
    Some (print_stderr (nl +:+ "Error: " +:+ exn_str e);; mret 1)
  else if isinstance e KeyboardInterrupt then
    Some (print (nl +:+ nl +:+ "Interrupted by user");; mret 130)
  else if isinstance e Exception then
    Some (print_stderr (nl +:+ "Unexpected error: " +:+ exn_str e);;
          print_stderr (traceback_format_exc e);;
          mret 1)
  else None.

(** [main()], after the command line is parsed; its value is the exit
    code handed to [sys.exit]. *)
Definition main (args : Args) : M nat :=
  try_except (main_body args) main_handler.
End Script.

Arguments AudioEmbeddingExtractor F time : clear implicits.

(** ** Single-precision numbers

    The tensors hold IEEE 754 binary32 numbers; their arithmetic is
    that of the Standard Library's [SpecFloat] at precision 24 and
    maximal exponent 128, rounding to nearest, ties to even. *)

Definition f32 : Type := spec_float.

Definition f32_add : f32 -> f32 -> f32 := SFadd 24 128.
Definition f32_sub : f32 -> f32 -> f32 := SFsub 24 128.
Definition f32_mul : f32 -> f32 -> f32 := SFmul 24 128.
Definition f32_div : f32 -> f32 -> f32 := SFdiv 24 128.
Definition f32_sqrt : f32 -> f32 := SFsqrt 24 128.

Definition f32_of_Z (z : Z) : f32 := binary_normalize 24 128 z 0 false.
Definition f32_of_nat (n : nat) : f32 := f32_of_Z (Z.of_nat n).

(** The largest finite number, [(2 - 2^-23) * 2^127]. *)
Definition f32_max : f32 := S754_finite false (2 ^ 24 - 1) 104.

(** The rational a number stands for; infinities and NaN stand for
    none. *)
Definition f32_value (x : f32) : option Q :=
  match x with
  | S754_zero _ => Some 0%Q
  | S754_finite s m e =>
      Some ((if s then -1 else 1) * inject_Z (Z.pos m) * (2 ^ e))%Q
  | S754_infinity _ | S754_nan => None
  end.

(** The arithmetic mean of rationals. *)
Definition Qmean (v : list Q) : Q :=
  (fold_right Qplus 0 v / inject_Z (Z.of_nat (length v)))%Q.

(** ** A small environment to run the script in

    Toy stand-ins for the libraries: a tokenizer with one token per
    character, a two-layer model with three-dimensional hidden states,
    and POSIX-style paths.  Times are in milliseconds. *)

Module Demo.

Fixpoint chars (s : string) : list ascii :=
  match s with
  | EmptyString => []
  | String c s' => c :: chars s'
  end.

Definition char_tokenizer : GPT2Tokenizer := {|
  tok_input_ids := fun s => map nat_of_ascii (chars s);
  tok_encode := fun s => map nat_of_ascii (chars s);
  tok_decode := fun ids =>
    fold_right (fun i s => String (ascii_of_nat i) s) EmptyString ids
|}.

(** Split at every slash, dropping empty components. *)
Fixpoint split_path (s : string) (cur : string) : list string :=
  match s with
  | EmptyString =>
      match cur with EmptyString => [] | _ => [str_rev cur] end
  | String c s' =>
      if Ascii.eqb c "/"%char then
        match cur with
        | EmptyString => split_path s' EmptyString
        | _ => str_rev cur :: split_path s' EmptyString
        end
      else split_path s' (String c cur)
  end.

Fixpoint after_dot (s : string) : option string :=
  match s with
  | EmptyString => None
  | String c s' => if Ascii.eqb c "."%char then Some s' else after_dot s'
  end.

Definition stem (p : path) : string :=
  match last p with
  | None => EmptyString
  | Some name =>
      match after_dot (str_rev name) with
      | Some r => match r with EmptyString => name | _ => str_rev r end
      | None => name
      end
  end.

Section WithScalars.
Context {F : Type} (of_nat : nat -> F).

Definition hidden_state (layer n : nat) : ndarray F :=
  NdArray [1; n; 3]
    (fun ix =>
       match ix with
       | [_; t; d] => of_nat (100 * layer + 10 * t + d)
       | _ => of_nat 0
       end).

Definition two_layer_model : GPT2Model F := {|
  config_n_layer := 2;
  gpt2_hidden_states := fun ids =>
    match ids with
    | [] => Raise (PyErr RuntimeError "cannot reshape tensor of 0 elements")
    | _ => Ok (map (fun l => hidden_state l (length ids)) [0; 1; 2])
    end
|}.

Definition speech_model : WhisperModel F nat := {|
  whisper_transcribe := fun _ _ _ =>
    Ok (MkTranscription " hi yo"
          [MkSegment (Some [MkWordInfo " hi" 0 400; MkWordInfo " yo" 500 900]);
           MkSegment None]);
  whisper_stdout := fun _ _ verbose =>
    match verbose with
    | Some _ => ["Detected language: English"]
    | None => []
    end;
  whisper_stderr := fun _ _ verbose =>
    match verbose with
    | Some false => ["100%|##########| 90/90 frames"]
    | _ => []
    end
|}.

Definition libraries : Libraries F nat := {|
  torch_cuda_is_available := false;
  whisper_load_model := fun _ _ => Ok speech_model;
  GPT2Tokenizer_from_pretrained := fun _ => Ok char_tokenizer;
  GPT2Model_from_pretrained := fun _ _ => Ok two_layer_model;
  librosa_load := fun w p sr _ =>
    match fs_files w !! split_path p EmptyString with
    | Some (RawFile data) =>
        Ok (NdArray [String.length data] (fun _ => of_nat 0), sr)
    | _ => Raise (PyErr ValueError "unknown format")
    end;
  format_ratio_2f := fun n sr => str_of_nat (n / sr);
  sns_heatmap := fun _ => Ok tt;
  plt_render := fun _ => Ok tt;
  savefig_formats := ["jpg"; "pdf"; "png"; "svg"];
  pd_same_value := fun a b =>
    match a, b with
    | None, None => true
    | Some (CellStr x), Some (CellStr y) => String.eqb x y
    | _, _ => false
    end;
  py_repr := fun s => "'" +:+ s +:+ "'";
  traceback_format_exc := fun e => "Traceback (most recent call last):";
  path_of_str := fun s => split_path s EmptyString;
  str_of_path := fun p => str_join "/" p;
  path_stem := stem;
  script_file := ["repo"; "scripts"; "extract_embeddings.py"]
|}.

Definition extractor : AudioEmbeddingExtractor F nat :=
  MkExtractor "cpu" speech_model char_tokenizer two_layer_model 2.

Definition empty_world : world F nat := MkWorld [] [] ∅ ∅ [].

(** A world with one directory, [out]. *)
Definition out_world : world F nat :=
  MkWorld [] [] {[ ["out"] ]} ∅ [].

(** A table of one row. *)
Definition small_table : DataFrame F nat :=
  pd_DataFrame [[("timestamp", CellTime 0); ("word", CellStr "hi")]].

(** A world holding one audio file, [hello.wav]. *)
Definition hello_world : world F nat :=
  MkWorld [] [] ∅ {[ ["hello.wav"] := RawFile "RIFF" ]} [].

Definition words : list (Word nat) :=
  [MkWord "hi" 0 400; MkWord "yo" 500 900].

(** A tensor over [n] tokens, two layers, three dimensions. *)
Definition tensor (n : nat) : ndarray F :=
  NdArray [n; 2; 3]
    (fun ix =>
       match ix with
       | [t; l; d] => of_nat (100 * (l + 1) + 10 * t + d)
       | _ => of_nat 0
       end).
End WithScalars.

(** Integer-valued reductions, for running the aligner. *)
#[export] Instance numpy_Z : Numpy Z := {
  np_mean := fun v => (fold_right Z.add 0 v / Z.of_nat (length v))%Z;
  np_std := fun v =>
    let mean := (fold_right Z.add 0 v / Z.of_nat (length v))%Z in
    Z.sqrt (fold_right Z.add 0 (map (fun x => (x - mean) * (x - mean)) v)
            / Z.of_nat (length v))%Z;
  np_linalg_norm := fun v => Z.sqrt (fold_right Z.add 0 (map (fun x => x * x) v))%Z
}.

#[export] Instance libraries_Z : Libraries Z nat := libraries Z.of_nat.

(** Single-precision reductions for vectors of fewer than eight
    entries, which [numpy] adds up in order.  (The dot product behind
    [np.linalg.norm] is the linear-algebra library's; it is taken in
    order here.) *)
Definition f32_sum (v : list f32) : f32 :=
  fold_left f32_add v (S754_zero false).

#[export] Instance numpy_f32 : Numpy f32 := {
  np_mean := fun v => f32_div (f32_sum v) (f32_of_nat (length v));
  np_std := fun v =>
    let mean := f32_div (f32_sum v) (f32_of_nat (length v)) in
    let dev := map (fun x => f32_sub x mean) v in
    f32_sqrt (f32_div (f32_sum (map (fun d => f32_mul d d) dev))
                (f32_of_nat (length v)));
  np_linalg_norm := fun v => f32_sqrt (f32_sum (map (fun x => f32_mul x x) v))
}.

#[export] Instance libraries_f32 : Libraries f32 nat := libraries f32_of_nat.

End Demo.

(** ** The alignment as the specification words it

    One cursor; for each word, as many steps as the word has tokens on
    its own; a step inside the token list emits the word's start time,
    the word and the token under the cursor, and moves the cursor. *)

Section SpecAlignment.
Context {time : Type}.

Fixpoint spec_emit_word (w : Word time) (count : nat) (tokens : list string)
    (cursor : nat) : list (time * string * string) * nat :=
  match count with
  | 0 => ([], cursor)
  | S count' =>
      match tokens !! cursor with
      | Some tok =>
          let '(emitted, cursor') :=
            spec_emit_word w count' tokens (S cursor) in
          ((start w, word w, tok) :: emitted, cursor')
      | None => spec_emit_word w count' tokens cursor
      end
  end.

Fixpoint spec_align (retokenize : string -> list nat) (words : list (Word time))
    (tokens : list string) (cursor : nat) : list (time * string * string) :=
  match words with
  | [] => []
  | w :: words' =>
      let '(emitted, cursor') :=
        spec_emit_word w (length (retokenize (word w))) tokens cursor in
      emitted ++ spec_align retokenize words' tokens cursor'
  end.
End SpecAlignment.

(** The first three fields of a row: timestamp, word and token. *)
Definition row_head {F time : Type} (row : dict (cell F time))
  : option (time * string * string) :=
  match dict_get "timestamp" row, dict_get "word" row, dict_get "token" row with
  | Some (CellTime t), Some (CellStr w), Some (CellStr tok) => Some (t, w, tok)
  | _, _, _ => None
  end.

(** The three statistics columns of one layer, in the order the loop
    writes them. *)
Definition layer_stats {F time : Type} `{!Numpy F} (embeddings : ndarray F)
    (token_idx layer_idx : nat) : dict (cell F time) :=
  match getitem_2 embeddings token_idx layer_idx with
  | Ok layer_emb =>
      [(layer_col layer_idx "mean", CellNum (np_mean layer_emb));
       (layer_col layer_idx "std", CellNum (np_std layer_emb));
       (layer_col layer_idx "norm", CellNum (np_linalg_norm layer_emb))]
  | Raise _ => []
  end.

(** The number of tokens the words have when each is tokenized alone. *)
Definition isolated_token_count {time : Type} (encode : string -> list nat)
    (words : list (Word time)) : nat :=
  list_sum (map (fun w => length (encode (word w))) words).

Fixpoint str_forallb (p : ascii -> bool) (s : string) : bool :=
  match s with
  | EmptyString => true
  | String c s' => p c && str_forallb p s'
  end.

Definition is_digit (c : ascii) : bool :=
  let n := nat_of_ascii c in (48 <=? n) && (n <=? 57).

(** * Vocabulary of the statements

    Closed forms, contracts and readings of the claims that the
    theorems below are stated with. *)

Section CursorVocabulary.
Context {time : Type}.

(** The entry recorded for word [w] at cursor position [i]. *)
Definition pos_of (w : Word time) (i : nat) : TokenPosition time :=
  MkPos (word w) (start w) (end_ w) i.

(** What the specification's algorithm emits for a recorded entry. *)
Definition emitted_for (tokens : list string) (pos : TokenPosition time)
  : time * string * string :=
  (pos_start pos, pos_word pos, nth (token_idx pos) tokens EmptyString).
End CursorVocabulary.

(** The keys written by the layer loop all begin with [l]; the three
    leading keys do not. *)
Definition not_layer_key (k : string) : Prop :=
  forall i m, k <> layer_col i m.

(** The column names of one layer. *)
Definition layer_cols_of (layer_idx : nat) : list string :=
  [layer_col layer_idx "mean"; layer_col layer_idx "std";
   layer_col layer_idx "norm"].

(** The companion file that [np.save] writes for a table path. *)
Definition npy_file (output_path : string) : string :=
  let npy_path := str_replace ".csv" "_full.npy" output_path in
  if str_endswith ".npy" npy_path then npy_path else npy_path +:+ ".npy".

(** One step of [union_keys]. *)
Definition add_keys (acc : list string) (keys : list string) : list string :=
  fold_left (fun acc k => if bool_decide (k ∈ acc) then acc else acc ++ [k])
    keys acc.

Section RowVocabulary.
Context {F time : Type} `{!Numpy F}.

(** The row of an entry, in closed form: the three leading fields, then
    the statistics of the layers 0, 1, ... in order. *)
Definition row_of (tokens : list string) (emb : ndarray F) (n_layers : nat)
    (pos : TokenPosition time)
  : dict (cell F time) :=
  [("timestamp", CellTime (pos_start pos));
   ("word", CellStr (pos_word pos));
   ("token", CellStr (str_replace nl "\n"
                        (nth (token_idx pos) tokens EmptyString)))]
  ++ flat_map (layer_stats emb (token_idx pos)) (seq 0 n_layers).
End RowVocabulary.

Section WorldVocabulary.
Context {F time : Type}.

(** The world in which the decoder is called. *)
Definition world_at_decode (w : world F time) (audio_path : string) (sr : nat) : world F time :=
  MkWorld (stdout w ++ [nl +:+ "Loading audio from: " +:+ audio_path])
    (stderr w) (fs_dirs w) (fs_files w)
    ((calls w ++ [CallExists audio_path]) ++ [CallLibrosaLoad audio_path sr]).

Definition load_error_message (e : exn) : string :=
  "Failed to load audio file: " +:+ exn_str e +:+ nl +:+
  "Supported formats: WAV, MP3, FLAC, OGG, M4A".

End WorldVocabulary.

(** The exit code of a run whose [try] block raised [e]. *)
Definition exit_code_of (e : exn) : option nat :=
  if isinstance e FileNotFoundError then Some 1
  else if isinstance e RuntimeError then Some 1
  else if isinstance e KeyboardInterrupt then Some 130
  else if isinstance e Exception then Some 1
  else None.

(** The decoder's contract: asked for a rate and one channel, it
    answers with a one-dimensional signal at that rate. *)
Definition librosa_honours_request {F time : Type} `{!Libraries F time} : Prop :=
  forall (w : world F time) (p : string) (sr : nat) (y : ndarray F) (rate : nat),
    librosa_load w p sr true = Ok (y, rate) ->
    length (shape y) = 1 /\ rate = sr.

(** A path at which a file can be created: it is not a directory, and
    the directory that is to hold it exists. *)
Definition writable {F time : Type} (w : world F time) (p : path) : bool :=
  match p with
  | [] => false
  | _ => fs_is_dir w (removelast p) && negb (fs_is_dir w p)
  end.

(** The table file that [to_csv] writes for a table. *)
Definition csv_of {F time : Type} (df : DataFrame F time)
  : file_content F time :=
  CsvFile (columns df) (df_values df).

Section ClaimReadings.
Context {F time : Type} `{!Numpy F} `{!Libraries F time}.

(** The literal reading of C2: every row carries the token string at
    the cursor position as it is. *)
Definition rows_carry_tokens_verbatim (self : AudioEmbeddingExtractor F time)
    (ws : list (Word time)) (tokens : list string) (emb : ndarray F)
    (w : world F time) : Prop :=
  forall df e t w',
    align_embeddings_to_words self ws tokens emb w = (Ok (df, e, t), w') ->
    map row_head (records df) =
    map Some (spec_align (tok_encode (tokenizer self)) ws tokens 0).

(** The literal reading of the second half of C6: whenever the input
    path does not exist, the run exits with code 1, some line of the
    error stream holds the path, and the files are as before. *)
Definition missing_input_is_reported (args : Args) (w : world F time) : Prop :=
  os_path_exists w (arg_audio_file args) = false ->
  let r := main args w in
  fst r = Ok 1 /\
  (exists line, line ∈ stderr (snd r) /\
     str_contains line (arg_audio_file args)) /\
  fs_files (snd r) = fs_files w.
End ClaimReadings.

Section ExactStatistics.
Context {time : Type} `{!Numpy f32} `{!Libraries f32 time}.

(** The literal reading of the first part of C3: the entry of column
    [layer_i_mean] is the arithmetic mean of the layer's vector at the
    row's token index, for every row and layer of a tensor of finite
    numbers. *)
Definition mean_column_is_exact (self : AudioEmbeddingExtractor f32 time)
    (ws : list (Word time)) (tokens : list string) (emb : ndarray f32)
    (w : world f32 time) : Prop :=
  forall df e t w' k row i v qs,
    align_embeddings_to_words self ws tokens emb w = (Ok (df, e, t), w') ->
    records df !! k = Some row ->
    getitem_2 emb k i = Ok v ->
    map f32_value v = map Some qs ->
    exists x q,
      dict_get (layer_col i "mean") row = Some (CellNum x) /\
      f32_value x = Some q /\ (q == Qmean qs)%Q.
End ExactStatistics.

(** * Vocabulary of the further properties *)

Section AlignmentVocabulary.
Context {time : Type}.

(** The word a recorded entry stands for. *)
Definition pos_word_info (pos : TokenPosition time) : Word time :=
  MkWord (pos_word pos) (pos_start pos) (pos_end pos).

(** Every word, repeated once per token of its own tokenization. *)
Definition words_by_token (encode : string -> list nat)
    (ws : list (Word time)) : list (Word time) :=
  flat_map (fun w => replicate (length (encode (word w))) w) ws.
End AlignmentVocabulary.

(** Whether character [c] occurs in [s]. *)
Fixpoint str_has_char (c : ascii) (s : string) : bool :=
  match s with
  | EmptyString => false
  | String c' s' => Ascii.eqb c c' || str_has_char c s'
  end.

(** The line feed character. *)
Definition lf : ascii := ascii_of_nat 10.

Section FigureVocabulary.
Context {F time : Type} `{!Libraries F time}.

(** The figure the visualizer draws from a table with [n_layers]
    layers, for a metric. *)
Definition figure_of (df : DataFrame F time) (n_layers : nat)
    (metric : string) : Figure F time :=
  let column := fun col => map (dict_get col) (records df) in
  let label := "Embedding " +:+ str_capitalize metric in
  MkFigure
    (map (fun i => column (layer_col i metric)) (seq 0 n_layers))
    label
    ("GPT-2 Embedding Evolution Across Layers and Time" +:+ nl +:+
     "(" +:+ str_capitalize metric +:+ " values)")
    (map (fun i => ("Layer " +:+ str_of_nat i, column "timestamp",
                    column (layer_col i metric)))
       (seq 0 n_layers))
    label
    (if length (records df) <? 50
     then map (dict_get "timestamp")
            (drop_duplicates_from "word" [] (records df))
     else []).

(** The word of a record, when it has one. *)
Definition row_word (row : dict (cell F time)) : option string :=
  match dict_get "word" row with
  | Some (CellStr s) => Some s
  | _ => None
  end.

(** The records that no earlier record shares its word with: [before]
    holds the records that come earlier. *)
Fixpoint first_of_each_word (before rows : list (dict (cell F time)))
  : list (dict (cell F time)) :=
  match rows with
  | [] => []
  | r :: rows' =>
      if forallb (fun r' => negb (bool_decide (row_word r' = row_word r)))
           before
      then r :: first_of_each_word (before ++ [r]) rows'
      else first_of_each_word (before ++ [r]) rows'
  end.

(** The library takes two words for the same value exactly when they
    are the same string. *)
Definition words_compared_as_strings : Prop :=
  forall a b : string,
    pd_same_value (Some (CellStr a : cell F time)) (Some (CellStr b))
    = bool_decide (a = b).
End FigureVocabulary.

(** Whether [old] occurs in [s]. *)
Fixpoint str_occurs (old s : string) : bool :=
  str_startswith old s ||
  match s with
  | EmptyString => false
  | String _ s' => str_occurs old s'
  end.

Section ExporterVocabulary.
Context {F time : Type} `{!Libraries F time}.

(** The world after the table is written and reported. *)
Definition world_after_csv (w : world F time) (df : DataFrame F time)
    (output_path : string) : world F time :=
  MkWorld
    ((stdout w ++ [nl +:+ "Saving embeddings to: " +:+ output_path]) ++
     ["Saved CSV with shape: (" +:+ str_of_nat (length (records df)) +:+
      ", " +:+ str_of_nat (length (columns df)) +:+ ")"])
    (stderr w) (fs_dirs w)
    (<[path_of_str output_path := csv_of df]> (fs_files w))
    (calls w ++ [CallToCsv output_path]).
End ExporterVocabulary.

(** A string with no white space at either end. *)
Definition trimmed (s : string) : Prop :=
  forall c, c ∈ whitespace_chars ->
    str_startswith c s = false /\ str_endswith c s = false.

(** A string made of members of [chars], one after the other. *)
Inductive made_of (chars : list string) : string -> Prop :=
| made_of_empty : made_of chars EmptyString
| made_of_more (c s : string) :
    c ∈ chars -> made_of chars s -> made_of chars (c +:+ s).

(** A string of white space only. *)
Definition blank : string -> Prop := made_of whitespace_chars.

(** The number of timed words a list of segments carries. *)
Definition timed_word_count {time : Type} (segments : list (Segment time))
  : nat :=
  list_sum (map (fun seg =>
                   match seg_words seg with
                   | Some ws => length ws
                   | None => 0
                   end) segments).

Section FrameVocabulary.
Context {F time : Type}.

(** Every run of [m] takes a world to one related to it by [R]. *)
Definition respects (R : relation (world F time)) {A : Type}
    (m : M F time A) : Prop :=
  forall w r w', m w = (r, w') -> R w w'.

(** From [w] to [w']: no file or directory is removed, and the
    output, the error stream and the record of library calls are only
    extended. *)
Definition only_adds (w w' : world F time) : Prop :=
  stderr w `prefix_of` stderr w' /\
  fs_dirs w ⊆ fs_dirs w' /\
  dom (fs_files w) ⊆ dom (fs_files w') /\
  stdout w `prefix_of` stdout w' /\
  calls w `prefix_of` calls w'.

(** The files, the directories and the error stream are as they
    were. *)
Definition same_files (w w' : world F time) : Prop :=
  fs_files w' = fs_files w.

Definition same_dirs (w w' : world F time) : Prop :=
  fs_dirs w' = fs_dirs w.

Definition same_stderr (w w' : world F time) : Prop :=
  stderr w' = stderr w.

(** Every run of [m] records the library call [c] first of all. *)
Definition logs {A : Type} (c : call) (m : M F time A) : Prop :=
  forall w r w', m w = (r, w') -> (calls w ++ [c]) `prefix_of` calls w'.
End FrameVocabulary.

(** The changes of the world a relation lets through. *)
Class LetsPrint {F time : Type} (R : relation (world F time)) : Prop :=
  lets_print : forall w lines,
    R w (MkWorld (stdout w ++ lines) (stderr w) (fs_dirs w) (fs_files w)
           (calls w)).

Class LetsWarn {F time : Type} (R : relation (world F time)) : Prop :=
  lets_warn : forall w lines,
    R w (MkWorld (stdout w) (stderr w ++ lines) (fs_dirs w) (fs_files w)
           (calls w)).

Class LetsCall {F time : Type} (R : relation (world F time)) : Prop :=
  lets_call : forall w cs,
    R w (MkWorld (stdout w) (stderr w) (fs_dirs w) (fs_files w)
           (calls w ++ cs)).

Class LetsWrite {F time : Type} (R : relation (world F time)) : Prop :=
  lets_write : forall w p c,
    R w (MkWorld (stdout w) (stderr w) (fs_dirs w) (<[p := c]> (fs_files w))
           (calls w)).

Class LetsMkdir {F time : Type} (R : relation (world F time)) : Prop :=
  lets_mkdir : forall w ds,
    R w (MkWorld (stdout w) (stderr w) (fs_dirs w ∪ ds) (fs_files w)
           (calls w)).

Section PipelineVocabulary.
Context {F time : Type} `{!Numpy F} `{!Libraries F time}.

(** From [w], the output directory is made and loading, transcription,
    extraction and alignment all return normally; the aligner returns
    the table [df] and the tensor [emb] and leaves the world [w4]. *)
Definition reaches_export (self : AudioEmbeddingExtractor F time)
    (audio_path : string) (output_dir : option string) (w : world F time)
    (df : DataFrame F time) (emb : ndarray F) (w4 : world F time) : Prop :=
  exists w0 audio w1 tr w2 emb0 toks0 w3 toks,
    mkdir_parents (resolve_output_dir output_dir) w = (Ok tt, w0) /\
    load_audio audio_path 16000 w0 = (Ok audio, w1) /\
    transcribe_with_timestamps self audio w1 = (Ok tr, w2) /\
    extract_gpt2_embeddings self (fst tr) w2 = (Ok (emb0, toks0), w3) /\
    align_embeddings_to_words self (snd tr) toks0 emb0 w3
      = (Ok (df, emb, toks), w4).

(** The paths of the table and of the plot. *)
Definition csv_path_of (audio_path : string) (output_dir : option string)
  : path :=
  resolve_output_dir output_dir ++
  [path_stem (path_of_str audio_path) +:+ "_embeddings.csv"].

Definition plot_path_of (audio_path : string) (output_dir : option string)
  : path :=
  resolve_output_dir output_dir ++
  [path_stem (path_of_str audio_path) +:+ "_visualization.png"].

(** What the pipeline does with the aligner's table: the visualizer,
    the closing lines and the value returned, after the exporter. *)
Definition after_export (audio_path : string) (output_dir : option string)
    (df : DataFrame F time) (emb : ndarray F)
  : M F time (DataFrame F time * string * string) :=
  let csv_path := csv_path_of audio_path output_dir in
  let plot_path := plot_path_of audio_path output_dir in
  visualize_embeddings df emb (str_of_path plot_path) "norm";;
  print (nl +:+ banner);;
  print "PROCESSING COMPLETE!";;
  print banner;;
  print ("CSV output: " +:+ str_of_path csv_path);;
  print ("Visualization: " +:+ str_of_path plot_path);;
  print banner;;
  mret (df, str_of_path csv_path, str_of_path plot_path).
End PipelineVocabulary.

(** A table of two rows with the norm columns of two layers. *)
Definition demo_plot_table : DataFrame Z nat :=
  pd_DataFrame
    [[("timestamp", CellTime 0); ("word", CellStr "hi");
      ("layer_0_norm", CellNum 1%Z); ("layer_1_norm", CellNum 2%Z)];
     [("timestamp", CellTime 500); ("word", CellStr "yo");
      ("layer_0_norm", CellNum 3%Z); ("layer_1_norm", CellNum 4%Z)]].

(** A table of three rows in which the first word comes again. *)
Definition demo_repeat_table : DataFrame Z nat :=
  pd_DataFrame
    [[("timestamp", CellTime 0); ("word", CellStr "hi");
      ("layer_0_norm", CellNum 1%Z); ("layer_1_norm", CellNum 2%Z)];
     [("timestamp", CellTime 500); ("word", CellStr "yo");
      ("layer_0_norm", CellNum 3%Z); ("layer_1_norm", CellNum 4%Z)];
     [("timestamp", CellTime 900); ("word", CellStr "hi");
      ("layer_0_norm", CellNum 5%Z); ("layer_1_norm", CellNum 6%Z)]].

(** A single-precision tensor of one token, one layer and two entries,
    both the largest finite number. *)
Definition demo_big_tensor : ndarray f32 :=
  NdArray [1; 1; 2] (fun _ => f32_max).

(** A world in which [out/x_full.npy] is a directory. *)
Definition demo_npy_dir_world : world Z nat :=
  MkWorld [] [] {[ ["out"]; ["out"; "x_full.npy"] ]} ∅ [].

(** A world in which [out] is a file, and one that also has the
    directory [data]. *)
Definition demo_blocked_world : world Z nat :=
  MkWorld [] [] {[ ["data"] ]} {[ ["out"] := RawFile "x" ]} [].

(** Inputs of the worked instances. *)
Definition demo_args : Args :=
  MkArgs "nope.wav" (Some "out/emb") "base" "gpt2" None.

Definition demo_tokens : list string := ["a"; "b"; "c"].


(** * Properties *)

(** ** Strings and dictionaries *)

Lemma str_app_nil (s : string) : EmptyString +:+ s = s.
Proof. reflexivity. Qed.

Lemma str_app_cons (c : ascii) (s t : string) :
  String c s +:+ t = String c (s +:+ t).
Proof. reflexivity. Qed.

Lemma str_app_nil_r (s : string) : s +:+ EmptyString = s.
Proof. induction s as [|c s IH]; [done|]. by rewrite str_app_cons, IH. Qed.

Create Rewrite HintDb str.
#[export] Hint Rewrite str_app_nil str_app_cons : str.

Lemma str_of_nat_inj (i j : nat) : str_of_nat i = str_of_nat j -> i = j.
Proof.
  unfold str_of_nat. intros E.
  apply (f_equal NilEmpty.uint_of_string) in E.
  rewrite !NilEmpty.usu in E.
  injection E as E. by apply Unsigned.to_uint_inj.
Qed.

Lemma string_of_uint_digits (d : uint) :
  str_forallb is_digit (NilEmpty.string_of_uint d) = true.
Proof. induction d; simpl; auto. Qed.

Lemma digits_then_underscore (d1 d2 m1 m2 : string) :
  str_forallb is_digit d1 = true ->
  str_forallb is_digit d2 = true ->
  d1 +:+ "_" +:+ m1 = d2 +:+ "_" +:+ m2 ->
  d1 = d2 /\ m1 = m2.
Proof.
  revert d2. induction d1 as [|c d1 IH]; intros [|c' d2] H1 H2 E;
    autorewrite with str in E; simpl in H1, H2.
  - by injection E as ->.
  - injection E as <- _. by apply andb_true_iff in H2 as [? _].
  - injection E as -> _. by apply andb_true_iff in H1 as [? _].
  - injection E as -> E.
    apply andb_true_iff in H1 as [_ H1]. apply andb_true_iff in H2 as [_ H2].
    destruct (IH d2 H1 H2 E) as [-> ->]. done.
Qed.

Lemma layer_col_inj (i j : nat) (m1 m2 : string) :
  layer_col i m1 = layer_col j m2 -> i = j /\ m1 = m2.
Proof.
  unfold layer_col. autorewrite with str. intros E.
  injection E as E.
  apply digits_then_underscore in E as [E ->];
    [| apply string_of_uint_digits ..].
  split; [by apply str_of_nat_inj | done].
Qed.

Lemma layer_col_head (i : nat) (m : string) :
  exists s, layer_col i m = String "l" s.
Proof. unfold layer_col. autorewrite with str. eauto. Qed.

Lemma dict_get_set_eq {V : Type} (k : string) (v : V) (d : dict V) :
  dict_get k (dict_set k v d) = Some v.
Proof.
  induction d as [|[k' v'] d IH]; simpl.
  - by rewrite String.eqb_refl.
  - destruct (String.eqb k k') eqn:E; simpl; rewrite ?String.eqb_refl, ?E; done.
Qed.

Lemma dict_set_fresh {V : Type} (k : string) (v : V) (d : dict V) :
  k ∉ dict_keys d -> dict_set k v d = d ++ [(k, v)].
Proof.
  induction d as [|[k' v'] d IH]; simpl; intros Hk; [done|].
  apply not_elem_of_cons in Hk as [Hne Hk].
  destruct (String.eqb_spec k k') as [->|_]; [done|].
  by rewrite IH.
Qed.

Lemma dict_get_app {V : Type} (k : string) (d1 d2 : dict V) :
  dict_get k (d1 ++ d2) =
  match dict_get k d1 with Some v => Some v | None => dict_get k d2 end.
Proof.
  induction d1 as [|[k' v'] d1 IH]; simpl; [done|].
  by destruct (String.eqb k k').
Qed.

Lemma dict_get_None {V : Type} (k : string) (d : dict V) :
  k ∉ dict_keys d -> dict_get k d = None.
Proof.
  induction d as [|[k' v'] d IH]; simpl; intros Hk; [done|].
  apply not_elem_of_cons in Hk as [Hne Hk].
  destruct (String.eqb_spec k k') as [->|_]; [done|]. by apply IH.
Qed.

Lemma dict_get_set_ne {V : Type} (k k' : string) (v : V) (d : dict V) :
  k <> k' -> dict_get k (dict_set k' v d) = dict_get k d.
Proof.
  intros Hne. induction d as [|[k2 v2] d IH]; simpl.
  - by destruct (String.eqb_spec k k').
  - destruct (String.eqb_spec k' k2) as [->|Hne2]; simpl.
    + by destruct (String.eqb_spec k k2).
    + destruct (String.eqb_spec k k2); [done | apply IH].
Qed.

(** ** The cursor of the alignment *)

Section Cursor.
Context {time : Type}.
Implicit Types (w : Word time) (tp : list (TokenPosition time)).

Lemma assign_word_tokens_eq w (wt : list nat) (n : nat) tp (cur : nat) :
  assign_word_tokens w wt n tp cur =
  (tp ++ map (pos_of w) (seq cur (min (length wt) (n - cur))),
   cur + min (length wt) (n - cur)).
Proof.
  revert tp cur. induction wt as [|t wt IH]; intros tp cur; simpl.
  - by rewrite app_nil_r, Nat.add_0_r.
  - destruct (Nat.ltb_spec cur n) as [Hlt|Hge].
    + rewrite IH.
      replace (n - cur) with (S (n - (cur + 1))) by lia.
      simpl. rewrite <- app_assoc. simpl.
      replace (cur + 1) with (S cur) by lia.
      f_equal. lia.
    + rewrite IH. replace (n - cur) with 0 by lia.
      by rewrite !Nat.min_0_r.
Qed.

Lemma assign_words_app (encode : string -> list nat)
    (ws1 ws2 : list (Word time)) (n : nat) tp (cur : nat) :
  assign_words encode (ws1 ++ ws2) n tp cur =
  assign_words encode ws2 n
    (fst (assign_words encode ws1 n tp cur))
    (snd (assign_words encode ws1 n tp cur)).
Proof.
  revert tp cur. induction ws1 as [|w ws1 IH]; intros tp cur; simpl; [done|].
  destruct (assign_word_tokens _ _ _ _ _) as [tp' cur']. apply IH.
Qed.

(** Once the cursor is at the end of the tokens, nothing more is
    recorded. *)
Lemma assign_words_saturated (encode : string -> list nat)
    (ws : list (Word time)) (n : nat) tp (cur : nat) :
  n <= cur -> assign_words encode ws n tp cur = (tp, cur).
Proof.
  intros Hge. induction ws as [|w ws IH]; simpl; [done|].
  rewrite assign_word_tokens_eq. replace (n - cur) with 0 by lia.
  rewrite Nat.min_0_r. simpl. by rewrite app_nil_r, Nat.add_0_r.
Qed.

(** The invariant of the loop over the words: the cursor is the number
    of entries, the entries carry the indices 0, 1, 2, ... in order,
    and the cursor stays within the token list. *)
Lemma assign_words_invariant (encode : string -> list nat)
    (ws : list (Word time)) (n : nat) tp (cur : nat) :
  cur = length tp ->
  map token_idx tp = seq 0 cur ->
  cur <= n ->
  let r := assign_words encode ws n tp cur in
  snd r = length (fst r) /\
  map token_idx (fst r) = seq 0 (snd r) /\
  snd r = min n (cur + isolated_token_count encode ws).
Proof.
  revert tp cur. induction ws as [|w ws IH]; intros tp cur Hlen Hidx Hle; simpl.
  - unfold isolated_token_count. simpl. repeat split; [done..|lia].
  - rewrite assign_word_tokens_eq.
    set (k := min (length (encode (word w))) (n - cur)).
    specialize (IH (tp ++ map (pos_of w) (seq cur k)) (cur + k)).
    destruct IH as (H1 & H2 & H3).
    + rewrite length_app, length_map, length_seq. lia.
    + rewrite map_app, map_map. simpl. rewrite map_id, Hidx.
      by rewrite seq_app.
    + lia.
    + repeat split; [done..|].
      rewrite H3. unfold isolated_token_count. simpl.
      fold (isolated_token_count encode ws). lia.
Qed.

Lemma compute_token_positions_indices (encode : string -> list nat)
    (ws : list (Word time)) (tokens : list string) :
  let tp := compute_token_positions encode ws tokens in
  map token_idx tp = seq 0 (length tp) /\
  length tp = min (length tokens) (isolated_token_count encode ws).
Proof.
  unfold compute_token_positions.
  destruct (assign_words_invariant encode ws (length tokens) [] 0)
    as (H1 & H2 & H3); [done | done | lia |].
  simpl in *. rewrite <- H1. split; [done | by rewrite H3].
Qed.

Lemma compute_token_positions_lookup (encode : string -> list nat)
    (ws : list (Word time)) (tokens : list string) (k : nat)
    (pos : TokenPosition time) :
  compute_token_positions encode ws tokens !! k = Some pos ->
  token_idx pos = k /\ k < length tokens.
Proof.
  intros Hk.
  destruct (compute_token_positions_indices encode ws tokens) as [Hidx Hlen].
  assert (Hlt : k < length (compute_token_positions encode ws tokens))
    by (by eapply lookup_lt_Some).
  split; [|lia].
  assert (H : map token_idx (compute_token_positions encode ws tokens) !! k
              = Some (token_idx pos)) by (by rewrite list_lookup_fmap, Hk).
  rewrite Hidx in H. apply lookup_seq in H. lia.
Qed.
End Cursor.

(** ** The alignment against the algorithm of the specification *)

Section Greedy.
Context {time : Type}.
Implicit Types (w : Word time) (tp : list (TokenPosition time)).

Lemma spec_emit_word_eq w (count : nat) (tokens : list string) (cur : nat) :
  spec_emit_word w count tokens cur =
  (map (fun i => emitted_for tokens (pos_of w i))
     (seq cur (min count (length tokens - cur))),
   cur + min count (length tokens - cur)).
Proof.
  revert cur. induction count as [|count IH]; intros cur; simpl.
  - by rewrite Nat.add_0_r.
  - destruct (tokens !! cur) as [tok|] eqn:Htok.
    + assert (cur < length tokens) by (by eapply lookup_lt_Some).
      rewrite IH.
      replace (length tokens - cur) with (S (length tokens - S cur)) by lia.
      simpl. unfold emitted_for at 2. simpl.
      rewrite nth_lookup, Htok. simpl. f_equal. lia.
    + apply lookup_ge_None in Htok. rewrite IH.
      replace (length tokens - cur) with 0 by lia.
      by rewrite !Nat.min_0_r.
Qed.

Lemma assign_words_spec_align (encode : string -> list nat)
    (ws : list (Word time)) (tokens : list string) tp (cur : nat) :
  map (emitted_for tokens) (fst (assign_words encode ws (length tokens) tp cur))
  = map (emitted_for tokens) tp ++ spec_align encode ws tokens cur.
Proof.
  revert tp cur. induction ws as [|w ws IH]; intros tp cur; simpl.
  - by rewrite app_nil_r.
  - rewrite assign_word_tokens_eq, spec_emit_word_eq, IH.
    by rewrite map_app, map_map, <- app_assoc.
Qed.

Lemma compute_token_positions_spec_align (encode : string -> list nat)
    (ws : list (Word time)) (tokens : list string) :
  map (emitted_for tokens) (compute_token_positions encode ws tokens)
  = spec_align encode ws tokens 0.
Proof. unfold compute_token_positions. by rewrite assign_words_spec_align. Qed.
End Greedy.

(** ** Building the rows *)

Lemma mapM_result_cons {A B : Type} (f : A -> result B) (x : A)
    (l : list A) :
  mapM f (x :: l) =
  match f x with
  | Ok y => match mapM f l with Ok k => Ok (y :: k) | Raise e => Raise e end
  | Raise e => Raise e
  end.
Proof. reflexivity. Qed.

Lemma mapM_result_Ok {A B : Type} (f : A -> result B) (l : list A)
    (k : list B) :
  mapM f l = Ok k <-> Forall2 (fun x y => f x = Ok y) l k.
Proof.
  revert k. induction l as [|x l IH]; intros k.
  - split.
    + intros [= <-]. constructor.
    + by inversion 1.
  - rewrite mapM_result_cons. split.
    + destruct (f x) as [y|e] eqn:Hfx; [|done].
      destruct (mapM f l) as [k'|e] eqn:Hl; [|done].
      intros [= <-]. constructor; [done|]. by apply IH.
    + inversion 1 as [|? y ? k' Hfx Hrest]; subst.
      apply IH in Hrest. by rewrite Hfx, Hrest.
Qed.

Lemma mapM_result_map {A B : Type} (f : A -> result B) (g : A -> B)
    (l : list A) :
  Forall (fun x => f x = Ok (g x)) l -> mapM f l = Ok (map g l).
Proof.
  intros H. apply mapM_result_Ok.
  induction H; simpl; by constructor.
Qed.

Section Rows.
Context {F time : Type} `{!Numpy F}.
Implicit Types (row : dict (cell F time)) (emb : ndarray F).

Lemma leading_keys_not_layer (k : string) :
  k ∈ ["timestamp"; "word"; "token"] -> not_layer_key k.
Proof.
  intros Hk i m E. destruct (layer_col_head i m) as [s Hs].
  rewrite Hs in E.
  repeat (apply elem_of_cons in Hk as [->|Hk]; [discriminate|]).
  inversion Hk.
Qed.

(** The layer loop leaves every other key as it was. *)
Lemma add_layer_stats_frame emb (t : nat) (layers : list nat) row row'
    (k : string) :
  add_layer_stats (time := time) emb t layers row = Ok row' ->
  not_layer_key k ->
  dict_get k row' = dict_get k row.
Proof.
  intros Hrun Hk. revert row Hrun.
  induction layers as [|l layers IH]; intros row Hrun; simpl in Hrun.
  - by injection Hrun as <-.
  - unfold mbind, result_bind in Hrun.
    destruct (getitem_2 emb t l) as [v|e]; [|done].
    apply IH in Hrun. rewrite Hrun.
    rewrite !dict_get_set_ne; [done | apply Hk ..].
Qed.

(** Within the tensor, on fresh keys, the layer loop appends the three
    statistics of each layer in turn. *)
Lemma add_layer_stats_closed emb (t : nat) (layers : list nat) row
    (n0 n1 n2 : nat) (rest : list nat) :
  shape emb = n0 :: n1 :: n2 :: rest ->
  t < n0 ->
  Forall (fun l => l < n1) layers ->
  NoDup layers ->
  (forall l m, l ∈ layers -> layer_col l m ∉ dict_keys row) ->
  add_layer_stats emb t layers row
  = Ok (row ++ flat_map (layer_stats emb t) layers).
Proof.
  intros Hsh Ht. revert row.
  induction layers as [|l layers IH]; intros row Hlt Hnd Hfresh; simpl.
  - by rewrite app_nil_r.
  - apply Forall_cons in Hlt as [Hl Hlt]. apply NoDup_cons in Hnd as [Hnl Hnd].
    unfold layer_stats at 1. unfold getitem_2. rewrite Hsh.
    destruct (Nat.ltb_spec t n0); [|lia].
    destruct (Nat.ltb_spec l n1); [|lia]. simpl.
    set (v := map _ _).
    assert (Hin : l ∈ l :: layers) by set_solver.
    rewrite (dict_set_fresh (layer_col l "mean")) by (by apply Hfresh).
    rewrite (dict_set_fresh (layer_col l "std")).
    2:{ unfold dict_keys. rewrite map_app. simpl.
        intros [H'|H']%elem_of_app; [by eapply Hfresh|].
        set_unfold. destruct H' as [H'|[]].
        by apply layer_col_inj in H' as [_ ?]. }
    rewrite (dict_set_fresh (layer_col l "norm")).
    2:{ unfold dict_keys. rewrite !map_app. simpl.
        intros [[H'|H']%elem_of_app|H']%elem_of_app; [by eapply Hfresh| |];
          set_unfold; destruct H' as [H'|[]];
          by apply layer_col_inj in H' as [_ ?]. }
    rewrite IH; [by rewrite <- !app_assoc | done | done |].
    intros l' m Hl'. unfold dict_keys. rewrite !map_app. simpl.
    intros H'. set_unfold.
    destruct H' as [[[H'|[H'|[]]]|[H'|[]]]|[H'|[]]].
    + eapply Hfresh; [|exact H']. by right.
    + apply layer_col_inj in H' as [-> _]. done.
    + apply layer_col_inj in H' as [-> _]. done.
    + apply layer_col_inj in H' as [-> _]. done.
Qed.
End Rows.

Section Aligner.
Context {F time : Type} `{!Numpy F} `{!Libraries F time}.
Implicit Types (self : AudioEmbeddingExtractor F time) (emb : ndarray F)
  (w : world F time) (pos : TokenPosition time).

Lemma build_row_closed (tokens : list string) emb pos
    (n0 n1 n2 : nat) (rest : list nat) :
  shape emb = n0 :: n1 :: n2 :: rest ->
  token_idx pos < length tokens ->
  token_idx pos < n0 ->
  build_row tokens emb pos = Ok (row_of tokens emb n1 pos).
Proof.
  intros Hsh Htok Hemb. unfold build_row, py_getitem, row_of.
  destruct (lookup_lt_is_Some_2 tokens (token_idx pos) Htok) as [tok Hlk].
  rewrite nth_lookup, Hlk. simpl.
  unfold shape_at. rewrite Hsh. simpl.
  rewrite (add_layer_stats_closed emb _ _ _ n0 n1 n2 rest); [done..| | |].
  - apply Forall_forall. intros l Hl%elem_of_seq. lia.
  - apply NoDup_seq.
  - intros l m _ Hin. eapply (leading_keys_not_layer _ Hin). reflexivity.
Qed.

Lemma getitem_2_error emb (i j : nat) (e : exn) :
  getitem_2 emb i j = Raise e -> exn_type e = IndexError.
Proof.
  unfold getitem_2. destruct (shape emb) as [|? [|? [|? ?]]]; try by intros [= <-].
  destruct (negb _); [by intros [= <-]|].
  destruct (negb _); [by intros [= <-]|]. done.
Qed.

Lemma add_layer_stats_error emb (t : nat) (layers : list nat)
    (row : dict (cell F time)) (e : exn) :
  add_layer_stats emb t layers row = Raise e -> exn_type e = IndexError.
Proof.
  revert row. induction layers as [|l layers IH]; intros row; simpl; [done|].
  unfold mbind, result_bind.
  destruct (getitem_2 emb t l) as [v|e'] eqn:Hget.
  - apply IH.
  - intros [= <-]. by eapply getitem_2_error.
Qed.

Lemma build_row_error (tokens : list string) emb pos (e : exn) :
  build_row tokens emb pos = Raise e -> exn_type e = IndexError.
Proof.
  unfold build_row, py_getitem, shape_at, mbind, result_bind.
  destruct (tokens !! token_idx pos); [|by intros [= <-]].
  destruct (shape emb !! 1); [|by intros [= <-]].
  apply add_layer_stats_error.
Qed.

Lemma mapM_result_error {A B : Type} (f : A -> result B) (l : list A)
    (e : exn) :
  mapM f l = Raise e -> exists x, x ∈ l /\ f x = Raise e.
Proof.
  induction l as [|x l IH]; [done|]. rewrite mapM_result_cons.
  destruct (f x) as [y|e'] eqn:Hfx.
  - destruct (mapM f l) as [k|e'] eqn:Hl; [done|].
    intros [= <-]. destruct IH as (x' & ? & ?); [done|].
    exists x'. split; [by right | done].
  - intros [= <-]. exists x. split; [by left | done].
Qed.

Lemma build_rows_error (tokens : list string) emb
    (tp : list (TokenPosition time)) (e : exn) :
  build_rows tokens emb tp = Raise e -> exn_type e = IndexError.
Proof.
  intros (pos & _ & H)%mapM_result_error. by eapply build_row_error.
Qed.

(** With at least three axes and a first axis that covers the recorded
    entries, every row is built. *)
Lemma build_rows_closed (encode : string -> list nat) (ws : list (Word time))
    (tokens : list string) emb (n0 n1 n2 : nat) (rest : list nat) :
  shape emb = n0 :: n1 :: n2 :: rest ->
  length (compute_token_positions encode ws tokens) <= n0 ->
  build_rows tokens emb (compute_token_positions encode ws tokens)
  = Ok (map (row_of tokens emb n1) (compute_token_positions encode ws tokens)).
Proof.
  intros Hsh Hlen. apply mapM_result_map, Forall_lookup.
  intros k pos Hk.
  assert (k < length (compute_token_positions encode ws tokens))
    by (by eapply lookup_lt_Some).
  apply compute_token_positions_lookup in Hk as [Hidx Hlt].
  eapply build_row_closed; [exact Hsh | lia | lia].
Qed.

(** The aligner, unfolded: its outcome is that of building the rows. *)
Lemma align_run self (ws : list (Word time)) (tokens : list string) emb w :
  align_embeddings_to_words self ws tokens emb w =
  let w1 := MkWorld
              (stdout w ++ [nl +:+ "Aligning embeddings to word timestamps..."])
              (stderr w) (fs_dirs w) (fs_files w) (calls w) in
  match build_rows tokens emb
          (compute_token_positions (tok_encode (tokenizer self)) ws tokens) with
  | Ok rows =>
      (Ok (pd_DataFrame rows, emb, tokens),
       MkWorld
         (stdout w1 ++
            ["Created DataFrame with " +:+ str_of_nat (length rows) +:+
             " rows and " +:+ str_of_nat (length (union_keys rows)) +:+
             " columns"])
         (stderr w) (fs_dirs w) (fs_files w) (calls w))
  | Raise e => (Raise e, w1)
  end.
Proof.
  unfold align_embeddings_to_words, mbind, M_bind, print, lift. simpl.
  by destruct (build_rows _ _ _).
Qed.
End Aligner.

(** ** The statistics columns *)

Lemma indices_vector (n : nat) : indices [n] = map (fun d => [d]) (seq 0 n).
Proof.
  simpl. induction (seq 0 n) as [|d l IH]; simpl; [done|]. by rewrite IH.
Qed.

Section Statistics.
Context {F time : Type} `{!Numpy F}.
Implicit Types (emb : ndarray F).

#[local] Arguments getitem_2 : simpl never.

Lemma layer_stats_inside emb (t l n0 n1 n2 : nat) :
  shape emb = [n0; n1; n2] ->
  t < n0 -> l < n1 ->
  layer_stats (time := time) emb t l =
  let v := map (fun d => item emb [t; l; d]) (seq 0 n2) in
  [(layer_col l "mean", CellNum (np_mean v));
   (layer_col l "std", CellNum (np_std v));
   (layer_col l "norm", CellNum (np_linalg_norm v))].
Proof.
  intros Hsh Ht Hl. unfold layer_stats, getitem_2. rewrite Hsh.
  destruct (Nat.ltb_spec t n0); [|lia].
  destruct (Nat.ltb_spec l n1); [|lia]. simpl negb. cbv iota.
  by rewrite indices_vector, map_map.
Qed.

Lemma layer_stats_keys emb (t : nat) (layers : list nat) (n0 n1 n2 : nat) :
  shape emb = [n0; n1; n2] ->
  t < n0 -> Forall (fun l => l < n1) layers ->
  dict_keys (flat_map (layer_stats (time := time) emb t) layers)
  = flat_map layer_cols_of layers.
Proof.
  intros Hsh Ht. induction 1 as [|l layers Hl _ IH]; simpl; [done|].
  unfold dict_keys in *. rewrite map_app, IH.
  by rewrite (layer_stats_inside _ _ _ _ _ _ Hsh Ht Hl).
Qed.

Lemma layer_stats_other emb (t l i : nat) (m : string) :
  l <> i -> dict_get (layer_col i m) (layer_stats (time := time) emb t l) = None.
Proof.
  intros Hne. unfold layer_stats. destruct (getitem_2 emb t l); [|done].
  cbn [dict_get].
  destruct (String.eqb_spec (layer_col i m) (layer_col l "mean")) as [E|_];
    [apply layer_col_inj in E as [E _]; congruence|].
  destruct (String.eqb_spec (layer_col i m) (layer_col l "std")) as [E|_];
    [apply layer_col_inj in E as [E _]; congruence|].
  destruct (String.eqb_spec (layer_col i m) (layer_col l "norm")) as [E|_];
    [apply layer_col_inj in E as [E _]; congruence|].
  done.
Qed.

Lemma layer_stats_absent emb (t i : nat) (m : string) (layers : list nat) :
  i ∉ layers ->
  dict_get (layer_col i m) (flat_map (layer_stats (time := time) emb t) layers)
  = None.
Proof.
  induction layers as [|l layers IH]; intros Hnl; simpl; [done|].
  apply not_elem_of_cons in Hnl as [? ?].
  rewrite dict_get_app, layer_stats_other by done. by apply IH.
Qed.

Lemma layer_stats_lookup emb (t i : nat) (m : string) (layers : list nat) :
  NoDup layers -> i ∈ layers ->
  dict_get (layer_col i m) (flat_map (layer_stats (time := time) emb t) layers)
  = dict_get (layer_col i m) (layer_stats emb t i).
Proof.
  induction 1 as [|l layers Hnl Hnd IH]; intros Hin; [by inversion Hin|].
  simpl. rewrite dict_get_app.
  destruct (decide (l = i)) as [->|Hne].
  - rewrite layer_stats_absent by done.
    by destruct (dict_get _ (layer_stats emb t i)).
  - rewrite layer_stats_other by done. apply IH.
    apply elem_of_cons in Hin as [E|Hin]; [congruence | done].
Qed.

(** The layer loop leaves the columns of the layers it does not visit
    as they were. *)
Lemma add_layer_stats_other_layer emb (t : nat) (layers : list nat)
    (row row' : dict (cell F time)) (l : nat) (m : string) :
  add_layer_stats emb t layers row = Ok row' ->
  l ∉ layers ->
  dict_get (layer_col l m) row' = dict_get (layer_col l m) row.
Proof.
  revert row. induction layers as [|l' layers IH]; intros row Hrun Hl;
    simpl in Hrun.
  - by injection Hrun as <-.
  - apply not_elem_of_cons in Hl as [Hne Hl].
    unfold mbind, result_bind in Hrun.
    destruct (getitem_2 emb t l') as [v|e]; [|done].
    rewrite (IH _ Hrun Hl).
    rewrite !dict_get_set_ne; [done|..];
      intros [? _]%layer_col_inj; congruence.
Qed.

(** What the layer loop leaves in the row for the layers it visits:
    the three reductions of the vector read at the token index. *)
Lemma add_layer_stats_cells emb (t : nat) (layers : list nat)
    (row row' : dict (cell F time)) (l : nat) :
  add_layer_stats emb t layers row = Ok row' ->
  NoDup layers -> l ∈ layers ->
  exists v,
    getitem_2 emb t l = Ok v /\
    dict_get (layer_col l "mean") row' = Some (CellNum (np_mean v)) /\
    dict_get (layer_col l "std") row' = Some (CellNum (np_std v)) /\
    dict_get (layer_col l "norm") row' = Some (CellNum (np_linalg_norm v)).
Proof.
  revert row. induction layers as [|l' layers IH]; intros row Hrun Hnd Hl;
    [by inversion Hl|].
  apply NoDup_cons in Hnd as [Hnl Hnd]. simpl in Hrun.
  unfold mbind, result_bind in Hrun.
  destruct (getitem_2 emb t l') as [v|e] eqn:Hget; [|done].
  destruct (decide (l = l')) as [->|Hne].
  - exists v. split; [done|].
    rewrite !(add_layer_stats_other_layer _ _ _ _ _ _ _ Hrun Hnl).
    rewrite dict_get_set_eq.
    rewrite (dict_get_set_ne (layer_col l' "std") (layer_col l' "norm"))
      by (by intros [_ ?]%layer_col_inj).
    rewrite dict_get_set_eq.
    rewrite !(dict_get_set_ne (layer_col l' "mean"))
      by (by intros [_ ?]%layer_col_inj).
    by rewrite dict_get_set_eq.
  - apply elem_of_cons in Hl as [?|Hl]; [done|]. by eapply IH.
Qed.
End Statistics.


Section AlignerClaims.
Context {F time : Type} `{!Numpy F} `{!Libraries F time}.
Implicit Types (self : AudioEmbeddingExtractor F time) (emb : ndarray F)
  (w : world F time) (pos : TokenPosition time).

(** The first three fields of a built row are the entry's start time,
    its word, and its token with every line feed written as [\n]. *)
Lemma build_row_head (tokens : list string) emb pos
    (row : dict (cell F time)) :
  build_row tokens emb pos = Ok row ->
  row_head row =
  Some (pos_start pos, pos_word pos,
        str_replace nl "\n" (nth (token_idx pos) tokens EmptyString)).
Proof.
  unfold build_row, py_getitem, shape_at, mbind, result_bind.
  rewrite nth_lookup.
  destruct (tokens !! token_idx pos) as [tok|]; [|done].
  destruct (shape emb !! 1) as [n1|]; [|done].
  intros Hrun. unfold row_head.
  rewrite !(add_layer_stats_frame _ _ _ _ _ _ Hrun);
    [done | apply leading_keys_not_layer; set_solver ..].
Qed.

(** What a built row holds: the token at the entry's index, escaped,
    the entry's word and start time, and for every layer of the tensor
    the three reductions of the vector read at that index. *)
Lemma build_row_contents (tokens : list string) emb pos
    (row : dict (cell F time)) :
  build_row tokens emb pos = Ok row ->
  exists tok n_layers,
    tokens !! token_idx pos = Some tok /\
    dict_get "token" row = Some (CellStr (str_replace nl "\n" tok)) /\
    dict_get "word" row = Some (CellStr (pos_word pos)) /\
    dict_get "timestamp" row = Some (CellTime (pos_start pos)) /\
    shape emb !! 1 = Some n_layers /\
    forall l, l < n_layers ->
      exists v,
        getitem_2 emb (token_idx pos) l = Ok v /\
        dict_get (layer_col l "mean") row = Some (CellNum (np_mean v)) /\
        dict_get (layer_col l "std") row = Some (CellNum (np_std v)) /\
        dict_get (layer_col l "norm") row
          = Some (CellNum (np_linalg_norm v)).
Proof.
  intros Hrow.
  pose proof (build_row_head _ _ _ _ Hrow) as Hhead.
  revert Hrow. unfold build_row, py_getitem, shape_at, mbind, result_bind.
  destruct (tokens !! token_idx pos) as [tok|] eqn:Htok; [|done].
  destruct (shape emb !! 1) as [n1|]; [|done].
  intros Hrun. exists tok, n1.
  rewrite nth_lookup, Htok in Hhead. simpl in Hhead.
  unfold row_head in Hhead.
  destruct (dict_get "timestamp" row) as [[ts| |]|]; try done.
  destruct (dict_get "word" row) as [[|wd|]|]; try done.
  destruct (dict_get "token" row) as [[|tk|]|]; try done.
  injection Hhead as -> -> ->.
  repeat (split; [done|]).
  intros l Hl.
  apply (add_layer_stats_cells _ _ _ _ _ _ Hrun); [apply NoDup_seq|].
  apply elem_of_seq. lia.
Qed.

Lemma rows_heads (tokens : list string) emb
    (tp : list (TokenPosition time)) (rows : list (dict (cell F time))) :
  build_rows tokens emb tp = Ok rows ->
  map row_head rows =
  map (fun tr => Some (tr.1.1, tr.1.2, str_replace nl "\n" tr.2))
    (map (emitted_for tokens) tp).
Proof.
  intros H%mapM_result_Ok.
  induction H as [|pos row tp rows Hrow _ IH]; simpl; [done|].
  rewrite IH. f_equal. by eapply build_row_head.
Qed.

(** On a tensor with at least three axes whose first axis covers the
    tokens, the aligner returns, with the closed-form rows. *)
Lemma align_returns self (ws : list (Word time)) (tokens : list string) emb w
    (n0 n1 n2 : nat) (rest : list nat) :
  shape emb = n0 :: n1 :: n2 :: rest ->
  length tokens <= n0 ->
  exists w',
    align_embeddings_to_words self ws tokens emb w
    = (Ok (pd_DataFrame
             (map (row_of tokens emb n1)
                (compute_token_positions (tok_encode (tokenizer self))
                   ws tokens)),
           emb, tokens), w').
Proof.
  intros Hsh Hlen. rewrite align_run. simpl.
  rewrite (build_rows_closed _ _ _ _ n0 n1 n2 rest Hsh); [by eauto|].
  destruct (compute_token_positions_indices (tok_encode (tokenizer self))
              ws tokens) as [_ ->]. lia.
Qed.

(** C1: for every word sequence, token sequence and embedding tensor,
    the aligner records at most as many entries as there are tokens,
    every recorded index (the only index at which it reads a token or
    the first axis of the tensor) lies inside the token sequence, and
    every token read succeeds; the table it returns has one row per
    entry.  It can only fail with an [IndexError] of the tensor, when
    the tensor's first axis is shorter than the entries recorded. *)
Theorem aligner_stays_in_bounds self (ws : list (Word time))
    (tokens : list string) emb w :
  let tp := compute_token_positions (tok_encode (tokenizer self)) ws tokens in
  length tp <= length tokens /\
  Forall (fun pos => token_idx pos < length tokens) tp /\
  Forall (fun pos => exists tok,
            py_getitem "list" tokens (token_idx pos) = Ok tok) tp /\
  match fst (align_embeddings_to_words self ws tokens emb w) with
  | Ok (df, _, _) =>
      length (records df) = length tp /\ length (records df) <= length tokens
  | Raise e =>
      exn_type e = IndexError /\
      forall n0 n1 n2 rest, shape emb = n0 :: n1 :: n2 :: rest -> n0 < length tp
  end.
Proof.
  intros tp.
  destruct (compute_token_positions_indices (tok_encode (tokenizer self))
              ws tokens) as [_ Hlen]. fold tp in Hlen.
  assert (Hidx : Forall (fun pos => token_idx pos < length tokens) tp).
  { apply Forall_lookup. intros k pos Hk.
    apply compute_token_positions_lookup in Hk. lia. }
  split; [lia|]. split; [done|]. split.
  - eapply Forall_impl; [exact Hidx|]. intros pos Hpos. simpl in Hpos.
    destruct (lookup_lt_is_Some_2 tokens _ Hpos) as [tok Htok].
    exists tok. unfold py_getitem. by rewrite Htok.
  - rewrite align_run. simpl. fold tp.
    destruct (build_rows tokens emb tp) as [rows|e] eqn:Hrows; simpl.
    + apply mapM_result_Ok, Forall2_length in Hrows. lia.
    + split; [by eapply build_rows_error|].
      intros n0 n1 n2 rest Hsh.
      destruct (le_lt_dec (length tp) n0) as [Hle|Hlt]; [|done].
      unfold tp in Hrows, Hle.
      rewrite (build_rows_closed _ _ _ _ _ _ _ _ Hsh Hle) in Hrows. done.
Qed.

(** C2, amended: the rows are those of the greedy algorithm (one
    cursor from 0, the words in order, each tokenized on its own, one
    row per step while the cursor is inside the token sequence), each
    carrying the word's start time, the word's text, and the token at
    the cursor with every line feed replaced by a backslash and an
    [n]; and on a tensor with at least three axes whose first axis
    covers the tokens the aligner returns. *)
Theorem aligner_follows_greedy_algorithm self (ws : list (Word time))
    (tokens : list string) emb w :
  (forall df e t w',
     align_embeddings_to_words self ws tokens emb w = (Ok (df, e, t), w') ->
     map row_head (records df) =
     map (fun tr => Some (tr.1.1, tr.1.2, str_replace nl "\n" tr.2))
       (spec_align (tok_encode (tokenizer self)) ws tokens 0)) /\
  (forall n0 n1 n2 rest,
     shape emb = n0 :: n1 :: n2 :: rest ->
     length tokens <= n0 ->
     exists df w',
       align_embeddings_to_words self ws tokens emb w
       = (Ok (df, emb, tokens), w')).
Proof.
  split.
  - intros df e t w'. rewrite align_run. simpl.
    destruct (build_rows _ _ _) as [rows|err] eqn:Hrows; [|done].
    intros [= <- _ _ _]. simpl.
    rewrite (rows_heads _ _ _ _ Hrows).
    by rewrite compute_token_positions_spec_align.
  - intros n0 n1 n2 rest Hsh Hlen.
    destruct (align_returns self ws tokens emb w _ _ _ _ Hsh Hlen) as [w' E].
    eauto.
Qed.

(** C9: whenever the aligner returns, the tensor and the token list it
    returns are the ones it was given; otherwise it raised an
    [IndexError]; and on a tensor with at least three axes whose first
    axis covers the tokens it does return. *)
Theorem aligner_passes_inputs_through self (ws : list (Word time))
    (tokens : list string) emb w :
  match fst (align_embeddings_to_words self ws tokens emb w) with
  | Ok (_, e, t) => e = emb /\ t = tokens
  | Raise err => exn_type err = IndexError
  end /\
  (forall n0 n1 n2 rest,
     shape emb = n0 :: n1 :: n2 :: rest ->
     length tokens <= n0 ->
     exists df w',
       align_embeddings_to_words self ws tokens emb w
       = (Ok (df, emb, tokens), w')).
Proof.
  split.
  - rewrite align_run. simpl.
    destruct (build_rows _ _ _) as [rows|err] eqn:Hrows; simpl; [done|].
    by eapply build_rows_error.
  - intros n0 n1 n2 rest Hsh Hlen.
    destruct (align_returns self ws tokens emb w _ _ _ _ Hsh Hlen) as [w' E].
    eauto.
Qed.

(** C10: the recorded token indices are 0, 1, ..., k-1 in order, with
    k the smaller of the token count and the words' isolated token
    count; the returned table has k rows, and row number i consumes
    token index i: it is the row built for the entry with index i,
    its token cell holds token i (escaped), and its layer columns hold
    the reductions of the tensor's vectors at first index i; and once
    the cursor has reached the token count, later words add
    nothing. *)
Theorem aligner_uses_tokens_in_order self (ws : list (Word time))
    (tokens : list string) emb w :
  let encode := tok_encode (tokenizer self) in
  let tp := compute_token_positions encode ws tokens in
  map token_idx tp = seq 0 (length tp) /\
  length tp = min (length tokens) (isolated_token_count encode ws) /\
  (forall df e t w',
     align_embeddings_to_words self ws tokens emb w = (Ok (df, e, t), w') ->
     length (records df) = length tp /\
     forall i row,
       records df !! i = Some row ->
       exists pos tok n_layers,
         tp !! i = Some pos /\ token_idx pos = i /\
         build_row tokens emb pos = Ok row /\
         tokens !! i = Some tok /\
         dict_get "token" row = Some (CellStr (str_replace nl "\n" tok)) /\
         dict_get "word" row = Some (CellStr (pos_word pos)) /\
         dict_get "timestamp" row = Some (CellTime (pos_start pos)) /\
         shape emb !! 1 = Some n_layers /\
         forall l, l < n_layers ->
           exists v,
             getitem_2 emb i l = Ok v /\
             dict_get (layer_col l "mean") row = Some (CellNum (np_mean v)) /\
             dict_get (layer_col l "std") row = Some (CellNum (np_std v)) /\
             dict_get (layer_col l "norm") row
               = Some (CellNum (np_linalg_norm v))) /\
  (forall ws1 ws2,
     ws = ws1 ++ ws2 ->
     snd (assign_words encode ws1 (length tokens) [] 0) = length tokens ->
     tp = compute_token_positions encode ws1 tokens).
Proof.
  intros encode tp.
  destruct (compute_token_positions_indices encode ws tokens) as [Hidx Hlen].
  fold tp in Hidx, Hlen.
  split; [done|]. split; [done|]. split.
  - intros df e t w'. rewrite align_run. simpl. fold encode. fold tp.
    destruct (build_rows tokens emb tp) as [rows|err] eqn:Hrows; [|done].
    intros [= <- _ _ _]. simpl.
    apply mapM_result_Ok in Hrows.
    split; [symmetry; by eapply Forall2_length|].
    intros i row Hi.
    destruct (Forall2_lookup_r _ _ _ _ _ Hrows Hi) as (pos & Hpos & Hrow).
    apply compute_token_positions_lookup in Hpos as Hi'.
    destruct Hi' as [Hi' _].
    destruct (build_row_contents _ _ _ _ Hrow)
      as (tok & n & Htok & H1 & H2 & H3 & Hsh & Hstats).
    rewrite Hi' in Htok, Hstats.
    exists pos, tok, n. done.
  - intros ws1 ws2 -> Hcur. unfold tp, compute_token_positions.
    rewrite assign_words_app.
    rewrite assign_words_saturated by lia. done.
Qed.
End AlignerClaims.

Section StatisticsOfRows.
Context {F time : Type} `{!Numpy F} `{!Libraries F time}.
Implicit Types (self : AudioEmbeddingExtractor F time) (emb : ndarray F).

(** The keys and the statistics cells of a row in closed form. *)
Lemma row_of_statistics (tokens : list string) emb
    (pos : TokenPosition time) (n0 n1 n2 : nat) :
  shape emb = [n0; n1; n2] ->
  token_idx pos < n0 ->
  let row := row_of (time := time) tokens emb n1 pos in
  dict_keys row =
    ["timestamp"; "word"; "token"] ++ flat_map layer_cols_of (seq 0 n1) /\
  forall i, i < n1 ->
    let v := map (fun d => item emb [token_idx pos; i; d]) (seq 0 n2) in
    dict_get (layer_col i "mean") row = Some (CellNum (np_mean v)) /\
    dict_get (layer_col i "std") row = Some (CellNum (np_std v)) /\
    dict_get (layer_col i "norm") row = Some (CellNum (np_linalg_norm v)).
Proof.
  intros Hsh Ht row. split.
  - unfold row, row_of, dict_keys. rewrite map_app. f_equal.
    apply (layer_stats_keys emb _ _ n0 n1 n2 Hsh Ht).
    apply Forall_forall. intros l Hl%elem_of_seq. lia.
  - intros i Hi v.
    assert (Hget : forall m,
      dict_get (layer_col i m) row =
      dict_get (layer_col i m) (layer_stats (time := time) emb (token_idx pos) i)).
    { intros m. unfold row, row_of. rewrite dict_get_app.
      rewrite dict_get_None.
      - apply layer_stats_lookup; [apply NoDup_seq|]. apply elem_of_seq. lia.
      - intros Hin. eapply (leading_keys_not_layer _ Hin). reflexivity. }
    rewrite !Hget, (layer_stats_inside emb _ _ n0 n1 n2 Hsh Ht Hi).
    cbn [dict_get]. fold v.
    rewrite !String.eqb_refl.
    destruct (String.eqb_spec (layer_col i "std") (layer_col i "mean")) as [E|_];
      [by apply layer_col_inj in E as [_ ?]|].
    destruct (String.eqb_spec (layer_col i "norm") (layer_col i "mean")) as [E|_];
      [by apply layer_col_inj in E as [_ ?]|].
    destruct (String.eqb_spec (layer_col i "norm") (layer_col i "std")) as [E|_];
      [by apply layer_col_inj in E as [_ ?]|].
    done.
Qed.

(** Row number [k] of the returned table holds, for every layer, the
    three reductions of the vector [embeddings[k, layer, :]]. *)
Lemma aligned_rows_statistics self (ws : list (Word time))
    (tokens : list string) emb (w : world F time) (n0 n1 n2 : nat) :
  shape emb = [n0; n1; n2] ->
  length tokens <= n0 ->
  exists df w',
    align_embeddings_to_words self ws tokens emb w = (Ok (df, emb, tokens), w')
    /\ forall k row,
      records df !! k = Some row ->
      dict_keys row =
        ["timestamp"; "word"; "token"] ++ flat_map layer_cols_of (seq 0 n1) /\
      forall i, i < n1 ->
        let v := map (fun d => item emb [k; i; d]) (seq 0 n2) in
        dict_get (layer_col i "mean") row = Some (CellNum (np_mean v)) /\
        dict_get (layer_col i "std") row = Some (CellNum (np_std v)) /\
        dict_get (layer_col i "norm") row = Some (CellNum (np_linalg_norm v)).
Proof.
  intros Hsh Hlen.
  destruct (align_returns self ws tokens emb w _ _ _ _ Hsh Hlen) as [w' E].
  eexists _, w'. split; [exact E|].
  intros k row Hk. simpl in Hk.
  rewrite list_lookup_fmap in Hk.
  destruct (compute_token_positions _ ws tokens !! k) as [pos|] eqn:Hpos;
    [|done].
  injection Hk as <-.
  apply compute_token_positions_lookup in Hpos as [<- Hlt].
  apply (row_of_statistics tokens emb pos n0 n1 n2 Hsh). lia.
Qed.
End StatisticsOfRows.

Section LayerStatistics.
Context {F time : Type} `{!Numpy F} `{!Libraries F time}.

End LayerStatistics.

(** ** The visualizer *)

Ltac run_M :=
  unfold mbind, M_bind, mret, M_ret, print, print_stderr, emit_stdout,
    emit_stderr, record_call, get_world, lift, raise, try_except; simpl.

Section Visualizer.
Context {F time : Type} `{!Numpy F} `{!Libraries F time}.

(** C4: when the tensor has [n_layers] layers and some column
    [layer_i_<metric>] with [i < n_layers] is missing from the table,
    the visualizer prints its warning and returns normally: nothing is
    raised, no file is written (no image, no directory), and the
    plotting backend is not called. *)
Theorem visualizer_skips_missing_columns (df : DataFrame F time)
    (embeddings : ndarray F) (output_path metric : string) (w : world F time)
    (n_layers i : nat) :
  shape embeddings !! 1 = Some n_layers ->
  i < n_layers ->
  layer_col i metric ∉ columns df ->
  visualize_embeddings df embeddings output_path metric w =
  (Ok tt,
   MkWorld
     ((stdout w ++ [nl +:+ "Generating visualization..."]) ++
      ["Warning: Not all layer columns found for metric '" +:+ metric +:+ "'"])
     (stderr w) (fs_dirs w) (fs_files w) (calls w)).
Proof.
  intros Hsh Hi Hmiss. unfold visualize_embeddings, shape_at.
  rewrite Hsh. run_M.
  assert (Hall : forallb (fun col => bool_decide (col ∈ columns df))
                   (map (fun i => layer_col i metric) (seq 0 n_layers)) = false).
  { apply not_true_is_false. intros Hall.
    rewrite forallb_forall in Hall.
    specialize (Hall (layer_col i metric)).
    apply Hmiss. eapply bool_decide_eq_true_1, Hall.
    apply in_map_iff. exists i. split; [done|]. apply in_seq. lia. }
  by rewrite Hall.
Qed.
End Visualizer.

(** ** The audio loader *)

Section AudioLoader.
Context {F time : Type} `{!Numpy F} `{!Libraries F time}.
Implicit Types (w : world F time).

(** The existence check reads the directories and files only. *)
Lemma os_path_exists_frame w (w' : world F time) (p : string) :
  fs_dirs w' = fs_dirs w -> fs_files w' = fs_files w ->
  os_path_exists w' p = os_path_exists w p.
Proof.
  intros Hd Hf. unfold os_path_exists, fs_exists.
  destruct p as [|c p]; [done|].
  destruct (path_of_str (String c p)); [done|]. by rewrite Hd, Hf.
Qed.

(** The outcome of the loader on a path that exists. *)
Lemma load_audio_existing (audio_path : string) (sr : nat) w :
  os_path_exists w audio_path = true ->
  fst (load_audio audio_path sr w) =
  match librosa_load (world_at_decode w audio_path sr) audio_path sr true with
  | Ok (audio, _) =>
      match np_len audio with
      | Ok _ =>
          if sr =? 0
          then Raise (PyErr RuntimeError
                        (load_error_message
                           (PyErr ZeroDivisionError "division by zero")))
          else Ok audio
      | Raise e => Raise (PyErr RuntimeError (load_error_message e))
      end
  | Raise e =>
      if isinstance e Exception
      then Raise (PyErr RuntimeError (load_error_message e))
      else Raise e
  end /\
  calls (snd (load_audio audio_path sr w)) =
  calls w ++ [CallExists audio_path; CallLibrosaLoad audio_path sr].
Proof.
  intros Hex. unfold load_audio. run_M.
  rewrite (os_path_exists_frame w) by done. rewrite Hex. simpl.
  fold (world_at_decode w audio_path sr).
  unfold reraise_as_RuntimeError, load_error_message.
  destruct (librosa_load _ _ _ _) as [[audio rate]|e]; simpl.
  - unfold np_len. destruct (shape audio) as [|n rest]; simpl.
    + by rewrite <- app_assoc.
    + destruct (sr =? 0); simpl; by rewrite <- app_assoc.
  - destruct (isinstance e Exception); simpl; by rewrite <- app_assoc.
Qed.

Lemma not_Exception_not_FileNotFoundError (e : exn) :
  isinstance e Exception = false -> exn_type e <> FileNotFoundError.
Proof. unfold isinstance. by destruct (exn_type e). Qed.

End AudioLoader.

(** ** The entry point *)

Section EntryPoint.
Context {F time : Type} `{!Numpy F} `{!Libraries F time}.
Implicit Types (w : world F time).

(** Loading the models prints to the standard output and calls the
    libraries; it leaves the error stream and the file system alone. *)
Lemma init_frame (whisper_name gpt2_name : string) (dev : option string) w
    (r : result (AudioEmbeddingExtractor F time)) (w' : world F time) :
  init whisper_name gpt2_name dev w = (r, w') ->
  stderr w' = stderr w /\ fs_dirs w' = fs_dirs w /\ fs_files w' = fs_files w.
Proof.
  unfold init, reraise_as_RuntimeError. run_M.
  repeat case_match; simplify_eq/=; intros; simplify_eq/=; done.
Qed.

Lemma main_run (args : Args) w :
  main args w =
  match main_body args w with
  | (Ok n, w') => (Ok n, w')
  | (Raise e, w') =>
      match main_handler e with
      | Some h => h w'
      | None => (Raise e, w')
      end
  end.
Proof. reflexivity. Qed.

Lemma main_body_value (args : Args) w (n : nat) (w' : world F time) :
  main_body args w = (Ok n, w') -> n = 0.
Proof.
  unfold main_body. run_M. repeat case_match; by intros [= <- _].
Qed.

End EntryPoint.

(** ** The embedding extractor *)

Section Extractor.
Context {F time : Type} `{!Numpy F} `{!Libraries F time}.
Implicit Types (self : AudioEmbeddingExtractor F time) (w : world F time).

(** Stacking tensors of one shape. *)
Lemma torch_stack_uniform (t0 : ndarray F) (ts : list (ndarray F))
    (sh : list nat) :
  Forall (fun t => shape t = sh) (t0 :: ts) ->
  torch_stack (t0 :: ts) =
  Ok (NdArray (S (length ts) :: sh)
        (fun ix =>
           match ix with
           | [] => item t0 []
           | l :: ix' =>
               match (t0 :: ts) !! l with
               | Some t => item t ix'
               | None => item t0 ix'
               end
           end)).
Proof.
  intros Hall. unfold torch_stack.
  assert (Hsh0 : shape t0 = sh) by (by apply Forall_cons in Hall as [? _]).
  assert (Hchk : forallb (fun t => bool_decide (shape t = shape t0)) (t0 :: ts)
                 = true).
  { apply forallb_forall. intros t Ht%list_elem_of_In.
    apply bool_decide_eq_true_2. rewrite Forall_forall in Hall.
    by rewrite (Hall t Ht). }
  rewrite Hchk. simpl length. by rewrite Hsh0.
Qed.

#[local] Arguments torch_stack : simpl never.

(** C7: when the forward pass returns one hidden state per layer plus
    the embedding layer's, each over the tokens of the text, the
    extractor returns the decoded tokens of exactly that tokenization
    and a tensor whose first axis is the number of those tokens (the
    length of the returned token list), whose second axis is the
    model's layer count, and whose layer [l] is hidden state [l + 1]:
    the embedding layer's output, hidden state 0, is left out and the
    blocks' outputs keep their order. *)
Theorem extractor_output_shape self (text : string) w
    (hidden_states : list (ndarray F)) (hidden_size : nat) :
  let input_ids := tok_input_ids (tokenizer self) text in
  let n_layer := config_n_layer (gpt2_model self) in
  gpt2_hidden_states (gpt2_model self) input_ids = Ok hidden_states ->
  length hidden_states = S n_layer ->
  0 < n_layer ->
  Forall (fun h => shape h = [1; length input_ids; hidden_size]) hidden_states ->
  exists embeddings tokens w',
    extract_gpt2_embeddings self text w = (Ok (embeddings, tokens), w') /\
    tokens = map (fun token_id => tok_decode (tokenizer self) [token_id])
               input_ids /\
    shape embeddings = [length tokens; n_layer; hidden_size] /\
    length tokens = length input_ids /\
    forall t l d h,
      l < n_layer ->
      hidden_states !! S l = Some h ->
      item embeddings [t; l; d] = item h [0; t; d].
Proof.
  intros input_ids n_layer Hfwd Hlen Hpos Hshapes.
  destruct hidden_states as [|h0 [|h1 hs]]; simpl in Hlen; [lia..|].
  apply Forall_cons in Hshapes as [_ Hshapes].
  unfold extract_gpt2_embeddings. fold input_ids. run_M.
  rewrite Hfwd. simpl. unfold drop.
  rewrite (torch_stack_uniform h1 hs _ Hshapes). simpl.
  eexists _, _, _. split; [reflexivity|]. split; [reflexivity|].
  simpl. rewrite length_map. split; [f_equal; f_equal; lia|].
  split; [done|].
  intros t l d h Hl Hh. simpl in Hh. by rewrite Hh.
Qed.
End Extractor.

(** ** What the stages leave alone *)

Section Respect.
Context {F time : Type} (R : relation (world F time)) `{!PreOrder R}.
Implicit Types (w : world F time).

Lemma respects_ret {A : Type} (a : A) : respects R (mret a : M F time A).
Proof. intros w r w' [= <- <-]. reflexivity. Qed.

Lemma respects_bind {A B : Type} (m : M F time A) (f : A -> M F time B) :
  respects R m -> (forall a, respects R (f a)) -> respects R (m ≫= f).
Proof.
  intros Hm Hf w r w'. unfold mbind, M_bind.
  destruct (m w) as [[a|e] w1] eqn:Hrun.
  - intros Hrun'. etrans; [by eapply Hm | by eapply Hf].
  - intros [= <- <-]. by eapply Hm.
Qed.

Lemma respects_lift {A : Type} (x : result A) :
  respects R (lift x : M F time A).
Proof. intros w r w' [= <- <-]. reflexivity. Qed.

Lemma respects_raise {A : Type} (e : exn) : respects R (raise e : M F time A).
Proof. intros w r w' [= <- <-]. reflexivity. Qed.

Lemma respects_get_world : respects R (get_world : M F time (world F time)).
Proof. intros w r w' [= <- <-]. reflexivity. Qed.

Lemma respects_try_except {A : Type} (body : M F time A)
    (handler : exn -> option (M F time A)) :
  respects R body -> (forall e h, handler e = Some h -> respects R h) ->
  respects R (try_except body handler).
Proof.
  intros Hb Hh w r w'. unfold try_except.
  destruct (body w) as [[a|e] w1] eqn:Hrun.
  - intros [= <- <-]. by eapply Hb.
  - destruct (handler e) as [h|] eqn:Hhe.
    + intros Hrun'. etrans; [by eapply Hb | by eapply Hh].
    + intros [= <- <-]. by eapply Hb.
Qed.

Lemma respects_reraise {A : Type} (msg : exn -> string) (e : exn)
    (h : M F time A) :
  reraise_as_RuntimeError msg e = Some h -> respects R h.
Proof.
  unfold reraise_as_RuntimeError. destruct (isinstance e Exception); [|done].
  intros [= <-]. apply respects_raise.
Qed.

Lemma respects_print `{!LetsPrint R} (s : string) :
  respects R (print s : M F time unit).
Proof. intros w r w' [= <- <-]. apply lets_print. Qed.

Lemma respects_emit_stdout `{!LetsPrint R} (lines : list string) :
  respects R (emit_stdout lines : M F time unit).
Proof. intros w r w' [= <- <-]. apply lets_print. Qed.

Lemma respects_print_stderr `{!LetsWarn R} (s : string) :
  respects R (print_stderr s : M F time unit).
Proof. intros w r w' [= <- <-]. apply lets_warn. Qed.

Lemma respects_emit_stderr `{!LetsWarn R} (lines : list string) :
  respects R (emit_stderr lines : M F time unit).
Proof. intros w r w' [= <- <-]. apply lets_warn. Qed.

Lemma respects_record_call `{!LetsCall R} (c : call) :
  respects R (record_call c : M F time unit).
Proof. intros w r w' [= <- <-]. apply lets_call. Qed.
End Respect.

Section RespectFileSystem.
Context {F time : Type} `{!Libraries F time}.
Context (R : relation (world F time)) `{!PreOrder R}.

Lemma respects_fs_write `{!LetsWrite R} (name : string)
    (c : file_content F time) :
  respects R (fs_write name c).
Proof.
  intros w r w'. unfold fs_write.
  destruct (open_error w name); intros [= <- <-];
    [reflexivity | apply lets_write].
Qed.

Lemma respects_mkdir_parents `{!LetsCall R} `{!LetsMkdir R} (p : path) :
  respects R (mkdir_parents p : M F time unit).
Proof.
  intros w r w'. unfold mkdir_parents.
  case_match; intros [= <- <-]; [apply lets_call|].
  etrans; [apply (lets_call w [CallMkdir p])|].
  exact (lets_mkdir
           (MkWorld (stdout w) (stderr w) (fs_dirs w) (fs_files w)
              (calls w ++ [CallMkdir p]))
           (list_to_set (path_prefixes p))).
Qed.
End RespectFileSystem.

Section Relations.
Context {F time : Type}.

#[export] Instance only_adds_preorder : PreOrder (@only_adds F time).
Proof.
  split.
  - intros w. by repeat split.
  - intros w1 w2 w3 (E1 & D1 & F1 & O1 & C1) (E2 & D2 & F2 & O2 & C2).
    repeat split; by etrans.
Qed.

#[export] Instance only_adds_print : LetsPrint (@only_adds F time).
Proof. intros w ls. repeat split; simpl; try done. by apply prefix_app_r. Qed.

#[export] Instance only_adds_warn : LetsWarn (@only_adds F time).
Proof. intros w ls. repeat split; simpl; try done. by apply prefix_app_r. Qed.

#[export] Instance only_adds_call : LetsCall (@only_adds F time).
Proof. intros w cs. repeat split; simpl; try done. by apply prefix_app_r. Qed.

#[export] Instance only_adds_write : LetsWrite (@only_adds F time).
Proof.
  intros w p c. repeat split; simpl; try done. rewrite dom_insert. set_solver.
Qed.

#[export] Instance only_adds_mkdir : LetsMkdir (@only_adds F time).
Proof. intros w ds. repeat split; simpl; try done. set_solver. Qed.

#[export] Instance same_files_preorder : PreOrder (@same_files F time).
Proof. split; [done|]. intros w1 w2 w3 E1 E2. unfold same_files in *. congruence. Qed.

#[export] Instance same_files_print : LetsPrint (@same_files F time).
Proof. done. Qed.

#[export] Instance same_files_warn : LetsWarn (@same_files F time).
Proof. done. Qed.

#[export] Instance same_files_call : LetsCall (@same_files F time).
Proof. done. Qed.

#[export] Instance same_files_mkdir : LetsMkdir (@same_files F time).
Proof. done. Qed.

#[export] Instance same_dirs_preorder : PreOrder (@same_dirs F time).
Proof. split; [done|]. intros w1 w2 w3 E1 E2. unfold same_dirs in *. congruence. Qed.

#[export] Instance same_dirs_print : LetsPrint (@same_dirs F time).
Proof. done. Qed.

#[export] Instance same_dirs_warn : LetsWarn (@same_dirs F time).
Proof. done. Qed.

#[export] Instance same_dirs_call : LetsCall (@same_dirs F time).
Proof. done. Qed.

#[export] Instance same_dirs_write : LetsWrite (@same_dirs F time).
Proof. done. Qed.

#[export] Instance same_stderr_preorder : PreOrder (@same_stderr F time).
Proof. split; [done|]. intros w1 w2 w3 E1 E2. unfold same_stderr in *. congruence. Qed.

#[export] Instance same_stderr_print : LetsPrint (@same_stderr F time).
Proof. done. Qed.

#[export] Instance same_stderr_call : LetsCall (@same_stderr F time).
Proof. done. Qed.

#[export] Instance same_stderr_write : LetsWrite (@same_stderr F time).
Proof. done. Qed.

#[export] Instance same_stderr_mkdir : LetsMkdir (@same_stderr F time).
Proof. done. Qed.
End Relations.

Ltac respects_step :=
  lazymatch goal with
  | |- respects _ (mbind _ _) =>
      apply respects_bind; [exact _ .. | | intros ?; cbv beta]
  | |- respects _ (print _) => apply respects_print; exact _
  | |- respects _ (print_stderr _) => apply respects_print_stderr; exact _
  | |- respects _ (emit_stdout _) => apply respects_emit_stdout; exact _
  | |- respects _ (emit_stderr _) => apply respects_emit_stderr; exact _
  | |- respects _ (record_call _) => apply respects_record_call; exact _
  | |- respects _ (mret _) => apply respects_ret; exact _
  | |- respects _ (lift _) => apply respects_lift; exact _
  | |- respects _ (raise _) => apply respects_raise; exact _
  | |- respects _ get_world => apply respects_get_world; exact _
  | |- respects _ (fs_write _ _) => apply respects_fs_write; exact _
  | |- respects _ (mkdir_parents _) => apply respects_mkdir_parents; exact _
  | |- respects _ (try_except _ _) =>
      apply respects_try_except; [exact _ .. | | intros ? ? ?]
  | H : reraise_as_RuntimeError _ _ = Some ?h |- respects _ ?h =>
      eapply respects_reraise; [exact _ .. | exact H]
  | |- respects _ (if ?x then _ else _) => destruct x eqn:?
  | |- respects _ (match ?x with _ => _ end) => destruct x eqn:?
  end.

Section Stages.
Context {F time : Type} `{!Numpy F} `{!Libraries F time}.
Context (R : relation (world F time)) `{!PreOrder R}.
Context `{!LetsPrint R} `{!LetsWarn R} `{!LetsCall R} `{!LetsWrite R}
  `{!LetsMkdir R}.
Implicit Types (self : AudioEmbeddingExtractor F time) (w : world F time).

Lemma respects_init (whisper_name gpt2_name : string) (dev : option string) :
  respects R (init whisper_name gpt2_name dev).
Proof. unfold init. repeat respects_step. Qed.

Lemma respects_load_audio (audio_path : string) (sr : nat) :
  respects R (load_audio audio_path sr).
Proof. unfold load_audio. repeat respects_step. Qed.

Lemma respects_transcribe self (audio : ndarray F) :
  respects R (transcribe_with_timestamps self audio).
Proof. unfold transcribe_with_timestamps. repeat respects_step. Qed.

Lemma respects_extract self (text : string) :
  respects R (extract_gpt2_embeddings self text).
Proof. unfold extract_gpt2_embeddings. repeat respects_step. Qed.

Lemma respects_align self (ws : list (Word time)) (tokens : list string)
    (emb : ndarray F) :
  respects R (align_embeddings_to_words self ws tokens emb).
Proof. unfold align_embeddings_to_words. repeat respects_step. Qed.

Lemma respects_save_embeddings (df : DataFrame F time) (output_path : string)
    (embeddings : option (ndarray F)) :
  respects R (save_embeddings df output_path embeddings).
Proof. unfold save_embeddings, to_csv, np_save. repeat respects_step. Qed.

Lemma respects_visualize (df : DataFrame F time) (embeddings : ndarray F)
    (output_path metric : string) :
  respects R (visualize_embeddings df embeddings output_path metric).
Proof. unfold visualize_embeddings, plt_savefig. repeat respects_step. Qed.

Lemma respects_after_export (audio_path : string)
    (output_dir : option string) (df : DataFrame F time) (emb : ndarray F) :
  respects R (after_export audio_path output_dir df emb).
Proof.
  unfold after_export.
  repeat first [ apply respects_visualize | respects_step ].
Qed.

Lemma respects_process_audio_file self (audio_path : string)
    (output_dir : option string) :
  respects R (process_audio_file self audio_path output_dir).
Proof.
  unfold process_audio_file.
  repeat first
    [ apply respects_load_audio | apply respects_transcribe
    | apply respects_extract | apply respects_align
    | apply respects_save_embeddings | apply respects_visualize
    | respects_step ].
Qed.

Lemma respects_main_body (args : Args) : respects R (main_body args).
Proof.
  unfold main_body.
  repeat first
    [ apply respects_init | apply respects_process_audio_file
    | respects_step ].
Qed.
End Stages.

(** ** The file system *)

Section FileSystem.
Context {F time : Type} `{!Libraries F time}.
Implicit Types (w : world F time).

Lemma fs_write_writable (name : string) (c : file_content F time) w :
  writable w (path_of_str name) = true ->
  fs_write name c w =
  (Ok tt, MkWorld (stdout w) (stderr w) (fs_dirs w)
            (<[path_of_str name := c]> (fs_files w)) (calls w)).
Proof.
  unfold writable, fs_write, open_error.
  destruct (path_of_str name) as [|x p]; [done|].
  intros [Hp Hd]%andb_true_iff. apply negb_true_iff in Hd.
  by rewrite Hd, Hp.
Qed.

(** The error of a write that cannot be done, by its cause. *)
Lemma fs_write_not_writable (name : string) (c : file_content F time) w :
  name <> EmptyString ->
  writable w (path_of_str name) = false ->
  exists e,
    fs_write name c w = (Raise e, w) /\
    exn_type e =
      if fs_is_dir w (path_of_str name) then IsADirectoryError
      else if under_a_file (fs_files w) (path_of_str name)
      then NotADirectoryError
      else FileNotFoundError.
Proof.
  intros Hname. unfold writable, fs_write, open_error.
  destruct (path_of_str name) as [|x p] eqn:Hp.
  - intros _. destruct name; [done|]. by eexists.
  - destruct (fs_is_dir w (x :: p)) eqn:Hd; [by eexists|].
    rewrite andb_true_r. intros ->. fold (under_a_file (fs_files w) (x :: p)).
    destruct (under_a_file _ _); by eexists.
Qed.

Lemma writable_same_dirs w (w0 : world F time) (p : path) :
  fs_dirs w0 = fs_dirs w -> writable w0 p = writable w p.
Proof.
  intros H. unfold writable, fs_is_dir. destruct p as [|x p]; [done|].
  by rewrite H.
Qed.

Lemma path_prefixes_self (p : path) : p <> [] -> p ∈ path_prefixes p.
Proof.
  intros Hp. unfold path_prefixes. apply list_elem_of_fmap.
  exists (length p). split; [by rewrite firstn_all|].
  apply elem_of_seq. destruct p; [done|]. simpl. lia.
Qed.

Lemma mkdir_parents_free (p : path) w :
  (forall q, q ∈ path_prefixes p -> fs_files w !! q = None) ->
  mkdir_parents p w =
  (Ok tt,
   MkWorld (stdout w) (stderr w)
     (fs_dirs w ∪ list_to_set (path_prefixes p)) (fs_files w)
     (calls w ++ [CallMkdir p])).
Proof.
  intros Hfree. unfold mkdir_parents.
  assert (Hex : existsb (fun q => bool_decide (is_Some (fs_files w !! q)))
                  (path_prefixes p) = false).
  { apply not_true_is_false. intros (q & Hq%list_elem_of_In & Hsome)%existsb_exists.
    apply bool_decide_eq_true_1 in Hsome. rewrite (Hfree q Hq) in Hsome.
    by destruct Hsome. }
  by rewrite Hex.
Qed.

(** A successful [mkdir] is one that found no file in its way. *)
Lemma mkdir_parents_Ok (p : path) w (w' : world F time) :
  mkdir_parents p w = (Ok tt, w') ->
  w' = MkWorld (stdout w) (stderr w)
         (fs_dirs w ∪ list_to_set (path_prefixes p)) (fs_files w)
         (calls w ++ [CallMkdir p]).
Proof. unfold mkdir_parents. case_match; [done|]. by intros [= <-]. Qed.

Lemma bind_inv {A B : Type} (m : M F time A) (f : A -> M F time B) w
    (r : result B) (w' : world F time) :
  (m ≫= f) w = (r, w') ->
  (exists e, m w = (Raise e, w') /\ r = Raise e) \/
  (exists a w1, m w = (Ok a, w1) /\ f a w1 = (r, w')).
Proof.
  unfold mbind, M_bind. destruct (m w) as [[a|e] w1]; [by eauto|].
  intros [= <- <-]. by eauto.
Qed.

Lemma bind_run {A B : Type} (m : M F time A) (f : A -> M F time B) w
    (a : A) (w1 : world F time) :
  m w = (Ok a, w1) -> (m ≫= f) w = f a w1.
Proof. intros E. unfold mbind, M_bind. by rewrite E. Qed.
End FileSystem.

Section TableColumns.
Context {F time : Type}.
Implicit Types (row : dict (cell F time)).

Lemma add_keys_fresh (keys acc : list string) :
  NoDup keys -> (forall k, k ∈ keys -> k ∉ acc) ->
  add_keys acc keys = acc ++ keys.
Proof.
  unfold add_keys. revert acc.
  induction keys as [|k keys IH]; intros acc Hnd Hfresh; simpl.
  - by rewrite app_nil_r.
  - apply NoDup_cons in Hnd as [Hk Hnd].
    rewrite bool_decide_eq_false_2 by (apply Hfresh; by left).
    rewrite IH; [by rewrite <- app_assoc | done |].
    intros k' Hk' [Hin|Hin]%elem_of_app.
    + eapply Hfresh; [by right | done].
    + apply list_elem_of_singleton in Hin as ->. done.
Qed.

Lemma add_keys_known (keys acc : list string) :
  (forall k, k ∈ keys -> k ∈ acc) -> add_keys acc keys = acc.
Proof.
  unfold add_keys. induction keys as [|k keys IH]; intros Hin; simpl; [done|].
  rewrite bool_decide_eq_true_2 by (apply Hin; by left).
  apply IH. intros k' Hk'. apply Hin. by right.
Qed.

(** Records that all carry the keys of the first give a table whose
    columns are those keys, in the first record's order. *)
Lemma union_keys_uniform row (rest : list (dict (cell F time))) :
  NoDup (dict_keys row) ->
  Forall (fun r => dict_keys r = dict_keys row) rest ->
  union_keys (row :: rest) = dict_keys row.
Proof.
  intros Hnd Hrest. unfold union_keys. simpl.
  fold (add_keys [] (dict_keys row)).
  rewrite add_keys_fresh; [|done|intros ? _ H; inversion H]. simpl.
  induction Hrest as [|r rest Hr _ IH]; simpl; [done|].
  fold (add_keys (dict_keys row) (dict_keys r)).
  rewrite add_keys_known; [done|]. by rewrite Hr.
Qed.
End TableColumns.

(** * Further properties *)

(** ** The words and tokens of the aligned rows *)

Section AlignedColumns.
Context {time : Type}.
Implicit Types (tp : list (TokenPosition time)).

Lemma pos_word_info_pos_of (w : Word time) (i : nat) :
  pos_word_info (pos_of w i) = w.
Proof. by destruct w. Qed.

Lemma assign_words_word_infos (encode : string -> list nat)
    (ws : list (Word time)) (n : nat) tp (cur : nat) :
  map pos_word_info (fst (assign_words encode ws n tp cur)) =
  map pos_word_info tp ++ take (n - cur) (words_by_token encode ws).
Proof.
  revert tp cur. induction ws as [|w ws IH]; intros tp cur; simpl.
  - by rewrite take_nil, app_nil_r.
  - rewrite assign_word_tokens_eq, IH, map_app, map_map, <- app_assoc.
    f_equal. unfold words_by_token. simpl.
    rewrite take_app, take_replicate, length_replicate.
    f_equal.
    + rewrite (map_ext _ (fun _ => w)) by (intros; apply pos_word_info_pos_of).
      rewrite Nat.min_comm. set (k := min _ _). clearbody k.
      generalize cur. induction k as [|k IHk]; intros c; simpl; [done|].
      by rewrite IHk.
    + f_equal. lia.
Qed.

(** The entries stand for the words, each repeated once per token of
    its own tokenization, cut off at the number of tokens. *)
Lemma compute_token_positions_word_infos (encode : string -> list nat)
    (ws : list (Word time)) (tokens : list string) :
  map pos_word_info (compute_token_positions encode ws tokens) =
  take (length tokens) (words_by_token encode ws).
Proof.
  unfold compute_token_positions. rewrite assign_words_word_infos. simpl.
  by rewrite Nat.sub_0_r.
Qed.

Lemma nth_seq_take {A : Type} (l : list A) (d : A) (k : nat) :
  k <= length l -> map (fun i => nth i l d) (seq 0 k) = take k l.
Proof.
  revert k. induction l as [|x l IH]; intros [|k] Hk; simpl in *; try done.
  - lia.
  - f_equal. rewrite <- seq_shift, map_map. apply IH. lia.
Qed.

(** The entries read the first tokens, in order. *)
Lemma compute_token_positions_tokens (encode : string -> list nat)
    (ws : list (Word time)) (tokens : list string) :
  map (fun pos => nth (token_idx pos) tokens EmptyString)
    (compute_token_positions encode ws tokens) =
  take (isolated_token_count encode ws) tokens.
Proof.
  destruct (compute_token_positions_indices encode ws tokens) as [Hidx Hlen].
  rewrite <- (map_map token_idx (fun i => nth i tokens EmptyString)), Hidx.
  rewrite nth_seq_take by lia. rewrite Hlen.
  destruct (Nat.min_spec (length tokens) (isolated_token_count encode ws))
    as [[? ->]|[? ->]]; [|done].
  by rewrite !take_ge by lia.
Qed.
End AlignedColumns.

Lemma str_startswith_nl (c : ascii) (s : string) :
  str_startswith nl (String c s) = Ascii.eqb lf c.
Proof. unfold nl, lf. cbn [str_startswith]. by rewrite andb_true_r. Qed.

Lemma str_replace_lf_free (s : string) :
  str_has_char lf (str_replace nl "\n" s) = false.
Proof.
  unfold str_replace. induction s as [|c s IH]; [done|].
  cbn [str_replace_from]. rewrite str_startswith_nl.
  change (String.length nl - 1) with 0.
  destruct (Ascii.eqb lf c) eqn:E.
  - autorewrite with str. cbn [str_has_char]. rewrite IH. reflexivity.
  - cbn [str_has_char]. by rewrite E, IH.
Qed.

Lemma NoDup_layer_cols (layers : list nat) :
  NoDup layers -> NoDup (flat_map layer_cols_of layers).
Proof.
  induction 1 as [|l layers Hnl Hnd IH]; cbn [flat_map]; [constructor|].
  apply NoDup_app. split; [|split; [|done]].
  - unfold layer_cols_of. repeat (apply NoDup_cons; split);
      [..|apply NoDup_nil_2];
      rewrite ?not_elem_of_cons; repeat split;
      try (by intros [_ ?]%layer_col_inj); apply not_elem_of_nil.
  - intros k Hk (l' & Hl' & Hk')%list_elem_of_In%in_flat_map.
    apply list_elem_of_In in Hl'.
    unfold layer_cols_of in Hk, Hk'.
    apply list_elem_of_In in Hk'.
    repeat (apply elem_of_cons in Hk as [->|Hk]);
      [..|by apply elem_of_nil in Hk];
      repeat (apply elem_of_cons in Hk' as [Hk'|Hk']);
      try (by apply elem_of_nil in Hk');
      apply layer_col_inj in Hk' as [-> _]; done.
Qed.

Lemma NoDup_row_keys (n_layers : nat) :
  NoDup (["timestamp"; "word"; "token"]
         ++ flat_map layer_cols_of (seq 0 n_layers)).
Proof.
  apply NoDup_app. split; [|split].
  - repeat (apply NoDup_cons; split); [..|apply NoDup_nil_2];
      rewrite ?not_elem_of_cons; repeat split; try done; apply not_elem_of_nil.
  - intros k Hk (l & _ & Hl)%list_elem_of_In%in_flat_map.
    apply list_elem_of_In in Hl. unfold layer_cols_of in Hl.
    pose proof (leading_keys_not_layer k Hk) as Hnot.
    repeat (apply elem_of_cons in Hl as [->|Hl]);
      [..|by apply elem_of_nil in Hl]; by eapply Hnot.
  - apply NoDup_layer_cols, NoDup_seq.
Qed.

Section AlignedTable.
Context {F time : Type} `{!Numpy F} `{!Libraries F time}.
Implicit Types (self : AudioEmbeddingExtractor F time) (emb : ndarray F)
  (w : world F time).

Lemma row_head_inv (row : dict (cell F time)) (t : time) (wd tok : string) :
  row_head row = Some (t, wd, tok) ->
  dict_get "timestamp" row = Some (CellTime t) /\
  dict_get "word" row = Some (CellStr wd) /\
  dict_get "token" row = Some (CellStr tok).
Proof.
  unfold row_head. repeat case_match; try done. by intros [= -> -> ->].
Qed.

(** The three leading columns of the rows built for a list of entries. *)
Lemma rows_columns (tokens : list string) emb
    (tp : list (TokenPosition time)) (rows : list (dict (cell F time))) :
  build_rows tokens emb tp = Ok rows ->
  map (dict_get "timestamp") rows
    = map (fun pos => Some (CellTime (pos_start pos))) tp /\
  map (dict_get "word") rows
    = map (fun pos => Some (CellStr (pos_word pos))) tp /\
  map (dict_get "token") rows
    = map (fun pos => Some (CellStr (str_replace nl "\n"
                         (nth (token_idx pos) tokens EmptyString)))) tp.
Proof.
  intros H%mapM_result_Ok.
  induction H as [|pos row tp rows Hrow _ (IH1 & IH2 & IH3)]; simpl; [done|].
  apply build_row_head, row_head_inv in Hrow as (-> & -> & ->).
  by rewrite IH1, IH2, IH3.
Qed.

Lemma align_Ok_rows self (ws : list (Word time)) (tokens : list string) emb w
    (df : DataFrame F time) (e : ndarray F) (t : list string)
    (w' : world F time) :
  align_embeddings_to_words self ws tokens emb w = (Ok (df, e, t), w') ->
  build_rows tokens emb
    (compute_token_positions (tok_encode (tokenizer self)) ws tokens)
  = Ok (records df).
Proof.
  rewrite align_run. simpl.
  destruct (build_rows _ _ _) as [rows|err]; [|done]. by intros [= <- _ _ _].
Qed.

(** The word and timestamp columns, entry by entry. *)
Lemma aligned_rows_by_word self (ws : list (Word time))
    (tokens : list string) emb w (df : DataFrame F time) (e : ndarray F)
    (t : list string) (w' : world F time) :
  align_embeddings_to_words self ws tokens emb w = (Ok (df, e, t), w') ->
  let per_token :=
    take (length tokens) (words_by_token (tok_encode (tokenizer self)) ws) in
  map (dict_get "word") (records df)
    = map (fun wd => Some (CellStr (word wd))) per_token /\
  map (dict_get "timestamp") (records df)
    = map (fun wd => Some (CellTime (start wd))) per_token.
Proof.
  intros Hrows%align_Ok_rows per_token.
  destruct (rows_columns _ _ _ _ Hrows) as (Ht & Hw & _).
  unfold per_token. rewrite <- compute_token_positions_word_infos.
  by rewrite Ht, Hw, !map_map.
Qed.

(** X1: the word and timestamp columns of the returned table are the
    words in order, each repeated once per token of its own
    tokenization, cut off at the number of tokens: a word that
    tokenizes to nothing gets no row, and the words past the end of
    the tokens are dropped. *)
Theorem aligned_word_and_time_columns self (ws : list (Word time))
    (tokens : list string) emb w (df : DataFrame F time) (e : ndarray F)
    (t : list string) (w' : world F time) :
  align_embeddings_to_words self ws tokens emb w = (Ok (df, e, t), w') ->
  let per_token :=
    take (length tokens) (words_by_token (tok_encode (tokenizer self)) ws) in
  length (records df) = length per_token /\
  map (dict_get "word") (records df)
    = map (fun wd => Some (CellStr (word wd))) per_token /\
  map (dict_get "timestamp") (records df)
    = map (fun wd => Some (CellTime (start wd))) per_token.
Proof.
  intros Hrun per_token.
  destruct (aligned_rows_by_word self ws tokens emb w df e t w' Hrun)
    as [Hw Ht].
  split; [|by split].
  apply (f_equal length) in Hw. by rewrite !length_map in Hw.
Qed.

(** X2: the token column of the returned table is a prefix of the
    token list, escaped: as many of the first tokens as the words have
    tokens on their own, whatever the words are. *)
Theorem aligned_token_column self (ws : list (Word time))
    (tokens : list string) emb w (df : DataFrame F time) (e : ndarray F)
    (t : list string) (w' : world F time) :
  align_embeddings_to_words self ws tokens emb w = (Ok (df, e, t), w') ->
  map (dict_get "token") (records df) =
  map (fun tok => Some (CellStr (str_replace nl "\n" tok)))
    (take (isolated_token_count (tok_encode (tokenizer self)) ws) tokens).
Proof.
  intros Hrows%align_Ok_rows.
  destruct (rows_columns _ _ _ _ Hrows) as (_ & _ & Htok).
  rewrite Htok, <- compute_token_positions_tokens. by rewrite map_map.
Qed.

(** X3: no token cell of the returned table holds a line feed. *)
Theorem aligned_tokens_have_no_line_feed self (ws : list (Word time))
    (tokens : list string) emb w (df : DataFrame F time) (e : ndarray F)
    (t : list string) (w' : world F time) (row : dict (cell F time))
    (s : string) :
  align_embeddings_to_words self ws tokens emb w = (Ok (df, e, t), w') ->
  row ∈ records df ->
  dict_get "token" row = Some (CellStr s) ->
  str_has_char lf s = false.
Proof.
  intros Hrows%align_Ok_rows [i Hi]%list_elem_of_lookup Hs.
  destruct (rows_columns _ _ _ _ Hrows) as (_ & _ & Htok).
  assert (H : map (dict_get "token") (records df) !! i = Some (Some (CellStr s)))
    by (by rewrite list_lookup_fmap, Hi; simpl; rewrite Hs).
  rewrite Htok, list_lookup_fmap in H.
  destruct (compute_token_positions _ ws tokens !! i) as [pos|]; [|done].
  injection H as <-. apply str_replace_lf_free.
Qed.
End AlignedTable.

(** ** Order of the timestamps *)

Section TimestampOrder.
Context {time : Type} (le : relation time) `{!PreOrder le}.

Lemma StronglySorted_replicate_app (x : time) (c : nat) (l : list time) :
  StronglySorted le l -> Forall (le x) l ->
  StronglySorted le (replicate c x ++ l).
Proof.
  intros Hl Hx. induction c as [|c IH]; simpl; [done|].
  constructor; [done|]. apply Forall_app. split; [|done].
  apply Forall_replicate. reflexivity.
Qed.

Lemma words_by_token_starts_sorted (encode : string -> list nat)
    (ws : list (Word time)) :
  StronglySorted le (map start ws) ->
  StronglySorted le (map start (words_by_token encode ws)).
Proof.
  unfold words_by_token.
  induction ws as [|w ws IH]; simpl; [done|].
  intros [Hws Hw]%StronglySorted_inv.
  rewrite map_app.
  replace (map start (replicate (length (encode (word w))) w))
    with (replicate (length (encode (word w))) (start w))
    by (induction (length (encode (word w))); simpl; congruence).
  apply StronglySorted_replicate_app; [by apply IH|].
  apply Forall_forall. intros t (w' & -> & Hin)%list_elem_of_fmap.
  apply list_elem_of_In, in_flat_map in Hin as (w2 & Hw2 & Hin).
  apply list_elem_of_In, elem_of_replicate in Hin as [-> _].
  rewrite Forall_forall in Hw. apply Hw.
  apply list_elem_of_fmap. exists w2. split; [done|].
  by apply list_elem_of_In.
Qed.
End TimestampOrder.

Section AlignedOrder.
Context {F time : Type} `{!Numpy F} `{!Libraries F time}.
Context (le : relation time) `{!PreOrder le}.
Implicit Types (self : AudioEmbeddingExtractor F time) (emb : ndarray F)
  (w : world F time).

(** X4: when the words come ordered by start time, the timestamps of
    the returned table are ordered too, from the first row to the
    last. *)
Theorem aligned_timestamps_sorted self (ws : list (Word time))
    (tokens : list string) emb w (df : DataFrame F time) (e : ndarray F)
    (t : list string) (w' : world F time) :
  Sorted le (map start ws) ->
  align_embeddings_to_words self ws tokens emb w = (Ok (df, e, t), w') ->
  exists stamps,
    map (dict_get "timestamp") (records df)
      = map (fun s => Some (CellTime s)) stamps /\
    StronglySorted le stamps.
Proof.
  intros Hsorted Hrun.
  exists (map start
            (take (length tokens)
               (words_by_token (tok_encode (tokenizer self)) ws))).
  split.
  - destruct (aligned_rows_by_word self ws tokens emb w df e t w' Hrun)
      as [_ ->].
    by rewrite map_map.
  - apply Sorted_StronglySorted in Hsorted; [|apply _].
    apply (words_by_token_starts_sorted le (tok_encode (tokenizer self)))
      in Hsorted.
    rewrite <- (take_drop (length tokens) (words_by_token _ ws)) in Hsorted.
    rewrite map_app in Hsorted.
    by apply StronglySorted_app_1_l in Hsorted.
Qed.
End AlignedOrder.

(** ** The header of the aligned table, and the stages before it *)

Section AlignedHeader.
Context {F time : Type} `{!Numpy F} `{!Libraries F time}.
Implicit Types (self : AudioEmbeddingExtractor F time) (emb : ndarray F)
  (w : world F time).

#[local] Arguments torch_stack : simpl never.

(** The columns of a table of closed-form rows. *)
Lemma closed_rows_columns (encode : string -> list nat)
    (ws : list (Word time)) (tokens : list string) emb (n0 n1 n2 : nat) :
  shape emb = [n0; n1; n2] ->
  length tokens <= n0 ->
  let rows := map (row_of tokens emb n1)
                (compute_token_positions encode ws tokens) in
  union_keys rows =
  match rows with
  | [] => []
  | _ => ["timestamp"; "word"; "token"] ++ flat_map layer_cols_of (seq 0 n1)
  end.
Proof.
  intros Hsh Hlen rows.
  assert (Hkeys : Forall (fun r => dict_keys r =
      ["timestamp"; "word"; "token"] ++ flat_map layer_cols_of (seq 0 n1)) rows).
  { unfold rows. apply Forall_fmap, Forall_lookup. intros i pos Hpos.
    apply compute_token_positions_lookup in Hpos as [Hi Hlt]. simpl.
    apply (row_of_statistics tokens emb pos n0 n1 n2 Hsh). lia. }
  destruct rows as [|r rest]; [done|].
  apply Forall_cons in Hkeys as [Hr Hrest].
  rewrite union_keys_uniform; [done | rewrite Hr; apply NoDup_row_keys |].
  eapply Forall_impl; [exact Hrest|]. intros r' Hr'. cbv beta in Hr'.
  by rewrite Hr.
Qed.

(** X5: on a three-axis tensor whose first axis covers the tokens, the
    returned table has as many rows as the smaller of the token count
    and the words' isolated token count; with at least one row its
    columns are timestamp, word, token and then mean, std and norm of
    layer 0, of layer 1, and so on, in that order; with no row it has
    no column at all. *)
Theorem aligned_table_header self (ws : list (Word time))
    (tokens : list string) emb w (n0 n1 n2 : nat) :
  shape emb = [n0; n1; n2] ->
  length tokens <= n0 ->
  exists df w',
    align_embeddings_to_words self ws tokens emb w = (Ok (df, emb, tokens), w')
    /\ length (records df) =
       min (length tokens)
         (isolated_token_count (tok_encode (tokenizer self)) ws)
    /\ columns df =
       match records df with
       | [] => []
       | _ => ["timestamp"; "word"; "token"]
              ++ flat_map layer_cols_of (seq 0 n1)
       end.
Proof.
  intros Hsh Hlen.
  destruct (align_returns self ws tokens emb w _ _ _ _ Hsh Hlen) as [w' E].
  eexists _, w'. split; [exact E|]. simpl. split.
  - rewrite length_map.
    apply (compute_token_positions_indices (tok_encode (tokenizer self))).
  - by apply (closed_rows_columns _ _ _ _ n0 n1 n2).
Qed.

(** The extractor's run under the model's contract for hidden states. *)
Lemma extract_returns self (text : string) w
    (hidden_states : list (ndarray F)) (hidden_size : nat) :
  let input_ids := tok_input_ids (tokenizer self) text in
  let n_layer := config_n_layer (gpt2_model self) in
  gpt2_hidden_states (gpt2_model self) input_ids = Ok hidden_states ->
  length hidden_states = S n_layer ->
  0 < n_layer ->
  Forall (fun h => shape h = [1; length input_ids; hidden_size]) hidden_states ->
  exists embeddings w',
    extract_gpt2_embeddings self text w =
      (Ok (embeddings,
           map (fun token_id => tok_decode (tokenizer self) [token_id])
             input_ids), w') /\
    shape embeddings = [length input_ids; n_layer; hidden_size].
Proof.
  intros input_ids n_layer Hfwd Hlen Hpos Hshapes.
  destruct hidden_states as [|h0 [|h1 hs]]; simpl in Hlen; [lia..|].
  apply Forall_cons in Hshapes as [_ Hshapes].
  unfold extract_gpt2_embeddings. fold input_ids. run_M.
  rewrite Hfwd. simpl. unfold drop.
  rewrite (torch_stack_uniform h1 hs _ Hshapes). simpl.
  eexists _, _. split; [reflexivity|]. simpl. f_equal. f_equal. lia.
Qed.

(** X6: the aligner cannot fail on what the extractor returns: under
    the model's contract for hidden states, the extractor returns a
    tensor and a token list on which the aligner returns a table, for
    every word sequence. *)
Theorem aligner_accepts_extractor_output self (text : string) w
    (hidden_states : list (ndarray F)) (hidden_size : nat) :
  let input_ids := tok_input_ids (tokenizer self) text in
  let n_layer := config_n_layer (gpt2_model self) in
  gpt2_hidden_states (gpt2_model self) input_ids = Ok hidden_states ->
  length hidden_states = S n_layer ->
  0 < n_layer ->
  Forall (fun h => shape h = [1; length input_ids; hidden_size]) hidden_states ->
  exists embeddings tokens w1,
    extract_gpt2_embeddings self text w = (Ok (embeddings, tokens), w1) /\
    forall ws : list (Word time),
    exists df w2,
      align_embeddings_to_words self ws tokens embeddings w1
        = (Ok (df, embeddings, tokens), w2) /\
      length (records df) =
        min (length input_ids)
          (isolated_token_count (tok_encode (tokenizer self)) ws).
Proof.
  intros input_ids n_layer Hfwd Hlen Hpos Hshapes.
  destruct (extract_returns self text w hidden_states hidden_size
              Hfwd Hlen Hpos Hshapes) as (emb & w1 & E & Hsh).
  eexists emb, _, w1. split; [exact E|]. intros ws.
  fold input_ids n_layer in Hsh.
  assert (Hcov : length (map (fun token_id =>
                   tok_decode (tokenizer self) [token_id]) input_ids)
                 <= length input_ids) by (by rewrite length_map).
  destruct (align_returns self ws _ emb w1 _ _ _ _ Hsh Hcov) as [w2 E2].
  eexists _, w2. split; [exact E2|]. simpl. rewrite length_map.
  destruct (compute_token_positions_indices (tok_encode (tokenizer self)) ws
              (map (fun token_id => tok_decode (tokenizer self) [token_id])
                 input_ids)) as [_ ->].
  by rewrite length_map.
Qed.
End AlignedHeader.

(** ** The word markers of the figure *)

Section WordMarkers.
Context {F time : Type} `{!Libraries F time}.
Implicit Types (rows : list (dict (cell F time))).

Lemma row_word_cell (r : dict (cell F time)) (s : string) :
  row_word r = Some s -> dict_get "word" r = Some (CellStr s).
Proof. unfold row_word. repeat case_match; congruence. Qed.

(** Dropping duplicates keeps the first record of every word: [seen]
    stands for the words of the records [before]. *)
Lemma drop_duplicates_first_of_each_word (seen : list (option (cell F time)))
    (before rows : list (dict (cell F time))) :
  words_compared_as_strings ->
  Forall (fun r => is_Some (row_word r)) rows ->
  (forall s, existsb (pd_same_value (Some (CellStr s))) seen =
             existsb (fun r' => bool_decide (row_word r' = Some s)) before) ->
  drop_duplicates_from "word" seen rows = first_of_each_word before rows.
Proof.
  intros Hcmp Hall. revert seen before.
  induction Hall as [|r rows [s Hs] _ IH]; intros seen before Hseen; [done|].
  cbn [drop_duplicates_from first_of_each_word].
  rewrite (row_word_cell r s Hs), Hs, Hseen.
  assert (Hneg : forallb (fun r' => negb (bool_decide (row_word r' = Some s)))
                   before
                 = negb (existsb (fun r' => bool_decide (row_word r' = Some s))
                           before)).
  { clear. induction before as [|r' before IH]; simpl; [done|].
    rewrite IH. by destruct (bool_decide _). }
  rewrite Hneg.
  destruct (existsb (fun r' => bool_decide (row_word r' = Some s)) before)
    eqn:Hdup; simpl.
  - apply IH. intros s'. rewrite Hseen, existsb_app. simpl.
    rewrite orb_false_r, Hs.
    case_bool_decide as E; [|by rewrite orb_false_r].
    injection E as ->. by rewrite Hdup.
  - f_equal. apply IH. intros s'. simpl.
    rewrite Hseen, existsb_app. simpl. rewrite orb_false_r, Hs, Hcmp.
    rewrite orb_comm. f_equal.
    apply bool_decide_ext. split; congruence.
Qed.

(** The markers of the figure of a table whose rows all carry a word. *)
Lemma figure_markers (df : DataFrame F time) (n_layers : nat)
    (metric : string) :
  words_compared_as_strings ->
  Forall (fun r => is_Some (row_word r)) (records df) ->
  word_markers (figure_of df n_layers metric) =
  if length (records df) <? 50
  then map (dict_get "timestamp") (first_of_each_word [] (records df))
  else [].
Proof.
  intros Hcmp Hall. unfold figure_of. simpl.
  destruct (length (records df) <? 50); [|done].
  by rewrite (drop_duplicates_first_of_each_word [] [] _ Hcmp Hall).
Qed.
End WordMarkers.

(** ** The plotting path of the visualizer *)

Section Plotting.
Context {F time : Type} `{!Numpy F} `{!Libraries F time}.
Implicit Types (df : DataFrame F time) (w : world F time).

#[local] Arguments fs_write : simpl never.
#[local] Arguments savefig_target : simpl never.

Lemma df_column_present df (col : string) :
  col ∈ columns df -> df_column df col = Ok (map (dict_get col) (records df)).
Proof. intros H. unfold df_column. by rewrite bool_decide_eq_true_2. Qed.

(** The file named by a successful [savefig]. *)
Lemma savefig_target_Ok (name target : string) :
  savefig_target name = Ok target ->
  target =
  match str_drop 1 (os_path_ext name) with
  | EmptyString => str_rstrip_of ["."] name +:+ ".png"
  | _ => name
  end.
Proof.
  unfold savefig_target.
  destruct (str_drop 1 (os_path_ext name)); case_bool_decide; congruence.
Qed.

(** The run of the visualizer on its plotting path. *)
Lemma visualize_plots df (embeddings : ndarray F)
    (output_path metric target : string) w (n_layers : nat) :
  let fig := figure_of df n_layers metric in
  shape embeddings !! 1 = Some n_layers ->
  (forall i, i < n_layers -> layer_col i metric ∈ columns df) ->
  "timestamp" ∈ columns df ->
  (length (records df) < 50 -> "word" ∈ columns df) ->
  sns_heatmap (heatmap_data fig) = Ok tt ->
  plt_render fig = Ok tt ->
  savefig_target output_path = Ok target ->
  writable w (path_of_str target) = true ->
  visualize_embeddings df embeddings output_path metric w =
  (Ok tt,
   MkWorld
     ((stdout w ++ [nl +:+ "Generating visualization..."]) ++
      ["Saved visualization to: " +:+ output_path])
     (stderr w) (fs_dirs w)
     (<[path_of_str target := ImageFile fig]> (fs_files w))
     (calls w ++ [CallSavefig output_path])).
Proof.
  intros fig Hsh Hcols Htime Hword Hheat Hrender Htarget Hw.
  unfold visualize_embeddings, shape_at. rewrite Hsh. run_M.
  assert (Hall : forallb (fun col => bool_decide (col ∈ columns df))
                   (map (fun i => layer_col i metric) (seq 0 n_layers)) = true).
  { apply forallb_forall. intros col (i & <- & Hi%in_seq)%in_map_iff.
    apply bool_decide_eq_true_2, Hcols. lia. }
  rewrite Hall. simpl.
  rewrite (mapM_result_map _ (fun col => map (dict_get col) (records df))).
  2:{ apply Forall_forall. intros col (i & -> & Hi%elem_of_seq)%list_elem_of_fmap.
      apply df_column_present, Hcols. lia. }
  simpl. rewrite map_map. fold (heatmap_data fig) in Hheat.
  change (map (fun i => map (dict_get (layer_col i metric)) (records df))
            (seq 0 n_layers)) with (heatmap_data fig).
  rewrite Hheat. simpl. rewrite (df_column_present df "timestamp" Htime).
  simpl.
  rewrite (mapM_result_map _
             (fun i => ("Layer " +:+ str_of_nat i,
                        map (dict_get "timestamp") (records df),
                        map (dict_get (layer_col i metric)) (records df)))).
  2:{ apply Forall_forall. intros i Hi%elem_of_seq.
      rewrite df_column_present by (apply Hcols; lia). done. }
  simpl.
  destruct (length (records df) <? 50) eqn:Hlen; simpl.
  - unfold drop_duplicates.
    rewrite bool_decide_eq_true_2 by (apply Hword; by apply Nat.ltb_lt).
    simpl. unfold plt_savefig. run_M. rewrite Htarget. simpl.
    match goal with |- context [plt_render ?f] =>
      assert (Hfig : f = fig) by (unfold fig, figure_of; by rewrite Hlen);
      rewrite Hfig end.
    rewrite Hrender. simpl.
    rewrite fs_write_writable by (by rewrite (writable_same_dirs w)).
    reflexivity.
  - unfold plt_savefig. run_M. rewrite Htarget. simpl.
    match goal with |- context [plt_render ?f] =>
      assert (Hfig : f = fig) by (unfold fig, figure_of; by rewrite Hlen);
      rewrite Hfig end.
    rewrite Hrender. simpl.
    rewrite fs_write_writable by (by rewrite (writable_same_dirs w)).
    reflexivity.
Qed.

(** X7: for one of the three statistics, when every column
    [layer_i_<metric>] of the tensor's layers and the timestamp column
    are in the table (and the word column, for a table of fewer than
    50 rows), drawing succeeds, the plotting backend accepts the
    output name and the file it names can be written, the visualizer
    returns normally and writes exactly one file, the figure: a
    heatmap with one line per layer and one entry per table row, and
    one series per layer.  The file is at the output name when that
    has an extension, and at the name with its trailing dots dropped
    and [.png] put after it when it has none.  Directories and the
    error stream are left as they were. *)
Theorem visualizer_writes_figure df (embeddings : ndarray F)
    (output_path metric target : string) w (n_layers : nat) :
  metric ∈ ["mean"; "std"; "norm"] ->
  shape embeddings !! 1 = Some n_layers ->
  (forall i, i < n_layers -> layer_col i metric ∈ columns df) ->
  "timestamp" ∈ columns df ->
  (length (records df) < 50 -> "word" ∈ columns df) ->
  sns_heatmap (heatmap_data (figure_of df n_layers metric)) = Ok tt ->
  plt_render (figure_of df n_layers metric) = Ok tt ->
  savefig_target output_path = Ok target ->
  writable w (path_of_str target) = true ->
  exists fig,
    visualize_embeddings df embeddings output_path metric w =
    (Ok tt,
     MkWorld
       ((stdout w ++ [nl +:+ "Generating visualization..."]) ++
        ["Saved visualization to: " +:+ output_path])
       (stderr w) (fs_dirs w)
       (<[path_of_str target := ImageFile fig]> (fs_files w))
       (calls w ++ [CallSavefig output_path])) /\
    target =
      match str_drop 1 (os_path_ext output_path) with
      | EmptyString => str_rstrip_of ["."] output_path +:+ ".png"
      | _ => output_path
      end /\
    length (heatmap_data fig) = n_layers /\
    Forall (fun line => length line = length (records df)) (heatmap_data fig) /\
    length (series fig) = n_layers.
Proof.
  intros _ Hsh Hcols Htime Hword Hheat Hrender Htarget Hw.
  exists (figure_of df n_layers metric).
  split; [by apply visualize_plots|].
  split; [by apply savefig_target_Ok|].
  unfold figure_of. simpl. split; [by rewrite length_map, length_seq|].
  split; [|by rewrite length_map, length_seq].
  apply Forall_fmap, Forall_forall. intros i _. simpl. by rewrite length_map.
Qed.

(** X16: on the plotting path, for a table whose rows all carry a
    word and a library that compares words as strings, the figure
    written has, for fewer than 50 rows, one marker per distinct word,
    at the timestamp of the first row of that word (the rows that no
    earlier row shares its word with, in order), and no marker at all
    from 50 rows on. *)
Theorem visualizer_word_markers df (embeddings : ndarray F)
    (output_path metric target : string) w (n_layers : nat) :
  metric ∈ ["mean"; "std"; "norm"] ->
  shape embeddings !! 1 = Some n_layers ->
  (forall i, i < n_layers -> layer_col i metric ∈ columns df) ->
  "timestamp" ∈ columns df ->
  "word" ∈ columns df ->
  Forall (fun r => is_Some (row_word r)) (records df) ->
  words_compared_as_strings (F := F) (time := time) ->
  sns_heatmap (heatmap_data (figure_of df n_layers metric)) = Ok tt ->
  plt_render (figure_of df n_layers metric) = Ok tt ->
  savefig_target output_path = Ok target ->
  writable w (path_of_str target) = true ->
  exists fig w',
    visualize_embeddings df embeddings output_path metric w = (Ok tt, w') /\
    fs_files w' !! path_of_str target = Some (ImageFile fig) /\
    word_markers fig =
      if length (records df) <? 50
      then map (dict_get "timestamp") (first_of_each_word [] (records df))
      else [].
Proof.
  intros _ Hsh Hcols Htime Hword Hall Hcmp Hheat Hrender Htarget Hw.
  eexists (figure_of df n_layers metric), _.
  split; [by eapply visualize_plots|].
  split; [by simpl; rewrite lookup_insert_eq|].
  by apply figure_markers.
Qed.
End Plotting.

(** ** The companion array file of the exporter *)

Lemma str_replace_from_skip_all (old new s : string) (k : nat) :
  String.length s <= k -> str_replace_from old new s k = EmptyString.
Proof.
  revert k. induction s as [|c s IH]; intros k Hk; [done|].
  simpl in Hk. destruct k as [|k]; [lia|]. simpl. apply IH. lia.
Qed.

Lemma str_startswith_app (p s : string) : str_startswith p (p +:+ s) = true.
Proof.
  induction p as [|c p IH]; [done|]. autorewrite with str. simpl.
  by rewrite Ascii.eqb_refl, IH.
Qed.

Lemma str_app_assoc (a b c : string) : (a +:+ b) +:+ c = a +:+ b +:+ c.
Proof.
  induction a as [|x a IH]; [done|]. autorewrite with str. by rewrite IH.
Qed.

Lemma str_rev_app (a b : string) : str_rev (a +:+ b) = str_rev b +:+ str_rev a.
Proof.
  induction a as [|x a IH]; simpl.
  - autorewrite with str. by rewrite str_app_nil_r.
  - autorewrite with str. simpl. by rewrite IH, str_app_assoc.
Qed.

Lemma str_endswith_app (a suffix : string) :
  str_endswith suffix (a +:+ suffix) = true.
Proof. unfold str_endswith. rewrite str_rev_app. apply str_startswith_app. Qed.

(** An occurrence of [.csv] cannot straddle the end of a string that
    is followed by [.csv]. *)
Lemma csv_no_straddle (c : ascii) (base : string) :
  str_startswith ".csv" (String c base) = false ->
  str_startswith ".csv" (String c base +:+ ".csv") = false.
Proof.
  autorewrite with str. cbn [str_startswith].
  destruct (Ascii.eqb "." c); cbn [andb]; [|done].
  destruct base as [|c2 base]; autorewrite with str; [done|].
  destruct (Ascii.eqb "c" c2); cbn [andb]; [|done].
  destruct base as [|c3 base]; autorewrite with str; [done|].
  destruct (Ascii.eqb "s" c3); cbn [andb]; [|done].
  destruct base as [|c4 base]; autorewrite with str; [done|].
  by destruct (Ascii.eqb "v" c4).
Qed.

Lemma str_replace_csv_suffix (base : string) :
  str_occurs ".csv" base = false ->
  str_replace ".csv" "_full.npy" (base +:+ ".csv") = base +:+ "_full.npy".
Proof.
  unfold str_replace. induction base as [|c base IH]; intros Hocc.
  - reflexivity.
  - cbn [str_occurs] in Hocc. apply orb_false_iff in Hocc as [Hhere Hrest].
    pose proof (csv_no_straddle c base Hhere) as Hno.
    autorewrite with str in Hno |- *. cbn [str_replace_from].
    rewrite Hno. f_equal. by apply IH.
Qed.

Lemma str_replace_absent (old new s : string) :
  str_occurs old s = false -> str_replace old new s = s.
Proof.
  unfold str_replace. induction s as [|c s IH]; intros Hocc; [done|].
  cbn [str_occurs] in Hocc. apply orb_false_iff in Hocc as [Hhere Hrest].
  cbn [str_replace_from]. rewrite Hhere. f_equal. by apply IH.
Qed.

(** The name of the companion array file, by the shape of the table
    path. *)
Lemma npy_file_names (base : string) :
  str_occurs ".csv" base = false ->
  npy_file (base +:+ ".csv") = base +:+ "_full.npy" /\
  npy_file base = (if str_endswith ".npy" base then base else base +:+ ".npy").
Proof.
  intros Hocc. unfold npy_file. split.
  - rewrite (str_replace_csv_suffix base Hocc).
    replace "_full.npy" with ("_full" +:+ ".npy") by reflexivity.
    by rewrite <- str_app_assoc, str_endswith_app.
  - by rewrite (str_replace_absent _ _ _ Hocc).
Qed.

Section ExporterRuns.
Context {F time : Type} `{!Numpy F} `{!Libraries F time}.
Implicit Types (df : DataFrame F time) (w : world F time).

#[local] Arguments fs_write : simpl never.

(** [to_csv] at a writable path writes the table there. *)
Lemma to_csv_writable df (output_path : string) w :
  writable w (path_of_str output_path) = true ->
  to_csv df output_path w =
  (Ok tt, MkWorld (stdout w) (stderr w) (fs_dirs w)
            (<[path_of_str output_path := csv_of df]> (fs_files w))
            (calls w ++ [CallToCsv output_path])).
Proof.
  intros Hw. unfold to_csv. run_M.
  assert (Hparent : fs_is_dir
            (MkWorld (stdout w) (stderr w) (fs_dirs w) (fs_files w)
               (calls w ++ [CallToCsv output_path]))
            (removelast (path_of_str output_path)) = true).
  { unfold writable in Hw.
    destruct (path_of_str output_path) as [|x p]; [done|].
    by apply andb_true_iff in Hw as [Hw _]. }
  rewrite Hparent. simpl.
  rewrite fs_write_writable by (by rewrite (writable_same_dirs w)).
  done.
Qed.

(** The name of the array file is never empty. *)
Lemma npy_file_nonempty (output_path : string) :
  npy_file output_path <> EmptyString.
Proof.
  unfold npy_file.
  destruct (str_endswith ".npy" _) eqn:E.
  - intros H. rewrite H in E. done.
  - by destruct (str_replace ".csv" "_full.npy" output_path).
Qed.

(** The exporter with a tensor, at a writable table path: the table is
    written first, then the array is attempted. *)
Lemma save_embeddings_with_array df (output_path : string) (emb : ndarray F) w :
  writable w (path_of_str output_path) = true ->
  save_embeddings df output_path (Some emb) w =
  let w3 := world_after_csv w df output_path in
  let w4 := MkWorld (stdout w3) (stderr w3) (fs_dirs w3) (fs_files w3)
              (calls w3 ++
                 [CallNpSave (str_replace ".csv" "_full.npy" output_path)]) in
  match fs_write (npy_file output_path) (NpyFile emb) w4 with
  | (Ok _, w5) =>
      (Ok tt,
       MkWorld
         (stdout w5 ++
            ["Saved full embeddings to: " +:+
             str_replace ".csv" "_full.npy" output_path])
         (stderr w5) (fs_dirs w5) (fs_files w5) (calls w5))
  | (Raise e, w5) => (Raise e, w5)
  end.
Proof.
  intros Hw. unfold save_embeddings, np_save. run_M.
  rewrite to_csv_writable by (by rewrite (writable_same_dirs w)).
  simpl. fold (npy_file output_path).
  unfold world_after_csv.
  by destruct (fs_write _ _ _) as [[[]|e] w5].
Qed.

(** X8: where the exporter puts the tensor, for a name [base] that
    holds [.csv] nowhere and writable paths.  Asked for the table at
    [base.csv], it writes the table there and the array at
    [base_full.npy].  Asked for the table at [base], a name without
    [.csv]: when [base] ends in [.npy] the array is written over the
    table just written; otherwise the array goes to [base.npy], while
    the line printed last names [base]. *)
Theorem exporter_array_file_name df (base : string) (emb : ndarray F) w :
  str_occurs ".csv" base = false ->
  (writable w (path_of_str (base +:+ ".csv")) = true ->
   writable w (path_of_str (base +:+ "_full.npy")) = true ->
   let r := save_embeddings df (base +:+ ".csv") (Some emb) w in
   fst r = Ok tt /\
   fs_files (snd r) =
   <[path_of_str (base +:+ "_full.npy") := NpyFile emb]>
     (<[path_of_str (base +:+ ".csv") := csv_of df]> (fs_files w))) /\
  (str_endswith ".npy" base = true ->
   writable w (path_of_str base) = true ->
   let r := save_embeddings df base (Some emb) w in
   fst r = Ok tt /\
   fs_files (snd r) = <[path_of_str base := NpyFile emb]> (fs_files w)) /\
  (str_endswith ".npy" base = false ->
   writable w (path_of_str base) = true ->
   writable w (path_of_str (base +:+ ".npy")) = true ->
   let r := save_embeddings df base (Some emb) w in
   fst r = Ok tt /\
   fs_files (snd r) =
   <[path_of_str (base +:+ ".npy") := NpyFile emb]>
     (<[path_of_str base := csv_of df]> (fs_files w)) /\
   last (stdout (snd r)) = Some ("Saved full embeddings to: " +:+ base)).
Proof.
  intros Hocc. destruct (npy_file_names base Hocc) as [Hcsv Hplain].
  split; [|split].
  - intros Hp Hq r. unfold r.
    rewrite (save_embeddings_with_array df _ emb w Hp). cbv zeta.
    rewrite Hcsv.
    rewrite fs_write_writable by (by rewrite (writable_same_dirs w)).
    done.
  - intros Hend Hp r. unfold r.
    rewrite (save_embeddings_with_array df _ emb w Hp). cbv zeta.
    rewrite Hplain, Hend.
    rewrite fs_write_writable by (by rewrite (writable_same_dirs w)).
    simpl. split; [done|]. apply insert_insert_eq.
  - intros Hend Hp Hq r. unfold r.
    rewrite (save_embeddings_with_array df _ emb w Hp). cbv zeta.
    rewrite Hplain, Hend.
    rewrite fs_write_writable by (by rewrite (writable_same_dirs w)).
    simpl. split; [done|]. split; [done|].
    rewrite (str_replace_absent _ _ _ Hocc). apply last_snoc.
Qed.

End ExporterRuns.

(** ** The transcriber *)

Lemma str_length_app (a b : string) :
  String.length (a +:+ b) = String.length a + String.length b.
Proof.
  induction a as [|x a IH]; [done|]. autorewrite with str. simpl.
  by rewrite IH.
Qed.

Lemma str_length_rev (s : string) : String.length (str_rev s) = String.length s.
Proof.
  induction s as [|x s IH]; [done|]. simpl. rewrite str_length_app, IH.
  simpl. lia.
Qed.

Lemma str_rev_involutive (s : string) : str_rev (str_rev s) = s.
Proof.
  induction s as [|x s IH]; [done|]. simpl. by rewrite str_rev_app, IH.
Qed.

Lemma str_startswith_split (c s : string) :
  str_startswith c s = true -> s = c +:+ str_drop (String.length c) s.
Proof.
  revert s. induction c as [|x c IH]; intros [|y s]; simpl; try done.
  intros [Hxy Hc]%andb_true_iff. apply Ascii.eqb_eq in Hxy as ->.
  autorewrite with str. f_equal. by apply IH.
Qed.

Lemma str_startswith_longer (c s t : string) :
  str_startswith c s = true -> str_startswith c (s +:+ t) = true.
Proof.
  intros H. rewrite (str_startswith_split c s H), str_app_assoc.
  apply str_startswith_app.
Qed.

Lemma str_drop_app (c s : string) : str_drop (String.length c) (c +:+ s) = s.
Proof. induction c as [|x c IH]; [by destruct s|done]. Qed.

(** Of two strings that begin the same string, one begins the other. *)
Lemma str_startswith_both (c c' s : string) :
  str_startswith c' (c +:+ s) = true ->
  str_startswith c' c = true \/ str_startswith c c' = true.
Proof.
  revert c'. induction c as [|x c IH]; intros c'; [by right|].
  destruct c' as [|y c']; [by left|]. autorewrite with str. simpl.
  intros [Hxy Hc]%andb_true_iff. apply Ascii.eqb_eq in Hxy as ->.
  rewrite Ascii.eqb_refl. simpl. by apply IH.
Qed.

(** No white space character is empty, and none begins another. *)
Lemma whitespace_chars_nonempty (c : string) :
  c ∈ whitespace_chars -> c <> EmptyString.
Proof.
  intros Hc ->. revert Hc. apply (bool_decide_unpack _).
  by vm_compute.
Qed.

Lemma whitespace_chars_prefix_free (c c' : string) :
  c ∈ whitespace_chars -> c' ∈ whitespace_chars ->
  str_startswith c' c = true -> c' = c.
Proof.
  intros Hc Hc'.
  assert (Hall : forallb (fun a =>
            forallb (fun b => implb (str_startswith b a) (String.eqb b a))
              whitespace_chars) whitespace_chars = true)
    by (by vm_compute).
  rewrite forallb_forall in Hall.
  specialize (Hall c (proj1 (list_elem_of_In _ _) Hc)).
  rewrite forallb_forall in Hall.
  specialize (Hall c' (proj1 (list_elem_of_In _ _) Hc')).
  intros H. rewrite H in Hall. by apply String.eqb_eq.
Qed.

Lemma strip_one_None (chars : list string) (s c : string) :
  strip_one chars s = None -> c ∈ chars -> str_startswith c s = false.
Proof.
  unfold strip_one. intros H Hc.
  destruct (find _ chars) eqn:E; [done|].
  apply (find_none _ _ E). by apply list_elem_of_In.
Qed.

Lemma strip_one_Some (chars : list string) (s s' : string) :
  strip_one chars s = Some s' -> exists c, c ∈ chars /\ s = c +:+ s'.
Proof.
  unfold strip_one. destruct (find _ chars) as [c|] eqn:E; [|done].
  intros [= <-]. apply find_some in E as [Hc Hs].
  exists c. split; [by apply list_elem_of_In|].
  by apply str_startswith_split.
Qed.

(** What [lstrip] drops is made of the characters given, and with a
    character's worth of fuel for each byte nothing to drop is left. *)
Lemma lstrip_chars_spec (chars : list string) (fuel : nat) (s : string) :
  (forall c, c ∈ chars -> c <> EmptyString) ->
  String.length s <= fuel ->
  exists pre,
    s = pre +:+ lstrip_chars chars fuel s /\
    made_of chars pre /\
    strip_one chars (lstrip_chars chars fuel s) = None.
Proof.
  intros Hne. revert s. induction fuel as [|fuel IH]; intros s Hlen.
  - destruct s; [|simpl in Hlen; lia]. exists EmptyString.
    split; [done|]. split; [constructor|]. simpl. unfold strip_one.
    destruct (find _ chars) as [c|] eqn:E; [|done].
    apply find_some in E as [Hc Hs]. apply list_elem_of_In in Hc.
    destruct c; [by destruct (Hne _ Hc)|done].
  - simpl. destruct (strip_one chars s) as [s'|] eqn:E.
    + destruct (strip_one_Some _ _ _ E) as (c & Hc & ->).
      rewrite str_length_app in Hlen.
      assert (String.length c <> 0).
      { specialize (Hne c Hc). by destruct c. }
      destruct (IH s' ltac:(lia)) as (pre & Hs' & Hpre & Hdone).
      exists (c +:+ pre). rewrite str_app_assoc, <- Hs'.
      split; [done|]. split; [by constructor|done].
    + exists EmptyString. split; [done|]. split; [constructor|done].
Qed.

Lemma made_of_app (chars : list string) (a b : string) :
  made_of chars a -> made_of chars b -> made_of chars (a +:+ b).
Proof.
  induction 1 as [|c a Hc Ha IH]; [done|]. intros Hb.
  rewrite str_app_assoc. constructor; [done|by apply IH].
Qed.

Lemma made_of_rev (chars : list string) (s : string) :
  made_of (map str_rev chars) s -> made_of chars (str_rev s).
Proof.
  induction 1 as [|c s Hc Hs IH]; [constructor|].
  rewrite str_rev_app. apply made_of_app; [done|].
  apply list_elem_of_fmap in Hc as (c' & -> & Hc').
  rewrite str_rev_involutive, <- (str_app_nil_r c').
  constructor; [done|constructor].
Qed.

Lemma str_rev_nonempty (chars : list string) :
  (forall c, c ∈ chars -> c <> EmptyString) ->
  forall c, c ∈ map str_rev chars -> c <> EmptyString.
Proof.
  intros Hne c (c' & -> & Hc')%list_elem_of_fmap H.
  apply (Hne c' Hc'). by rewrite <- (str_rev_involutive c'), H.
Qed.

(** [s.lstrip(chars)]: a run of the characters is dropped, and the
    rest begins with none of them. *)
Lemma str_lstrip_of_spec (chars : list string) (s : string) :
  (forall c, c ∈ chars -> c <> EmptyString) ->
  exists pre,
    s = pre +:+ str_lstrip_of chars s /\ made_of chars pre /\
    forall c, c ∈ chars -> str_startswith c (str_lstrip_of chars s) = false.
Proof.
  intros Hne.
  destruct (lstrip_chars_spec chars (String.length s) s Hne ltac:(lia))
    as (pre & Hs & Hpre & Hdone).
  exists pre. split; [done|]. split; [done|].
  intros c Hc. by apply (strip_one_None chars).
Qed.

(** [s.rstrip(chars)], the same at the other end. *)
Lemma str_rstrip_of_spec (chars : list string) (s : string) :
  (forall c, c ∈ chars -> c <> EmptyString) ->
  exists post,
    s = str_rstrip_of chars s +:+ post /\ made_of chars post /\
    forall c, c ∈ chars -> str_endswith c (str_rstrip_of chars s) = false.
Proof.
  intros Hne. unfold str_rstrip_of.
  destruct (str_lstrip_of_spec (map str_rev chars) (str_rev s)
              (str_rev_nonempty chars Hne)) as (pre & Hs & Hpre & Hdone).
  exists (str_rev pre). split; [|split].
  - by rewrite <- str_rev_app, <- Hs, str_rev_involutive.
  - by apply made_of_rev.
  - intros c Hc. unfold str_endswith. rewrite str_rev_involutive.
    apply Hdone, list_elem_of_fmap. by exists c.
Qed.

(** [s.strip()] drops white space from both ends, and what is left
    has none at either end. *)
Lemma str_strip_spec (s : string) :
  (exists pre post,
     s = pre +:+ str_strip s +:+ post /\ blank pre /\ blank post) /\
  trimmed (str_strip s).
Proof.
  unfold str_strip.
  destruct (str_lstrip_of_spec whitespace_chars s whitespace_chars_nonempty)
    as (pre & Hs & Hpre & Hstart).
  destruct (str_rstrip_of_spec whitespace_chars
              (str_lstrip_of whitespace_chars s) whitespace_chars_nonempty)
    as (post & Hl & Hpost & Hend).
  split.
  - exists pre, post. by rewrite <- Hl.
  - intros c Hc. split; [|by apply Hend].
    destruct (str_startswith c (str_rstrip_of _ _)) eqn:E; [|done].
    rewrite <- (Hstart c Hc), Hl. symmetry.
    by apply str_startswith_longer.
Qed.

Lemma str_strip_trimmed (s : string) : trimmed (str_strip s).
Proof. apply str_strip_spec. Qed.

(** Stripping leading white space from white space leaves nothing. *)
Lemma lstrip_chars_blank (fuel : nat) (s : string) :
  blank s -> String.length s <= fuel ->
  lstrip_chars whitespace_chars fuel s = EmptyString.
Proof.
  intros Hs. revert fuel. induction Hs as [|c s Hc Hs IH]; intros fuel Hlen.
  - by destruct fuel.
  - rewrite str_length_app in Hlen.
    pose proof (whitespace_chars_nonempty c Hc) as Hne.
    destruct fuel as [|fuel]; [destruct c; [done|simpl in Hlen; lia]|].
    simpl. unfold strip_one.
    destruct (find _ whitespace_chars) as [c'|] eqn:E.
    + apply find_some in E as [Hc' Hpre]. apply list_elem_of_In in Hc'.
      assert (c' = c) as ->.
      { destruct (str_startswith_both _ _ _ Hpre) as [H|H].
        - by apply whitespace_chars_prefix_free.
        - symmetry. by apply whitespace_chars_prefix_free. }
      rewrite str_drop_app. apply IH.
      destruct c; [done|simpl in Hlen; lia].
    + apply list_elem_of_In in Hc. apply (find_none _ _ E c) in Hc.
      by rewrite str_startswith_app in Hc.
Qed.

(** A string of white space only strips to the empty string. *)
Lemma str_strip_blank (s : string) : blank s -> str_strip s = EmptyString.
Proof.
  intros Hs. unfold str_strip, str_lstrip_of.
  by rewrite lstrip_chars_blank.
Qed.

Section Transcriber.
Context {F time : Type} `{!Numpy F} `{!Libraries F time}.
Implicit Types (self : AudioEmbeddingExtractor F time) (w : world F time).

Lemma collect_words_length (segments : list (Segment time)) :
  length (collect_words segments) = timed_word_count segments.
Proof.
  unfold timed_word_count.
  induction segments as [|seg segments IH]; simpl; [done|].
  rewrite length_app, IH. f_equal.
  destruct (seg_words seg); [by rewrite length_map | done].
Qed.

Lemma collect_words_trimmed (segments : list (Segment time)) :
  Forall (fun wd => trimmed (word wd)) (collect_words segments).
Proof.
  induction segments as [|seg segments IH]; simpl; [constructor|].
  apply Forall_app. split; [|done].
  destruct (seg_words seg) as [ws|]; [|constructor].
  apply Forall_fmap, Forall_forall. intros wi _. apply str_strip_trimmed.
Qed.

End Transcriber.

(** ** Loading the models *)

Section Loading.
Context {F time : Type} `{!Numpy F} `{!Libraries F time}.
Implicit Types (w : world F time).

(** X11: the constructor picks the device given, or [cuda] exactly when
    it is available; an [Exception] of the speech model's loader
    becomes a [RuntimeError] and the language model is then not loaded
    at all; an [Exception] of the tokenizer's or the language model's
    loader becomes a [RuntimeError] too; when all three load, the
    extractor holds them, with the layer count of the model's
    configuration. *)
Theorem init_outcomes (whisper_name gpt2_name : string) (dev : option string) w :
  let device :=
    match dev with
    | Some d => d
    | None => if torch_cuda_is_available then "cuda" else "cpu"
    end in
  let r := init whisper_name gpt2_name dev w in
  let wrap := fun (what : string) (e : exn) =>
    if isinstance e Exception
    then Raise (PyErr RuntimeError (what +:+ exn_str e))
    else Raise e in
  match whisper_load_model whisper_name device with
  | Raise e =>
      fst r = wrap "Failed to load Whisper model: " e /\
      calls (snd r) = calls w ++ [CallWhisperLoad whisper_name]
  | Ok wm =>
      calls (snd r)
        = calls w ++ [CallWhisperLoad whisper_name; CallGpt2Load gpt2_name] /\
      match GPT2Tokenizer_from_pretrained gpt2_name with
      | Raise e => fst r = wrap "Failed to load GPT-2 model: " e
      | Ok tok =>
          match GPT2Model_from_pretrained gpt2_name device with
          | Raise e => fst r = wrap "Failed to load GPT-2 model: " e
          | Ok gpt2 =>
              fst r = Ok (MkExtractor device wm tok gpt2 (config_n_layer gpt2))
          end
      end
  end.
Proof.
  intros device r wrap. unfold r, init, reraise_as_RuntimeError, wrap.
  fold device. run_M.
  destruct (whisper_load_model whisper_name device) as [wm|e]; simpl.
  - destruct (GPT2Tokenizer_from_pretrained gpt2_name) as [tok|e]; simpl.
    + destruct (GPT2Model_from_pretrained gpt2_name device) as [gpt2|e]; simpl.
      * by rewrite <- app_assoc.
      * destruct (isinstance e Exception); simpl; by rewrite <- app_assoc.
    + destruct (isinstance e Exception); simpl; by rewrite <- app_assoc.
  - by destruct (isinstance e Exception).
Qed.
End Loading.

(** ** The stages of a run *)

Section PipelineRuns.
Context {F time : Type} `{!Numpy F} `{!Libraries F time}.
Implicit Types (self : AudioEmbeddingExtractor F time) (w : world F time).

(** The world in which the exporter is called. *)
Lemma reaches_export_frame self (audio_path : string)
    (output_dir : option string) w (df : DataFrame F time) (emb : ndarray F)
    (w4 : world F time) :
  reaches_export self audio_path output_dir w df emb w4 ->
  fs_dirs w4 =
    fs_dirs w ∪ list_to_set (path_prefixes (resolve_output_dir output_dir)) /\
  fs_files w4 = fs_files w.
Proof.
  intros (w0 & audio & w1 & tr & w2 & emb0 & toks0 & w3 & toks &
          E0 & E1 & E2 & E3 & E4).
  apply mkdir_parents_Ok in E0 as ->.
  pose proof (respects_load_audio same_files _ _ _ _ _ E1) as F1.
  pose proof (respects_load_audio same_dirs _ _ _ _ _ E1) as D1.
  pose proof (respects_transcribe same_files _ _ _ _ _ E2) as F2.
  pose proof (respects_transcribe same_dirs _ _ _ _ _ E2) as D2.
  pose proof (respects_extract same_files _ _ _ _ _ E3) as F3.
  pose proof (respects_extract same_dirs _ _ _ _ _ E3) as D3.
  pose proof (respects_align same_files _ _ _ _ _ _ _ E4) as F4.
  pose proof (respects_align same_dirs _ _ _ _ _ _ _ E4) as D4.
  unfold same_files, same_dirs in *. simpl in *.
  split; congruence.
Qed.

(** From there the run is the exporter and what follows it. *)
Lemma reaches_export_run self (audio_path : string)
    (output_dir : option string) w (df : DataFrame F time) (emb : ndarray F)
    (w4 : world F time) :
  reaches_export self audio_path output_dir w df emb w4 ->
  process_audio_file self audio_path output_dir w =
  (save_embeddings df (str_of_path (csv_path_of audio_path output_dir))
     (Some emb);;
   after_export audio_path output_dir df emb) w4.
Proof.
  intros (w0 & audio & w1 & tr & w2 & emb0 & toks0 & w3 & toks &
          E0 & E1 & E2 & E3 & E4).
  unfold process_audio_file. cbv zeta.
  rewrite (bind_run _ _ _ _ _ E0).
  rewrite (bind_run _ _ _ _ _ E1).
  rewrite (bind_run _ _ _ _ _ E2).
  rewrite (bind_run _ _ _ _ _ E3). cbv beta iota.
  rewrite (bind_run _ _ _ _ _ E4). reflexivity.
Qed.

(** A run either stops before the export, with every file as it was,
    or reaches it. *)
Lemma process_audio_file_stages self (audio_path : string)
    (output_dir : option string) w
    (r : result (DataFrame F time * string * string)) (w' : world F time) :
  process_audio_file self audio_path output_dir w = (r, w') ->
  (exists e, r = Raise e /\ fs_files w' = fs_files w) \/
  (exists df emb w4,
     reaches_export self audio_path output_dir w df emb w4 /\
     (save_embeddings df (str_of_path (csv_path_of audio_path output_dir))
        (Some emb);;
      after_export audio_path output_dir df emb) w4 = (r, w')).
Proof.
  intros E. unfold process_audio_file in E. cbv zeta in E.
  apply bind_inv in E as [(e & E0 & ->)|([] & w0 & E0 & E)].
  { pose proof (respects_mkdir_parents same_files _ _ _ _ E0) as F0.
    left. exists e. by eauto. }
  pose proof (respects_mkdir_parents same_files _ _ _ _ E0) as F0.
  apply bind_inv in E as [(e & E1 & ->)|(audio & w1 & E1 & E)].
  { pose proof (respects_load_audio same_files _ _ _ _ _ E1) as F1.
    unfold same_files in *.
    left. exists e. split; [done|]. congruence. }
  pose proof (respects_load_audio same_files _ _ _ _ _ E1) as F1.
  apply bind_inv in E as [(e & E2 & ->)|(tr & w2 & E2 & E)].
  { pose proof (respects_transcribe same_files _ _ _ _ _ E2) as F2.
    unfold same_files in *.
    left. exists e. split; [done|]. congruence. }
  pose proof (respects_transcribe same_files _ _ _ _ _ E2) as F2.
  apply bind_inv in E as [(e & E3 & ->)|([emb0 toks0] & w3 & E3 & E)].
  { pose proof (respects_extract same_files _ _ _ _ _ E3) as F3.
    unfold same_files in *.
    left. exists e. split; [done|]. congruence. }
  apply bind_inv in E as [(e & E4 & ->)|([[df emb] toks] & w4 & E4 & E)].
  { pose proof (respects_extract same_files _ _ _ _ _ E3) as F3.
    pose proof (respects_align same_files _ _ _ _ _ _ _ E4) as F4.
    unfold same_files in *.
    left. exists e. split; [done|]. congruence. }
  right. exists df, emb, w4.
  split; [by exists w0, audio, w1, tr, w2, emb0, toks0, w3, toks|].
  exact E.
Qed.

(** X12: whatever happens in it, a run of the pipeline removes no
    file and no directory, and the output, the error stream and the
    record of library calls are only extended: what was there before
    the run is still there after it, in the same order. *)
Theorem pipeline_only_adds self (audio_path : string)
    (output_dir : option string) w
    (r : result (DataFrame F time * string * string)) (w' : world F time) :
  process_audio_file self audio_path output_dir w = (r, w') ->
  stderr w `prefix_of` stderr w' /\
  fs_dirs w ⊆ fs_dirs w' /\
  dom (fs_files w) ⊆ dom (fs_files w') /\
  stdout w `prefix_of` stdout w' /\
  calls w `prefix_of` calls w'.
Proof. apply (respects_process_audio_file only_adds). Qed.
End PipelineRuns.

(** ** The error stream and the exit code *)

Section ExitAndErrors.
Context {F time : Type} `{!Numpy F} `{!Libraries F time}.
Implicit Types (self : AudioEmbeddingExtractor F time) (w : world F time).

(** X13: [main] returns 0, 1 or 130, or lets through an exception that
    is neither an [Exception] nor an interrupt.  What the [try] block
    left on the error stream stays there, and after the block the
    script adds to it exactly when the exit code is 1.  The block
    itself only extends the stream, and no file or directory that was
    there before the run is gone after it. *)
Theorem main_error_stream (args : Args) w :
  let body := main_body args w in
  let r := main args w in
  match fst r with
  | Ok code =>
      (code = 0 \/ code = 130) /\ stderr (snd r) = stderr (snd body) \/
      code = 1 /\
      exists line more, stderr (snd r) = stderr (snd body) ++ line :: more
  | Raise e =>
      isinstance e Exception = false /\
      isinstance e KeyboardInterrupt = false /\
      stderr (snd r) = stderr (snd body)
  end /\
  stderr w `prefix_of` stderr (snd body) /\
  fs_dirs w ⊆ fs_dirs (snd r) /\
  dom (fs_files w) ⊆ dom (fs_files (snd r)).
Proof.
  intros body r. unfold r, body. rewrite main_run.
  destruct (main_body args w) as [[n|e] w1] eqn:Hbody;
    destruct (respects_main_body only_adds args _ _ _ Hbody)
      as (He & Hd & Hf & _).
  - apply main_body_value in Hbody as ->. simpl.
    split; [left; split; [by left | done] | done].
  - cbn [snd]. unfold main_handler.
    destruct (isinstance e FileNotFoundError) eqn:Hfnf.
    { run_M. split; [|done]. right. split; [done|]. by eexists _, []. }
    destruct (isinstance e RuntimeError) eqn:Hrt.
    { run_M. split; [|done]. right. split; [done|]. by eexists _, []. }
    destruct (isinstance e KeyboardInterrupt) eqn:Hki.
    { run_M. split; [|done]. left. split; [by right | done]. }
    destruct (isinstance e Exception) eqn:Hex.
    { run_M. rewrite <- app_assoc. split; [|done]. right.
      split; [done|]. by eexists _, [_]. }
    simpl. by rewrite Hex, Hki.
Qed.

End ExitAndErrors.

(** ** The visualizer after the aligner *)

Section VisualizerAfterAligner.
Context {F time : Type} `{!Numpy F} `{!Libraries F time}.
Implicit Types (self : AudioEmbeddingExtractor F time) (emb : ndarray F)
  (w : world F time).

(** The skip of the visualizer, for a table that lacks one column. *)
Lemma visualize_skips (df : DataFrame F time) emb
    (output_path metric : string) w (n_layers i : nat) :
  shape emb !! 1 = Some n_layers ->
  i < n_layers ->
  layer_col i metric ∉ columns df ->
  visualize_embeddings df emb output_path metric w =
  (Ok tt,
   MkWorld
     ((stdout w ++ [nl +:+ "Generating visualization..."]) ++
      ["Warning: Not all layer columns found for metric '" +:+ metric +:+ "'"])
     (stderr w) (fs_dirs w) (fs_files w) (calls w)).
Proof.
  intros Hsh Hi Hmiss. unfold visualize_embeddings, shape_at.
  rewrite Hsh. run_M.
  assert (Hall : forallb (fun col => bool_decide (col ∈ columns df))
                   (map (fun i => layer_col i metric) (seq 0 n_layers)) = false).
  { apply not_true_is_false. intros Hall.
    rewrite forallb_forall in Hall.
    specialize (Hall (layer_col i metric)).
    apply Hmiss. eapply bool_decide_eq_true_1, Hall.
    apply in_map_iff. exists i. split; [done|]. apply in_seq. lia. }
  by rewrite Hall.
Qed.

Lemma layer_col_in_row_keys (i n_layers : nat) (metric : string) :
  i < n_layers -> metric ∈ ["mean"; "std"; "norm"] ->
  layer_col i metric ∈
    ["timestamp"; "word"; "token"] ++ flat_map layer_cols_of (seq 0 n_layers).
Proof.
  intros Hi Hm. apply elem_of_app. right.
  apply list_elem_of_In, in_flat_map. exists i.
  split; [apply in_seq; lia|]. apply list_elem_of_In. unfold layer_cols_of.
  repeat (apply elem_of_cons in Hm as [->|Hm]; [repeat constructor|]).
  inversion Hm.
Qed.

(** X15: the plot of an aligned table is skipped exactly when the
    table is empty.  On a three-axis tensor with at least one layer
    whose first axis covers the tokens, and for any of the three
    statistics: an empty table (no token, or words that tokenize to
    nothing) makes the visualizer warn and return without a file; a
    table with a row has every column the visualizer reads. *)
Theorem visualizer_after_aligner self (ws : list (Word time))
    (tokens : list string) emb w (n0 n1 n2 : nat) (metric : string) :
  shape emb = [n0; n1; n2] ->
  length tokens <= n0 ->
  0 < n1 ->
  metric ∈ ["mean"; "std"; "norm"] ->
  exists df w1,
    align_embeddings_to_words self ws tokens emb w = (Ok (df, emb, tokens), w1)
    /\ (records df = [] <->
        min (length tokens)
          (isolated_token_count (tok_encode (tokenizer self)) ws) = 0)
    /\ (records df = [] ->
        forall output_path w2,
          visualize_embeddings df emb output_path metric w2 =
          (Ok tt,
           MkWorld
             ((stdout w2 ++ [nl +:+ "Generating visualization..."]) ++
              ["Warning: Not all layer columns found for metric '" +:+
               metric +:+ "'"])
             (stderr w2) (fs_dirs w2) (fs_files w2) (calls w2)))
    /\ (records df <> [] ->
        (forall i, i < n1 -> layer_col i metric ∈ columns df) /\
        "timestamp" ∈ columns df /\ "word" ∈ columns df).
Proof.
  intros Hsh Hlen Hn1 Hm.
  destruct (align_returns self ws tokens emb w _ _ _ _ Hsh Hlen) as [w1 E].
  eexists _, w1. split; [exact E|].
  pose proof (closed_rows_columns (tok_encode (tokenizer self)) ws tokens emb
                n0 n1 n2 Hsh Hlen) as Hcols.
  cbv zeta in Hcols. simpl.
  destruct (compute_token_positions_indices (tok_encode (tokenizer self))
              ws tokens) as [_ Hcount].
  set (tp := compute_token_positions _ ws tokens) in *.
  split; [|split].
  - rewrite <- Hcount. split.
    + intros Hnil. apply (f_equal length) in Hnil.
      by rewrite length_map in Hnil.
    + intros Hz. destruct tp; [done|discriminate].
  - intros Hnil output_path w2. rewrite Hnil in Hcols.
    apply (visualize_skips _ emb output_path metric w2 n1 0);
      [by rewrite Hsh | done |].
    simpl. rewrite Hnil in *. rewrite Hcols. apply not_elem_of_nil.
  - intros Hne. destruct (map (row_of tokens emb n1) tp) as [|r rest] eqn:Hrows;
      [done|].
    rewrite Hcols. split; [|split].
    + intros i Hi. by apply layer_col_in_row_keys.
    + apply elem_of_app. left. repeat constructor.
    + apply elem_of_app. left. repeat constructor.
Qed.
End VisualizerAfterAligner.

(** ** The output directory comes first *)

Section OutputDirectory.
Context {F time : Type} `{!Numpy F} `{!Libraries F time}.
Implicit Types (self : AudioEmbeddingExtractor F time) (w : world F time).

End OutputDirectory.

(** ** No output before the table is built *)

Section ExportComesLast.
Context {F time : Type} `{!Numpy F} `{!Libraries F time}.
Implicit Types (self : AudioEmbeddingExtractor F time) (w : world F time).

Lemma logs_record_call {A : Type} (c : call) (m : M F time A) :
  respects only_adds m -> logs c (record_call c;; m).
Proof.
  intros Hm w r w' E. unfold mbind, M_bind, record_call in E. simpl in E.
  by destruct (Hm _ _ _ E) as (_ & _ & _ & _ & Hcalls).
Qed.

Lemma logs_bind_l {A B : Type} (c : call) (m : M F time A)
    (f : A -> M F time B) :
  logs c m -> (forall a, respects only_adds (f a)) -> logs c (m ≫= f).
Proof.
  intros Hm Hf w r w' [(e & E & _)|(a & w1 & E & Ef)]%bind_inv.
  - exact (Hm _ _ _ E).
  - destruct (Hf a _ _ _ Ef) as (_ & _ & _ & _ & Hcalls).
    etrans; [exact (Hm _ _ _ E)|exact Hcalls].
Qed.

Lemma logs_after_print {B : Type} (c : call) (s : string) (m : M F time B) :
  logs c m -> logs c (print s;; m).
Proof.
  intros Hm w r w' E. unfold mbind, M_bind, print in E. simpl in E.
  exact (Hm _ _ _ E).
Qed.

Lemma logs_save_embeddings (df : DataFrame F time) (output_path : string)
    (embeddings : option (ndarray F)) :
  logs (CallToCsv output_path) (save_embeddings df output_path embeddings).
Proof.
  unfold save_embeddings. apply logs_after_print, logs_bind_l.
  - unfold to_csv. apply logs_record_call. repeat respects_step.
  - intros []. unfold np_save. repeat respects_step.
Qed.

(** X18: the export comes last.  A run of the pipeline either raises
    with every file as it was before the run, or it has made the
    output directory and got through loading, transcription,
    extraction and alignment without an exception.  In that case no
    file has changed up to there, and the rest of the run is the
    exporter, called with the table and the tensor the aligner
    returned at the path
    [<output directory>/<stem of the audio path>_embeddings.csv], and
    then the visualizer and the closing lines; the first library call
    after the aligner is the exporter's [to_csv] at that path. *)
Theorem export_comes_last self (audio_path : string)
    (output_dir : option string) w :
  let r := process_audio_file self audio_path output_dir w in
  let csv_path :=
    str_of_path (resolve_output_dir output_dir ++
                 [path_stem (path_of_str audio_path) +:+ "_embeddings.csv"]) in
  (exists e, fst r = Raise e /\ fs_files (snd r) = fs_files w) \/
  (exists df emb w4,
     reaches_export self audio_path output_dir w df emb w4 /\
     fs_files w4 = fs_files w /\
     r = (save_embeddings df csv_path (Some emb);;
          after_export audio_path output_dir df emb) w4 /\
     (calls w4 ++ [CallToCsv csv_path]) `prefix_of` calls (snd r)).
Proof.
  intros r csv_path. subst r.
  destruct (process_audio_file self audio_path output_dir w) as [res w'] eqn:E.
  cbn [fst snd].
  apply process_audio_file_stages in E
    as [(e & -> & Hfiles)|(df & emb & w4 & Hreach & E)].
  { left. by exists e. }
  right. exists df, emb, w4.
  destruct (reaches_export_frame _ _ _ _ _ _ _ Hreach) as (_ & Hfiles).
  split; [done|]. split; [done|]. split; [by rewrite <- E|].
  revert E.
  lazymatch goal with
  | |- ?k w4 = _ -> _ => assert (Hk : logs (CallToCsv csv_path) k)
  end.
  { apply logs_bind_l; [apply logs_save_embeddings|].
    intros []. apply (respects_after_export only_adds). }
  intros E. exact (Hk _ _ _ E).
Qed.
End ExportComesLast.

(** ** The exporter in the pipeline *)

Section TableHeader.
Context {F time : Type} `{!Numpy F} `{!Libraries F time}.
Implicit Types (self : AudioEmbeddingExtractor F time) (emb : ndarray F)
  (row : dict (cell F time)) (w : world F time).

(** On fresh keys the layer loop appends the three keys of each layer
    in turn, whatever the tensor holds. *)
Lemma add_layer_stats_keys emb (t : nat) (layers : list nat) row row' :
  add_layer_stats emb t layers row = Ok row' ->
  NoDup layers ->
  (forall l m, l ∈ layers -> layer_col l m ∉ dict_keys row) ->
  dict_keys row' = dict_keys row ++ flat_map layer_cols_of layers.
Proof.
  revert row.
  induction layers as [|l layers IH]; intros row Hrun Hnd Hfresh;
    simpl in Hrun.
  - injection Hrun as <-. simpl. by rewrite app_nil_r.
  - unfold mbind, result_bind in Hrun.
    destruct (getitem_2 emb t l) as [v|e]; [|done].
    apply NoDup_cons in Hnd as [Hnl Hnd].
    assert (Hin : l ∈ l :: layers) by set_solver.
    rewrite (dict_set_fresh (layer_col l "mean")) in Hrun
      by (by apply Hfresh).
    rewrite (dict_set_fresh (layer_col l "std")) in Hrun.
    2:{ unfold dict_keys. rewrite map_app. simpl.
        intros [H'|H']%elem_of_app; [by eapply Hfresh|].
        set_unfold. destruct H' as [H'|[]].
        by apply layer_col_inj in H' as [_ ?]. }
    rewrite (dict_set_fresh (layer_col l "norm")) in Hrun.
    2:{ unfold dict_keys. rewrite !map_app. simpl.
        intros [[H'|H']%elem_of_app|H']%elem_of_app; [by eapply Hfresh| |];
          set_unfold; destruct H' as [H'|[]];
          by apply layer_col_inj in H' as [_ ?]. }
    apply IH in Hrun; [|done|].
    + rewrite Hrun. unfold dict_keys. rewrite !map_app. simpl.
      by rewrite <- !app_assoc.
    + intros l' m Hl'. unfold dict_keys. rewrite !map_app. simpl.
      intros H'. set_unfold.
      destruct H' as [[[H'|[H'|[]]]|[H'|[]]]|[H'|[]]].
      * eapply Hfresh; [|exact H']. by right.
      * apply layer_col_inj in H' as [-> _]. done.
      * apply layer_col_inj in H' as [-> _]. done.
      * apply layer_col_inj in H' as [-> _]. done.
Qed.

(** The keys of a row: the three leading ones, then three for each
    layer of the tensor. *)
Lemma build_row_keys (tokens : list string) emb (pos : TokenPosition time)
    row :
  build_row tokens emb pos = Ok row ->
  exists n_layers,
    shape emb !! 1 = Some n_layers /\
    dict_keys row =
    ["timestamp"; "word"; "token"] ++ flat_map layer_cols_of (seq 0 n_layers).
Proof.
  unfold build_row, py_getitem, shape_at, mbind, result_bind.
  destruct (tokens !! token_idx pos) as [tok|] eqn:Htok; [|done].
  destruct (shape emb !! 1) as [n1|]; [|done].
  intros Hrun. exists n1. split; [done|].
  apply add_layer_stats_keys in Hrun; [done|apply NoDup_seq|].
  intros l m _ Hin. eapply (leading_keys_not_layer _ Hin). reflexivity.
Qed.

(** The columns of the aligner's table are the keys of its first row,
    and every row has them. *)
Lemma aligned_table_columns self (ws : list (Word time))
    (tokens : list string) emb w (df : DataFrame F time) (e : ndarray F)
    (t : list string) (w' : world F time) :
  align_embeddings_to_words self ws tokens emb w = (Ok (df, e, t), w') ->
  match records df with
  | [] => columns df = []
  | row :: rest =>
      columns df = dict_keys row /\
      Forall (fun r' => dict_keys r' = dict_keys row) rest
  end.
Proof.
  rewrite align_run. simpl.
  destruct (build_rows _ _ _) as [rows|err] eqn:Hrows; [|done].
  intros [= <- _ _ _]. simpl.
  apply mapM_result_Ok in Hrows.
  assert (Hkeys : Forall (fun r =>
            exists n, shape emb !! 1 = Some n /\
              dict_keys r = ["timestamp"; "word"; "token"]
                            ++ flat_map layer_cols_of (seq 0 n)) rows).
  { induction Hrows as [|pos r tp rows Hrow _ IH]; constructor; [|done].
    by eapply build_row_keys. }
  destruct rows as [|row rest]; [done|].
  apply Forall_cons in Hkeys as [(n & Hn & Hrow) Hrest].
  assert (Hsame : Forall (fun r' => dict_keys r' = dict_keys row) rest).
  { eapply Forall_impl; [exact Hrest|].
    intros r' (n' & Hn' & Hr'). rewrite Hr', Hrow. congruence. }
  split; [|done].
  apply union_keys_uniform; [|done]. rewrite Hrow. apply NoDup_row_keys.
Qed.
End TableHeader.

Section ExporterInPipeline.
Context {F time : Type} `{!Numpy F} `{!Libraries F time}.
Implicit Types (self : AudioEmbeddingExtractor F time) (w : world F time).

#[local] Arguments fs_write : simpl never.
#[local] Arguments fs_is_dir : simpl never.

Lemma path_prefixes_length (p q : path) :
  q ∈ path_prefixes p -> length q <= length p.
Proof.
  unfold path_prefixes. intros (n & -> & Hn)%list_elem_of_fmap.
  rewrite length_take. lia.
Qed.

Lemma fs_is_dir_same_dirs w (w0 : world F time) (p : path) :
  fs_dirs w0 = fs_dirs w -> fs_is_dir w0 p = fs_is_dir w p.
Proof. intros H. unfold fs_is_dir. by rewrite H. Qed.

Lemma writable_snoc w (dir : path) (x : string) :
  writable w (dir ++ [x]) =
  fs_is_dir w dir && negb (fs_is_dir w (dir ++ [x])).
Proof.
  unfold writable. rewrite removelast_last. by destruct dir.
Qed.

(** A write either creates the file or raises and changes nothing. *)
Lemma fs_write_cases (name : string) (c : file_content F time) w :
  fs_write name c w =
    (Ok tt, MkWorld (stdout w) (stderr w) (fs_dirs w)
              (<[path_of_str name := c]> (fs_files w)) (calls w)) \/
  exists e, fs_write name c w = (Raise e, w).
Proof. unfold fs_write. destruct (open_error w name); by eauto. Qed.

(** At a path that is a directory [open] raises [IsADirectoryError]. *)
Lemma fs_write_directory (name : string) (c : file_content F time) w :
  path_of_str name <> [] ->
  fs_is_dir w (path_of_str name) = true ->
  exists e, fs_write name c w = (Raise e, w) /\
            exn_type e = IsADirectoryError.
Proof.
  intros Hne Hd. unfold fs_write, open_error.
  destruct (path_of_str name) as [|x p]; [done|]. rewrite Hd. by eexists.
Qed.

Lemma save_embeddings_at_directory (df : DataFrame F time)
    (output_path : string) (embeddings : option (ndarray F)) w :
  path_of_str output_path <> [] ->
  fs_is_dir w (path_of_str output_path) = true ->
  fs_is_dir w (removelast (path_of_str output_path)) = true ->
  exists e w',
    save_embeddings df output_path embeddings w = (Raise e, w') /\
    exn_type e = IsADirectoryError /\
    fs_files w' = fs_files w /\ fs_dirs w' = fs_dirs w.
Proof.
  intros Hne Hd Hp. unfold save_embeddings, to_csv. run_M.
  rewrite (fs_is_dir_same_dirs w) by done. rewrite Hp. simpl.
  lazymatch goal with
  | |- context [fs_write ?n ?c ?w0] =>
      destruct (fs_write_directory n c w0 Hne) as (e & -> & He);
        [by rewrite (fs_is_dir_same_dirs w)|]
  end.
  eexists e, _. split; [reflexivity|]. done.
Qed.

End ExporterInPipeline.

(** * Worked instances

    The theorems above at concrete inputs, in the small environment of
    [Demo]. *)

#[local] Existing Instance Demo.numpy_Z.
#[local] Existing Instance Demo.libraries_Z.

Lemma demo_librosa_honours_request :
  librosa_honours_request (F := Z) (time := nat).
Proof.
  intros w p sr y rate. simpl.
  destruct (fs_files w !! Demo.split_path p EmptyString) as [[| | |data]|];
    try discriminate.
  by intros [= <- <-].
Qed.

(** A string that holds another has an occurrence of it. *)
Lemma str_contains_occurs (haystack needle : string) :
  str_contains haystack needle -> str_occurs needle haystack = true.
Proof.
  intros (pre & post & ->).
  induction pre as [|c pre IH].
  - rewrite str_app_nil.
    destruct (needle +:+ post) eqn:E; simpl;
      rewrite <- E, str_startswith_app; done.
  - rewrite str_app_cons. cbn [str_occurs]. rewrite IH. apply orb_true_r.
Qed.

Lemma demo_words_compared :
  words_compared_as_strings (F := Z) (time := nat).
Proof.
  intros a b. simpl. destruct (String.eqb_spec a b); by case_bool_decide.
Qed.

(** C1 at a tensor that is one token short: the aligner raises, and
    the first axis (2) is below the three entries recorded. *)
Lemma aligner_stays_in_bounds_witness :
  2 < length (compute_token_positions (time := nat)
                (tok_encode Demo.char_tokenizer) Demo.words demo_tokens).
Proof.
  pose proof (aligner_stays_in_bounds
                (Demo.extractor Z.of_nat) Demo.words demo_tokens
                (Demo.tensor Z.of_nat 2) Demo.empty_world) as H.
  destruct H as (_ & _ & _ & H). vm_compute in H.
  exact (proj2 H 2 2 3 [] eq_refl).
Defined.

(** C2 at three tokens and a tensor over them: the aligner returns. *)
Lemma aligner_follows_greedy_algorithm_witness :
  exists df w',
    align_embeddings_to_words
      (Demo.extractor Z.of_nat) Demo.words demo_tokens
      (Demo.tensor Z.of_nat 3) Demo.empty_world
    = (Ok (df, Demo.tensor Z.of_nat 3, demo_tokens), w').
Proof.
  apply (proj2 (aligner_follows_greedy_algorithm (Demo.extractor Z.of_nat) Demo.words
                  demo_tokens (Demo.tensor Z.of_nat 3) Demo.empty_world)
           3 2 3 []).
  - reflexivity.
  - simpl. lia.
Defined.

(** C2 as stated fails on a token that holds a line feed: the row
    carries a backslash and an [n] in its place. *)
Lemma rows_carry_tokens_verbatim_counterexample :
  ~ rows_carry_tokens_verbatim
      (Demo.extractor Z.of_nat) [MkWord "a" 0 1] [nl]
      (Demo.tensor Z.of_nat 1) Demo.empty_world.
Proof.
  intros H.
  destruct (align_returns
              (Demo.extractor Z.of_nat) [MkWord "a" 0 1] [nl]
              (Demo.tensor Z.of_nat 1) Demo.empty_world 1 2 3 [] eq_refl
              (le_n 1)) as [w' E].
  specialize (H _ _ _ _ E). vm_compute in H. discriminate H.
Qed.

(** C9 at three tokens and a tensor over them. *)
Lemma aligner_passes_inputs_through_witness :
  exists df w',
    align_embeddings_to_words
      (Demo.extractor Z.of_nat) Demo.words demo_tokens
      (Demo.tensor Z.of_nat 3) Demo.empty_world
    = (Ok (df, Demo.tensor Z.of_nat 3, demo_tokens), w').
Proof.
  apply (proj2 (aligner_passes_inputs_through (Demo.extractor Z.of_nat) Demo.words
                  demo_tokens (Demo.tensor Z.of_nat 3) Demo.empty_world)
           3 2 3 []).
  - reflexivity.
  - simpl. lia.
Defined.

(** C10 at two words of two tokens each over three tokens: three rows,
    the second word gets only one, and row 1 holds token 1. *)
Lemma aligner_uses_tokens_in_order_witness :
  exists df w',
    align_embeddings_to_words
      (Demo.extractor Z.of_nat) Demo.words demo_tokens
      (Demo.tensor Z.of_nat 3) Demo.empty_world
    = (Ok (df, Demo.tensor Z.of_nat 3, demo_tokens), w') /\
    length (records df) = 3 /\
    forall row,
      records df !! 1 = Some row ->
      dict_get "token" row = Some (CellStr "b") /\
      dict_get (layer_col 0 "mean") row = Some (CellNum 111%Z).
Proof.
  destruct (align_returns
              (Demo.extractor Z.of_nat) Demo.words demo_tokens
              (Demo.tensor Z.of_nat 3) Demo.empty_world 3 2 3 [] eq_refl
              (le_n 3)) as [w' E].
  eexists _, w'. split; [exact E|].
  destruct (aligner_uses_tokens_in_order
              (Demo.extractor Z.of_nat) Demo.words demo_tokens
              (Demo.tensor Z.of_nat 3) Demo.empty_world)
    as (_ & _ & H & _).
  destruct (H _ _ _ _ E) as [Hlen Hrows].
  split; [exact Hlen|].
  intros row Hrow.
  destruct (Hrows 1 row Hrow)
    as (pos & tok & n & _ & _ & _ & Htok & Hcell & _ & _ & Hn & Hstats).
  injection Htok as <-. injection Hn as <-.
  split; [exact Hcell|].
  destruct (Hstats 0 (Nat.lt_0_succ 1)) as (v & Hv & Hmean & _).
  injection Hv as <-. exact Hmean.
Defined.



(** C4 at an empty table and a two-layer tensor. *)
Lemma visualizer_skips_missing_columns_witness :
  visualize_embeddings (pd_DataFrame []) (Demo.tensor Z.of_nat 3)
    "out/plot.png" "norm" Demo.empty_world =
  (Ok tt,
   MkWorld
     ([nl +:+ "Generating visualization..."] ++
      ["Warning: Not all layer columns found for metric 'norm'"])
     [] ∅ ∅ []).
Proof.
  apply (visualizer_skips_missing_columns (pd_DataFrame [])
           (Demo.tensor Z.of_nat 3) "out/plot.png" "norm" Demo.empty_world
           2 0).
  - reflexivity.
  - lia.
  - simpl. apply not_elem_of_nil.
Defined.



(** C7 at a six-character text and the two-layer model. *)
Lemma extractor_output_shape_witness :
  exists embeddings tokens w',
    extract_gpt2_embeddings (Demo.extractor Z.of_nat) " hi yo"
      Demo.empty_world = (Ok (embeddings, tokens), w') /\
    shape embeddings = [length tokens; 2; 3] /\
    length tokens = 6.
Proof.
  destruct (extractor_output_shape (Demo.extractor Z.of_nat) " hi yo"
              Demo.empty_world
              (map (fun l => Demo.hidden_state Z.of_nat l 6) [0; 1; 2]) 3)
    as (emb & tokens & w' & E & _ & Hshape & Hlen & _).
  - reflexivity.
  - reflexivity.
  - simpl. lia.
  - repeat constructor.
  - exists emb, tokens, w'. exact (conj E (conj Hshape Hlen)).
Defined.



(** X1 at two words of two tokens each over three tokens: the second
    word gets one row only. *)
Lemma aligned_word_and_time_columns_witness :
  exists df w',
    align_embeddings_to_words
      (Demo.extractor Z.of_nat) Demo.words demo_tokens
      (Demo.tensor Z.of_nat 3) Demo.empty_world
    = (Ok (df, Demo.tensor Z.of_nat 3, demo_tokens), w') /\
    map (dict_get "word") (records df)
    = [Some (CellStr "hi"); Some (CellStr "hi"); Some (CellStr "yo")].
Proof.
  destruct (align_returns
              (Demo.extractor Z.of_nat) Demo.words demo_tokens
              (Demo.tensor Z.of_nat 3) Demo.empty_world 3 2 3 [] eq_refl
              (le_n 3)) as [w' E].
  eexists _, w'. split; [exact E|].
  exact (proj1 (proj2 (aligned_word_and_time_columns _ _ _ _ _ _ _ _ _ E))).
Defined.

(** X2 at one word of two tokens over three tokens: the first two
    tokens. *)
Lemma aligned_token_column_witness :
  exists df w',
    align_embeddings_to_words
      (Demo.extractor Z.of_nat) [MkWord "hi" 0 400] demo_tokens
      (Demo.tensor Z.of_nat 3) Demo.empty_world
    = (Ok (df, Demo.tensor Z.of_nat 3, demo_tokens), w') /\
    map (dict_get "token") (records df)
    = [Some (CellStr "a"); Some (CellStr "b")].
Proof.
  destruct (align_returns
              (Demo.extractor Z.of_nat) [MkWord "hi" 0 400] demo_tokens
              (Demo.tensor Z.of_nat 3) Demo.empty_world 3 2 3 [] eq_refl
              (le_n 3)) as [w' E].
  eexists _, w'. split; [exact E|].
  exact (aligned_token_column _ _ _ _ _ _ _ _ _ E).
Defined.

(** X3 at a token that is a line feed. *)
Lemma aligned_tokens_have_no_line_feed_witness :
  exists s,
    s = "\n" /\ str_has_char lf s = false.
Proof.
  destruct (align_returns
              (Demo.extractor Z.of_nat) [MkWord "a" 0 1] [nl]
              (Demo.tensor Z.of_nat 1) Demo.empty_world 1 2 3 [] eq_refl
              (le_n 1)) as [w' E].
  eexists. split; [reflexivity|].
  refine (aligned_tokens_have_no_line_feed _ _ _ _ _ _ _ _ _
            (row_of [nl] (Demo.tensor Z.of_nat 1) 2 (MkPos "a" 0 1 0))
            _ E _ _).
  - simpl. apply list_elem_of_here.
  - reflexivity.
Defined.

(** X4 at two words in order of time. *)
Lemma aligned_timestamps_sorted_witness :
  exists df w' stamps,
    align_embeddings_to_words
      (Demo.extractor Z.of_nat) Demo.words demo_tokens
      (Demo.tensor Z.of_nat 3) Demo.empty_world
    = (Ok (df, Demo.tensor Z.of_nat 3, demo_tokens), w') /\
    map (dict_get "timestamp") (records df)
      = map (fun s => Some (CellTime s)) stamps /\
    StronglySorted Nat.le stamps.
Proof.
  destruct (align_returns
              (Demo.extractor Z.of_nat) Demo.words demo_tokens
              (Demo.tensor Z.of_nat 3) Demo.empty_world 3 2 3 [] eq_refl
              (le_n 3)) as [w' E].
  assert (Hs : Sorted Nat.le (map start Demo.words)).
  { repeat constructor. }
  destruct (aligned_timestamps_sorted Nat.le _ _ _ _ _ _ _ _ _ Hs E)
    as (stamps & H1 & H2).
  eexists _, w', stamps. exact (conj E (conj H1 H2)).
Defined.

(** X5 at three tokens and four isolated tokens: three rows, nine
    columns. *)
Lemma aligned_table_header_witness :
  exists df w',
    align_embeddings_to_words
      (Demo.extractor Z.of_nat) Demo.words demo_tokens
      (Demo.tensor Z.of_nat 3) Demo.empty_world
    = (Ok (df, Demo.tensor Z.of_nat 3, demo_tokens), w') /\
    length (records df) = 3.
Proof.
  destruct (aligned_table_header
              (Demo.extractor Z.of_nat) Demo.words demo_tokens
              (Demo.tensor Z.of_nat 3) Demo.empty_world 3 2 3 eq_refl (le_n 3))
    as (df & w' & E & Hlen & _).
  exists df, w'. exact (conj E Hlen).
Defined.

(** X6 at a six-character text and the two-layer model. *)
Lemma aligner_accepts_extractor_output_witness :
  exists embeddings tokens w1,
    extract_gpt2_embeddings (Demo.extractor Z.of_nat) " hi yo"
      Demo.empty_world = (Ok (embeddings, tokens), w1) /\
    exists df w2,
      align_embeddings_to_words (Demo.extractor Z.of_nat) Demo.words
        tokens embeddings w1 = (Ok (df, embeddings, tokens), w2) /\
      length (records df) = 4.
Proof.
  destruct (aligner_accepts_extractor_output (Demo.extractor Z.of_nat) " hi yo"
              Demo.empty_world
              (map (fun l => Demo.hidden_state Z.of_nat l 6) [0; 1; 2]) 3)
    as (emb & tokens & w1 & E & H).
  - reflexivity.
  - reflexivity.
  - simpl. lia.
  - repeat constructor.
  - exists emb, tokens, w1. split; [exact E|]. exact (H Demo.words).
Defined.

Lemma demo_plot_table_columns (i : nat) :
  i < 2 -> layer_col i "norm" ∈ columns demo_plot_table.
Proof.
  intros Hi. destruct i as [|[|i]]; [| |lia];
    apply (bool_decide_unpack _); vm_compute; exact I.
Qed.

Lemma demo_repeat_table_columns (i : nat) :
  i < 2 -> layer_col i "norm" ∈ columns demo_repeat_table.
Proof.
  intros Hi. destruct i as [|[|i]]; [| |lia];
    apply (bool_decide_unpack _); vm_compute; exact I.
Qed.

(** X7 at a table of two rows, a tensor of two layers and the output
    name [out/p], which has no extension: the figure is written at
    [out/p.png]. *)
Lemma visualizer_writes_figure_witness :
  exists fig,
    fst (visualize_embeddings demo_plot_table (Demo.tensor Z.of_nat 2)
           "out/p" "norm" Demo.out_world) = Ok tt /\
    fs_files (snd (visualize_embeddings demo_plot_table
                     (Demo.tensor Z.of_nat 2) "out/p" "norm"
                     Demo.out_world))
    = <[ ["out"; "p.png"] := ImageFile fig ]> ∅ /\
    length (heatmap_data fig) = 2.
Proof.
  destruct (visualizer_writes_figure demo_plot_table (Demo.tensor Z.of_nat 2)
              "out/p" "norm" "out/p.png" Demo.out_world 2)
    as (fig & E & _ & Hlen & _).
  - apply (bool_decide_unpack _). vm_compute. exact I.
  - reflexivity.
  - exact demo_plot_table_columns.
  - apply (bool_decide_unpack _). vm_compute. exact I.
  - intros _. apply (bool_decide_unpack _). vm_compute. exact I.
  - reflexivity.
  - reflexivity.
  - vm_compute. reflexivity.
  - vm_compute. reflexivity.
  - exists fig. rewrite E. exact (conj eq_refl (conj eq_refl Hlen)).
Defined.

(** X16 at a table of three rows whose first word comes again in the
    third: two markers, at the timestamps of the first and the second
    row. *)
Lemma visualizer_word_markers_witness :
  exists fig,
    fs_files (snd (visualize_embeddings demo_repeat_table
                     (Demo.tensor Z.of_nat 3) "out/p.png" "norm"
                     Demo.out_world))
    !! ["out"; "p.png"] = Some (ImageFile fig) /\
    word_markers fig = [Some (CellTime 0); Some (CellTime 500)].
Proof.
  destruct (visualizer_word_markers demo_repeat_table (Demo.tensor Z.of_nat 3)
              "out/p.png" "norm" "out/p.png" Demo.out_world 2)
    as (fig & w' & E & Hfile & Hmarks).
  - apply (bool_decide_unpack _). vm_compute. exact I.
  - reflexivity.
  - exact demo_repeat_table_columns.
  - apply (bool_decide_unpack _). vm_compute. exact I.
  - apply (bool_decide_unpack _). vm_compute. exact I.
  - repeat constructor; by eexists.
  - exact demo_words_compared.
  - reflexivity.
  - reflexivity.
  - vm_compute. reflexivity.
  - vm_compute. reflexivity.
  - exists fig. rewrite E. split; [exact Hfile|].
    rewrite Hmarks. vm_compute. reflexivity.
Defined.

(** X8 at the table path [out/x.csv]: the array goes to
    [out/x_full.npy]. *)
Lemma exporter_array_file_name_witness :
  fs_files (snd (save_embeddings Demo.small_table "out/x.csv"
                   (Some (Demo.tensor Z.of_nat 1)) Demo.out_world))
  = <[ ["out"; "x_full.npy"] := NpyFile (Demo.tensor Z.of_nat 1) ]>
      (<[ ["out"; "x.csv"] := csv_of Demo.small_table ]> ∅).
Proof.
  destruct (exporter_array_file_name Demo.small_table "out/x"
              (Demo.tensor Z.of_nat 1) Demo.out_world eq_refl) as (H & _).
  exact (proj2 (H eq_refl eq_refl)).
Defined.


(** X12 at a run of the pipeline on [hello.wav]: the input file is
    still there after it. *)
Lemma pipeline_only_adds_witness :
  [] `prefix_of`
    stderr (snd (process_audio_file (Demo.extractor Z.of_nat) "hello.wav"
                   (Some "out/emb") Demo.hello_world)) /\
  dom (fs_files (Demo.hello_world (F := Z)))
    ⊆ dom (fs_files (snd (process_audio_file (Demo.extractor Z.of_nat)
                            "hello.wav" (Some "out/emb") Demo.hello_world))).
Proof.
  destruct (pipeline_only_adds (Demo.extractor Z.of_nat) "hello.wav"
              (Some "out/emb") Demo.hello_world _ _
              (surjective_pairing _)) as (H1 & _ & H2 & _).
  exact (conj H1 H2).
Defined.


(** X15 at three tokens, two layers and the norm. *)
Lemma visualizer_after_aligner_witness :
  exists df w1,
    align_embeddings_to_words
      (Demo.extractor Z.of_nat) Demo.words demo_tokens
      (Demo.tensor Z.of_nat 3) Demo.empty_world
    = (Ok (df, Demo.tensor Z.of_nat 3, demo_tokens), w1) /\
    (records df <> [] -> "timestamp" ∈ columns df).
Proof.
  destruct (visualizer_after_aligner
              (Demo.extractor Z.of_nat) Demo.words demo_tokens
              (Demo.tensor Z.of_nat 3) Demo.empty_world 3 2 3 "norm"
              eq_refl (le_n 3))
    as (df & w1 & E & _ & _ & H).
  - lia.
  - repeat constructor.
  - exists df, w1. split; [exact E|].
    intros Hne. exact (proj1 (proj2 (H Hne))).
Defined.


(** X18 at a run on [hello.wav]: the run returns, so the four stages
    did, and the input file is the only file up to the export. *)
Lemma export_comes_last_witness :
  exists df emb w4,
    reaches_export (Demo.extractor Z.of_nat) "hello.wav" (Some "out/emb")
      Demo.hello_world df emb w4 /\
    fs_files w4 = fs_files (Demo.hello_world (F := Z)).
Proof.
  destruct (export_comes_last (Demo.extractor Z.of_nat) "hello.wav"
              (Some "out/emb") Demo.hello_world)
    as [(e & He & _)|(df & emb & w4 & H1 & H2 & _)].
  - vm_compute in He. discriminate He.
  - exists df, emb, w4. exact (conj H1 H2).
Defined.
